(** * Luma Windows Agent: task lifecycle, log tee and rule persistence

    A shallow embedding of the non-layout parts of [src/main.py]
    (class [WindowsAgentGUI]): the command handlers [send_command],
    [start_task] and [stop_task], the worker coroutine
    [execute_agent_task_async], the [TeeOutput] log sink of
    [capture_agent_output], and the JSON persistence helpers.

    Conventions.
    - A Python [str] is a sequence of Unicode code points ([list N]).
    - The attributes of [self] that the modelled methods read or write are the
      fields of the record [App]; methods are computations in a state and
      exception monad over [App].
    - What lies outside the program (the wall clock, the file system and its
      faults, the agent library, whether asyncio delivers a cancellation while
      the agent's call is awaited) is part of the state or an explicit
      argument. *)

From Stdlib Require Import NArith Ascii String DecimalString.
From stdpp Require Import gmap strings list.

Open Scope list_scope.

(** ** Python strings *)

Module Str.

Definition char := N.
Definition str := list char.

(** An ASCII literal of the source, as code points. *)
Definition py (s : string) : str := N_of_ascii <$> list_ascii_of_string s.
Arguments py : simpl never.

(** [str.isspace] on one code point: the characters [str.strip()] removes. *)
Definition isspace (c : char) : bool :=
  ((9 <=? c) && (c <=? 13) || (28 <=? c) && (c <=? 32)
   || (c =? 133) || (c =? 160) || (c =? 5760)
   || (8192 <=? c) && (c <=? 8202)
   || (c =? 8232) || (c =? 8233) || (c =? 8239) || (c =? 8287)
   || (c =? 12288))%N.

Fixpoint lstrip (s : str) : str :=
  match s with
  | c :: s' => if isspace c then lstrip s' else s
  | [] => []
  end.

Definition rstrip (s : str) : str := reverse (lstrip (reverse s)).

(** [s.strip()] *)
Definition strip (s : str) : str := rstrip (lstrip s).

(** Truth value of a string: non-empty. *)
Definition truthy (s : str) : bool :=
  match s with [] => false | _ :: _ => true end.

Fixpoint startswith (s p : str) {struct p} : bool :=
  match p, s with
  | [], _ => true
  | c :: p', d :: s' => (c =? d)%N && startswith s' p'
  | _ :: _, [] => false
  end.

(** [needle in hay] *)
Fixpoint contains (needle hay : str) : bool :=
  startswith hay needle ||
  match hay with
  | [] => false
  | _ :: hay' => contains needle hay'
  end.

Definition endswith (s p : str) : bool := startswith (reverse s) (reverse p).

(** [str(i)] for a non-negative integer. *)
Definition of_nat (i : nat) : str := py (NilZero.string_of_uint (Nat.to_uint i)).

Definition LF : char := 10%N.

(** [s.split('\n', 1)] when ['\n' in s]: the text before the first line break
    and the text after it; [None] when [s] has no line break. *)
Fixpoint split_nl (s : str) : option (str * str) :=
  match s with
  | [] => None
  | c :: s' =>
      if (c =? LF)%N then Some ([], s')
      else match split_nl s' with
           | Some (line, rest) => Some (c :: line, rest)
           | None => None
           end
  end.

(** The complete lines of a text and the partial line after its last line
    break. *)
Fixpoint lines_of (s : str) : list str * str :=
  match s with
  | [] => ([], [])
  | c :: s' =>
      if (c =? LF)%N then ([] :: (lines_of s').1, (lines_of s').2)
      else match (lines_of s').1 with
           | line :: lines => ((c :: line) :: lines, (lines_of s').2)
           | [] => ([], c :: (lines_of s').2)
           end
  end.

End Str.
Import Str.

(** ** Data *)

(** A parsed JSON document, as [json.load] returns it and [json.dump] takes
    it. *)
#[warnings="-register-all"]
Inductive json :=
  | JNull
  | JBool (b : bool)
  | JInt (n : Z)
  | JFloat (repr : str)
  | JStr (s : str)
  | JArr (l : list json)
  | JObj (kv : list (str * json)).

(** What a file of the working directory holds, up to JSON parsing: a
    document, or text that [json.load] rejects with the given message (also
    what a write that failed half-way leaves behind). *)
Inductive document :=
  | Json (v : json)
  | Garbage (why : str).

(** How an operation on a file fails, when it does: [open] raises, or the
    write raises after [open(..., 'w')] has truncated the file. *)
Inductive fault :=
  | OpenFails (msg : str)
  | WriteFails (msg : str).

(** The two exception classes the handlers tell apart: [asyncio.CancelledError]
    (not an [Exception]) and [Exception] with its [str(e)]. *)
Inductive exn :=
  | CancelledError
  | Exception (msg : str).

(** How a call ends. *)
Inductive outcome (A : Type) :=
  | Return (a : A)
  | Raise (e : exn).
Arguments Return {A} a.
Arguments Raise {A} e.

(** An entry of the message queue: [(sender, message, msg_type)]. *)
Definition Msg : Type := str * str * str.

(** An element of [self.chat_history]. *)
Record ChatMessage := mkChatMessage {
  cm_timestamp : str;
  cm_sender : str;
  cm_message : str;
  cm_type : str
}.

(** What the handlers observe of the [asyncio.Task] in [self.current_task]:
    whether [cancel()] was called on it and whether it is [done()]. *)
Record Task := mkTask {
  cancel_requested : bool;
  done : bool
}.

(** A [threading.Thread] with target [run_agent_task_async]. *)
Record Thread := mkThread {
  args : str;
  daemon : bool
}.

Definition Agent := unit.

(** What [self.agent.invoke] returns: an object that may have a [content]
    attribute. *)
Record AgentResult := mkAgentResult { content : option str }.

Record Settings := mkSettings {
  rules : list str;
  theme : str
}.

Inductive ButtonState := normal | disabled.

(** A label of the sidebar: the text it shows and the task its click handler
    is bound to. *)
Record TaskLabel := mkTaskLabel {
  text : str;
  bound_task : str
}.

(** The settings window, while it exists. *)
Record SettingsWindow := mkSettingsWindow {
  api_key_entry : str;
  rule_entries : list str
}.

(** A [messagebox] call. *)
Inductive Dialog :=
  | showwarning (title message : str)
  | showerror (title message : str).

(** A [TeeOutput] object. Its [original] stream is the terminal ([console]
    below, to which both original streams are attached: which of the two a
    text went to is not recorded) and its [message_queue] is the
    application's; the [StringIO] copy in [captured], which nothing reads, is
    left out. *)
Record TeeOutput := mkTeeOutput {
  sender : str;
  buffer : str
}.

Inductive Stream := stdout | stderr.

(** What the agent library does with [sys.stdout] and [sys.stderr] during
    [agent.invoke]. *)
Inductive SinkEvent :=
  | Wrote (st : Stream) (text : str)
  | Flushed (st : Stream).

(** What the surroundings of one run of the coroutine answer: whether a
    cancellation requested with [cancel()] (by [stop_task], before or during
    the agent's call) is delivered at the [await], and the agent library's
    behaviour on a query. *)
Record Run := mkRun {
  cancelled_at_await : bool;
  invoke : str → list SinkEvent * outcome AgentResult
}.

(** ** Application state *)

Set Primitive Projections.

Record App := mkApp {
  (* attributes of self *)
  command_entry : str;              (* text of the entry widget *)
  current_api_key : str;
  agent : option Agent;
  is_task_running : bool;
  current_task : option Task;
  task_thread : option Thread;
  message_queue : list Msg;         (* FIFO, [put] appends *)
  chat_history : list ChatMessage;
  task_history : list str;
  settings : Settings;
  chat_display : list str;          (* texts inserted at END *)
  start_button : ButtonState;
  stop_button : ButtonState;
  task_history_frame : list TaskLabel;
  settings_window : option SettingsWindow;
  (* process and environment *)
  sys_stdout : option TeeOutput;    (* None: the original stream *)
  sys_stderr : option TeeOutput;
  dialogs : list Dialog;            (* message boxes shown so far *)
  console : str;                    (* everything written to the terminal *)
  started_threads : list Thread;
  agent_calls : list str;           (* the queries agent.invoke received *)
  files : gmap string document;     (* the working directory *)
  faults : gmap string fault;       (* the files whose access fails *)
  now : str;                        (* datetime.now().strftime("%H:%M:%S") *)
  agent_ctor : option str           (* Some msg: building the agent raises *)
}.

Unset Primitive Projections.

(** Attribute assignment, one setter per attribute. *)

Definition set_command_entry (v : str) (a : App) : App :=
  {| command_entry := v; current_api_key := current_api_key a; agent := agent a;
     is_task_running := is_task_running a; current_task := current_task a;
     task_thread := task_thread a; message_queue := message_queue a;
     chat_history := chat_history a; task_history := task_history a; settings := settings a;
     chat_display := chat_display a; start_button := start_button a;
     stop_button := stop_button a; task_history_frame := task_history_frame a;
     settings_window := settings_window a; sys_stdout := sys_stdout a;
     sys_stderr := sys_stderr a; dialogs := dialogs a; console := console a;
     started_threads := started_threads a; agent_calls := agent_calls a; files := files a;
     faults := faults a; now := now a; agent_ctor := agent_ctor a |}.

Definition set_current_api_key (v : str) (a : App) : App :=
  {| command_entry := command_entry a; current_api_key := v; agent := agent a;
     is_task_running := is_task_running a; current_task := current_task a;
     task_thread := task_thread a; message_queue := message_queue a;
     chat_history := chat_history a; task_history := task_history a; settings := settings a;
     chat_display := chat_display a; start_button := start_button a;
     stop_button := stop_button a; task_history_frame := task_history_frame a;
     settings_window := settings_window a; sys_stdout := sys_stdout a;
     sys_stderr := sys_stderr a; dialogs := dialogs a; console := console a;
     started_threads := started_threads a; agent_calls := agent_calls a; files := files a;
     faults := faults a; now := now a; agent_ctor := agent_ctor a |}.

Definition set_agent (v : option Agent) (a : App) : App :=
  {| command_entry := command_entry a; current_api_key := current_api_key a; agent := v;
     is_task_running := is_task_running a; current_task := current_task a;
     task_thread := task_thread a; message_queue := message_queue a;
     chat_history := chat_history a; task_history := task_history a; settings := settings a;
     chat_display := chat_display a; start_button := start_button a;
     stop_button := stop_button a; task_history_frame := task_history_frame a;
     settings_window := settings_window a; sys_stdout := sys_stdout a;
     sys_stderr := sys_stderr a; dialogs := dialogs a; console := console a;
     started_threads := started_threads a; agent_calls := agent_calls a; files := files a;
     faults := faults a; now := now a; agent_ctor := agent_ctor a |}.

Definition set_is_task_running (v : bool) (a : App) : App :=
  {| command_entry := command_entry a; current_api_key := current_api_key a; agent := agent a;
     is_task_running := v; current_task := current_task a; task_thread := task_thread a;
     message_queue := message_queue a; chat_history := chat_history a;
     task_history := task_history a; settings := settings a; chat_display := chat_display a;
     start_button := start_button a; stop_button := stop_button a;
     task_history_frame := task_history_frame a; settings_window := settings_window a;
     sys_stdout := sys_stdout a; sys_stderr := sys_stderr a; dialogs := dialogs a;
     console := console a; started_threads := started_threads a; agent_calls := agent_calls a;
     files := files a; faults := faults a; now := now a; agent_ctor := agent_ctor a |}.

Definition set_current_task (v : option Task) (a : App) : App :=
  {| command_entry := command_entry a; current_api_key := current_api_key a; agent := agent a;
     is_task_running := is_task_running a; current_task := v; task_thread := task_thread a;
     message_queue := message_queue a; chat_history := chat_history a;
     task_history := task_history a; settings := settings a; chat_display := chat_display a;
     start_button := start_button a; stop_button := stop_button a;
     task_history_frame := task_history_frame a; settings_window := settings_window a;
     sys_stdout := sys_stdout a; sys_stderr := sys_stderr a; dialogs := dialogs a;
     console := console a; started_threads := started_threads a; agent_calls := agent_calls a;
     files := files a; faults := faults a; now := now a; agent_ctor := agent_ctor a |}.

Definition set_task_thread (v : option Thread) (a : App) : App :=
  {| command_entry := command_entry a; current_api_key := current_api_key a; agent := agent a;
     is_task_running := is_task_running a; current_task := current_task a; task_thread := v;
     message_queue := message_queue a; chat_history := chat_history a;
     task_history := task_history a; settings := settings a; chat_display := chat_display a;
     start_button := start_button a; stop_button := stop_button a;
     task_history_frame := task_history_frame a; settings_window := settings_window a;
     sys_stdout := sys_stdout a; sys_stderr := sys_stderr a; dialogs := dialogs a;
     console := console a; started_threads := started_threads a; agent_calls := agent_calls a;
     files := files a; faults := faults a; now := now a; agent_ctor := agent_ctor a |}.

Definition set_message_queue (v : list Msg) (a : App) : App :=
  {| command_entry := command_entry a; current_api_key := current_api_key a; agent := agent a;
     is_task_running := is_task_running a; current_task := current_task a;
     task_thread := task_thread a; message_queue := v; chat_history := chat_history a;
     task_history := task_history a; settings := settings a; chat_display := chat_display a;
     start_button := start_button a; stop_button := stop_button a;
     task_history_frame := task_history_frame a; settings_window := settings_window a;
     sys_stdout := sys_stdout a; sys_stderr := sys_stderr a; dialogs := dialogs a;
     console := console a; started_threads := started_threads a; agent_calls := agent_calls a;
     files := files a; faults := faults a; now := now a; agent_ctor := agent_ctor a |}.

Definition set_chat_history (v : list ChatMessage) (a : App) : App :=
  {| command_entry := command_entry a; current_api_key := current_api_key a; agent := agent a;
     is_task_running := is_task_running a; current_task := current_task a;
     task_thread := task_thread a; message_queue := message_queue a; chat_history := v;
     task_history := task_history a; settings := settings a; chat_display := chat_display a;
     start_button := start_button a; stop_button := stop_button a;
     task_history_frame := task_history_frame a; settings_window := settings_window a;
     sys_stdout := sys_stdout a; sys_stderr := sys_stderr a; dialogs := dialogs a;
     console := console a; started_threads := started_threads a; agent_calls := agent_calls a;
     files := files a; faults := faults a; now := now a; agent_ctor := agent_ctor a |}.

Definition set_task_history (v : list str) (a : App) : App :=
  {| command_entry := command_entry a; current_api_key := current_api_key a; agent := agent a;
     is_task_running := is_task_running a; current_task := current_task a;
     task_thread := task_thread a; message_queue := message_queue a;
     chat_history := chat_history a; task_history := v; settings := settings a;
     chat_display := chat_display a; start_button := start_button a;
     stop_button := stop_button a; task_history_frame := task_history_frame a;
     settings_window := settings_window a; sys_stdout := sys_stdout a;
     sys_stderr := sys_stderr a; dialogs := dialogs a; console := console a;
     started_threads := started_threads a; agent_calls := agent_calls a; files := files a;
     faults := faults a; now := now a; agent_ctor := agent_ctor a |}.

Definition set_settings (v : Settings) (a : App) : App :=
  {| command_entry := command_entry a; current_api_key := current_api_key a; agent := agent a;
     is_task_running := is_task_running a; current_task := current_task a;
     task_thread := task_thread a; message_queue := message_queue a;
     chat_history := chat_history a; task_history := task_history a; settings := v;
     chat_display := chat_display a; start_button := start_button a;
     stop_button := stop_button a; task_history_frame := task_history_frame a;
     settings_window := settings_window a; sys_stdout := sys_stdout a;
     sys_stderr := sys_stderr a; dialogs := dialogs a; console := console a;
     started_threads := started_threads a; agent_calls := agent_calls a; files := files a;
     faults := faults a; now := now a; agent_ctor := agent_ctor a |}.

Definition set_chat_display (v : list str) (a : App) : App :=
  {| command_entry := command_entry a; current_api_key := current_api_key a; agent := agent a;
     is_task_running := is_task_running a; current_task := current_task a;
     task_thread := task_thread a; message_queue := message_queue a;
     chat_history := chat_history a; task_history := task_history a; settings := settings a;
     chat_display := v; start_button := start_button a; stop_button := stop_button a;
     task_history_frame := task_history_frame a; settings_window := settings_window a;
     sys_stdout := sys_stdout a; sys_stderr := sys_stderr a; dialogs := dialogs a;
     console := console a; started_threads := started_threads a; agent_calls := agent_calls a;
     files := files a; faults := faults a; now := now a; agent_ctor := agent_ctor a |}.

Definition set_start_button (v : ButtonState) (a : App) : App :=
  {| command_entry := command_entry a; current_api_key := current_api_key a; agent := agent a;
     is_task_running := is_task_running a; current_task := current_task a;
     task_thread := task_thread a; message_queue := message_queue a;
     chat_history := chat_history a; task_history := task_history a; settings := settings a;
     chat_display := chat_display a; start_button := v; stop_button := stop_button a;
     task_history_frame := task_history_frame a; settings_window := settings_window a;
     sys_stdout := sys_stdout a; sys_stderr := sys_stderr a; dialogs := dialogs a;
     console := console a; started_threads := started_threads a; agent_calls := agent_calls a;
     files := files a; faults := faults a; now := now a; agent_ctor := agent_ctor a |}.

Definition set_stop_button (v : ButtonState) (a : App) : App :=
  {| command_entry := command_entry a; current_api_key := current_api_key a; agent := agent a;
     is_task_running := is_task_running a; current_task := current_task a;
     task_thread := task_thread a; message_queue := message_queue a;
     chat_history := chat_history a; task_history := task_history a; settings := settings a;
     chat_display := chat_display a; start_button := start_button a; stop_button := v;
     task_history_frame := task_history_frame a; settings_window := settings_window a;
     sys_stdout := sys_stdout a; sys_stderr := sys_stderr a; dialogs := dialogs a;
     console := console a; started_threads := started_threads a; agent_calls := agent_calls a;
     files := files a; faults := faults a; now := now a; agent_ctor := agent_ctor a |}.

Definition set_task_history_frame (v : list TaskLabel) (a : App) : App :=
  {| command_entry := command_entry a; current_api_key := current_api_key a; agent := agent a;
     is_task_running := is_task_running a; current_task := current_task a;
     task_thread := task_thread a; message_queue := message_queue a;
     chat_history := chat_history a; task_history := task_history a; settings := settings a;
     chat_display := chat_display a; start_button := start_button a;
     stop_button := stop_button a; task_history_frame := v;
     settings_window := settings_window a; sys_stdout := sys_stdout a;
     sys_stderr := sys_stderr a; dialogs := dialogs a; console := console a;
     started_threads := started_threads a; agent_calls := agent_calls a; files := files a;
     faults := faults a; now := now a; agent_ctor := agent_ctor a |}.

Definition set_settings_window (v : option SettingsWindow) (a : App) : App :=
  {| command_entry := command_entry a; current_api_key := current_api_key a; agent := agent a;
     is_task_running := is_task_running a; current_task := current_task a;
     task_thread := task_thread a; message_queue := message_queue a;
     chat_history := chat_history a; task_history := task_history a; settings := settings a;
     chat_display := chat_display a; start_button := start_button a;
     stop_button := stop_button a; task_history_frame := task_history_frame a;
     settings_window := v; sys_stdout := sys_stdout a; sys_stderr := sys_stderr a;
     dialogs := dialogs a; console := console a; started_threads := started_threads a;
     agent_calls := agent_calls a; files := files a; faults := faults a; now := now a;
     agent_ctor := agent_ctor a |}.

Definition set_sys_stdout (v : option TeeOutput) (a : App) : App :=
  {| command_entry := command_entry a; current_api_key := current_api_key a; agent := agent a;
     is_task_running := is_task_running a; current_task := current_task a;
     task_thread := task_thread a; message_queue := message_queue a;
     chat_history := chat_history a; task_history := task_history a; settings := settings a;
     chat_display := chat_display a; start_button := start_button a;
     stop_button := stop_button a; task_history_frame := task_history_frame a;
     settings_window := settings_window a; sys_stdout := v; sys_stderr := sys_stderr a;
     dialogs := dialogs a; console := console a; started_threads := started_threads a;
     agent_calls := agent_calls a; files := files a; faults := faults a; now := now a;
     agent_ctor := agent_ctor a |}.

Definition set_sys_stderr (v : option TeeOutput) (a : App) : App :=
  {| command_entry := command_entry a; current_api_key := current_api_key a; agent := agent a;
     is_task_running := is_task_running a; current_task := current_task a;
     task_thread := task_thread a; message_queue := message_queue a;
     chat_history := chat_history a; task_history := task_history a; settings := settings a;
     chat_display := chat_display a; start_button := start_button a;
     stop_button := stop_button a; task_history_frame := task_history_frame a;
     settings_window := settings_window a; sys_stdout := sys_stdout a; sys_stderr := v;
     dialogs := dialogs a; console := console a; started_threads := started_threads a;
     agent_calls := agent_calls a; files := files a; faults := faults a; now := now a;
     agent_ctor := agent_ctor a |}.

Definition set_dialogs (v : list Dialog) (a : App) : App :=
  {| command_entry := command_entry a; current_api_key := current_api_key a; agent := agent a;
     is_task_running := is_task_running a; current_task := current_task a;
     task_thread := task_thread a; message_queue := message_queue a;
     chat_history := chat_history a; task_history := task_history a; settings := settings a;
     chat_display := chat_display a; start_button := start_button a;
     stop_button := stop_button a; task_history_frame := task_history_frame a;
     settings_window := settings_window a; sys_stdout := sys_stdout a;
     sys_stderr := sys_stderr a; dialogs := v; console := console a;
     started_threads := started_threads a; agent_calls := agent_calls a; files := files a;
     faults := faults a; now := now a; agent_ctor := agent_ctor a |}.

Definition set_console (v : str) (a : App) : App :=
  {| command_entry := command_entry a; current_api_key := current_api_key a; agent := agent a;
     is_task_running := is_task_running a; current_task := current_task a;
     task_thread := task_thread a; message_queue := message_queue a;
     chat_history := chat_history a; task_history := task_history a; settings := settings a;
     chat_display := chat_display a; start_button := start_button a;
     stop_button := stop_button a; task_history_frame := task_history_frame a;
     settings_window := settings_window a; sys_stdout := sys_stdout a;
     sys_stderr := sys_stderr a; dialogs := dialogs a; console := v;
     started_threads := started_threads a; agent_calls := agent_calls a; files := files a;
     faults := faults a; now := now a; agent_ctor := agent_ctor a |}.

Definition set_started_threads (v : list Thread) (a : App) : App :=
  {| command_entry := command_entry a; current_api_key := current_api_key a; agent := agent a;
     is_task_running := is_task_running a; current_task := current_task a;
     task_thread := task_thread a; message_queue := message_queue a;
     chat_history := chat_history a; task_history := task_history a; settings := settings a;
     chat_display := chat_display a; start_button := start_button a;
     stop_button := stop_button a; task_history_frame := task_history_frame a;
     settings_window := settings_window a; sys_stdout := sys_stdout a;
     sys_stderr := sys_stderr a; dialogs := dialogs a; console := console a;
     started_threads := v; agent_calls := agent_calls a; files := files a; faults := faults a;
     now := now a; agent_ctor := agent_ctor a |}.

Definition set_agent_calls (v : list str) (a : App) : App :=
  {| command_entry := command_entry a; current_api_key := current_api_key a; agent := agent a;
     is_task_running := is_task_running a; current_task := current_task a;
     task_thread := task_thread a; message_queue := message_queue a;
     chat_history := chat_history a; task_history := task_history a; settings := settings a;
     chat_display := chat_display a; start_button := start_button a;
     stop_button := stop_button a; task_history_frame := task_history_frame a;
     settings_window := settings_window a; sys_stdout := sys_stdout a;
     sys_stderr := sys_stderr a; dialogs := dialogs a; console := console a;
     started_threads := started_threads a; agent_calls := v; files := files a;
     faults := faults a; now := now a; agent_ctor := agent_ctor a |}.

Definition set_files (v : gmap string document) (a : App) : App :=
  {| command_entry := command_entry a; current_api_key := current_api_key a; agent := agent a;
     is_task_running := is_task_running a; current_task := current_task a;
     task_thread := task_thread a; message_queue := message_queue a;
     chat_history := chat_history a; task_history := task_history a; settings := settings a;
     chat_display := chat_display a; start_button := start_button a;
     stop_button := stop_button a; task_history_frame := task_history_frame a;
     settings_window := settings_window a; sys_stdout := sys_stdout a;
     sys_stderr := sys_stderr a; dialogs := dialogs a; console := console a;
     started_threads := started_threads a; agent_calls := agent_calls a; files := v;
     faults := faults a; now := now a; agent_ctor := agent_ctor a |}.

Definition set_faults (v : gmap string fault) (a : App) : App :=
  {| command_entry := command_entry a; current_api_key := current_api_key a; agent := agent a;
     is_task_running := is_task_running a; current_task := current_task a;
     task_thread := task_thread a; message_queue := message_queue a;
     chat_history := chat_history a; task_history := task_history a; settings := settings a;
     chat_display := chat_display a; start_button := start_button a;
     stop_button := stop_button a; task_history_frame := task_history_frame a;
     settings_window := settings_window a; sys_stdout := sys_stdout a;
     sys_stderr := sys_stderr a; dialogs := dialogs a; console := console a;
     started_threads := started_threads a; agent_calls := agent_calls a; files := files a;
     faults := v; now := now a; agent_ctor := agent_ctor a |}.

Definition set_now (v : str) (a : App) : App :=
  {| command_entry := command_entry a; current_api_key := current_api_key a; agent := agent a;
     is_task_running := is_task_running a; current_task := current_task a;
     task_thread := task_thread a; message_queue := message_queue a;
     chat_history := chat_history a; task_history := task_history a; settings := settings a;
     chat_display := chat_display a; start_button := start_button a;
     stop_button := stop_button a; task_history_frame := task_history_frame a;
     settings_window := settings_window a; sys_stdout := sys_stdout a;
     sys_stderr := sys_stderr a; dialogs := dialogs a; console := console a;
     started_threads := started_threads a; agent_calls := agent_calls a; files := files a;
     faults := faults a; now := v; agent_ctor := agent_ctor a |}.

Definition set_agent_ctor (v : option str) (a : App) : App :=
  {| command_entry := command_entry a; current_api_key := current_api_key a; agent := agent a;
     is_task_running := is_task_running a; current_task := current_task a;
     task_thread := task_thread a; message_queue := message_queue a;
     chat_history := chat_history a; task_history := task_history a; settings := settings a;
     chat_display := chat_display a; start_button := start_button a;
     stop_button := stop_button a; task_history_frame := task_history_frame a;
     settings_window := settings_window a; sys_stdout := sys_stdout a;
     sys_stderr := sys_stderr a; dialogs := dialogs a; console := console a;
     started_threads := started_threads a; agent_calls := agent_calls a; files := files a;
     faults := faults a; now := now a; agent_ctor := v |}.

(** ** Methods as computations: state and exceptions *)

(** A method body: from the state before to its outcome and the state after.
    Mutations made before an exception is raised persist. *)
Definition M (A : Type) : Type := App → outcome A * App.

Definition ret {A} (x : A) : M A := λ a, (Return x, a).

Definition bind {A B} (m : M A) (k : A → M B) : M B :=
  λ a, match m a with
       | (Return x, a') => k x a'
       | (Raise e, a') => (Raise e, a')
       end.

Definition raise {A} (e : exn) : M A := λ a, (Raise e, a).

(** Read an attribute; run a mutation. *)
Definition gets {A} (f : App → A) : M A := λ a, (Return (f a), a).
Definition modify (f : App → App) : M unit := λ a, (Return tt, f a).

(** [try: m  except Exception as e: h(str(e))]; a [CancelledError] passes. *)
Definition try_except {A} (m : M A) (h : str → M A) : M A :=
  λ a, match m a with
       | (Raise (Exception msg), a') => h msg a'
       | r => r
       end.

(** [try: m  except asyncio.CancelledError: h] *)
Definition try_except_cancelled {A} (m : M A) (h : M A) : M A :=
  λ a, match m a with
       | (Raise CancelledError, a') => h a'
       | r => r
       end.

(** [try: m  finally: f] *)
Definition try_finally {A} (m : M A) (f : M unit) : M A :=
  λ a, match m a with
       | (r, a') => match f a' with
                    | (Return _, a'') => (r, a'')
                    | (Raise e, a'') => (Raise e, a'')
                    end
       end.

Declare Scope prog_scope.
Delimit Scope prog_scope with prog.
Bind Scope prog_scope with M.
Notation "x <- m ;; k" := (bind m (λ x, k))
  (at level 100, m at next level, k at level 200, right associativity) : prog_scope.
Notation "m ;; k" := (bind m (λ _, k))
  (at level 100, k at level 200, right associativity) : prog_scope.

(** Run a method and keep the state, or the outcome. *)
Definition exec {A} (m : M A) (a : App) : App := snd (m a).
Definition eval {A} (m : M A) (a : App) : outcome A := fst (m a).

Open Scope prog_scope.

(** ** States used in the examples *)

(** The application right after start-up, with nothing on disk and no
    credential. *)
Definition initial : App :=
  {| command_entry := py "Message Luma"; current_api_key := []; agent := None;
     is_task_running := false; current_task := None; task_thread := None;
     message_queue := []; chat_history := []; task_history := [];
     settings := mkSettings [] (py "dark"); chat_display := [];
     start_button := normal; stop_button := disabled; task_history_frame := [];
     settings_window := None; sys_stdout := None; sys_stderr := None;
     dialogs := []; console := []; started_threads := []; agent_calls := [];
     files := ∅; faults := ∅; now := py "12:00:00"; agent_ctor := None |}.

(** A credential is configured and the agent is built. *)
Definition ready : App := set_agent (Some tt) (set_current_api_key (py "key") initial).

(** A first task is running; the user has typed a second command. *)
Definition busy : App :=
  set_command_entry (py "second task")
    (set_task_history [py "first task"]
       (set_is_task_running true
          (set_current_task (Some (mkTask false false))
             (set_task_thread (Some (mkThread (py "first task") true))
                (set_started_threads [mkThread (py "first task") true]
                   (set_stop_button normal (set_start_button disabled ready))))))).

(** The rules "A" and "B" are configured. *)
Definition with_rules_AB : App :=
  set_settings (mkSettings [py "A"; py "B"] (py "dark")) ready.

(** The settings window is open; two of its five rule fields hold the same
    rule, two are blank. *)
Definition settings_open : App :=
  set_settings_window
    (Some (mkSettingsWindow (py "key")
             [py " Be brief "; []; py "Be brief"; py "Cite sources"; py "  "]))
    ready.

(** No file of the working directory can be opened. *)
Definition read_only (a : App) : App :=
  set_faults
    (<["rules.json" := OpenFails (py "Permission denied")]>
       (<["task_history.json" := OpenFails (py "Permission denied")]>
          (<["chat_history.json" := OpenFails (py "Permission denied")]>
             {["agent_settings.json" := OpenFails (py "Permission denied")]})))
    a.

(** [rules.json] holds three strings, one of them empty. *)
Definition rules_on_disk : App :=
  set_files {["rules.json" := Json (JArr [JStr (py " a "); JStr []; JStr (py "b")])]} ready.

(** Ten tasks were sent; the last one is longer than a label. *)
Definition ten_tasks : App :=
  set_task_history
    [py "t1"; py "t2"; py "t3"; py "t4"; py "t5"; py "t6"; py "t7"; py "t8"; py "t9";
     py "Go to microsoft word and write a short 20 word summary on agi."]
    ready.

(** An agent that prints the given chunks on one stream and returns. *)
Definition printing_agent (st : Stream) (chunks : list str) : Run :=
  {| cancelled_at_await := false;
     invoke := λ _, (Wrote st <$> chunks, Return (mkAgentResult (Some (py "done")))) |}.

(** [str.upper] on ASCII text; instances of the development run with it. *)
Definition ascii_upper (s : str) : str :=
  (λ c : char, if (97 <=? c)%N && (c <=? 122)%N then (c - 32)%N else c) <$> s.

Section Program.

(** [str.upper()], Unicode case mapping included, is Python's. *)
Variable upper : str → str.

(** The module-level flag set by the guarded imports. *)
Variable DEPENDENCIES_AVAILABLE : bool.

(** *** The log sink: [TeeOutput] *)

(** [TeeOutput.format_agent_log] *)
Definition format_agent_log (line : str) : option str :=
  let line := strip line in
  if negb (truthy line) then None
  else if contains (py "Iteration") line then Some ([0x1F504%N] ++ py " " ++ line)
  else if contains (py "Evaluate") line then Some ([0x1F50D%N] ++ py " " ++ line)
  else if contains (py "Memory") line then Some ([0x1F9E0%N] ++ py " " ++ line)
  else if contains (py "Thought") line then Some ([0x1F4AD%N] ++ py " " ++ line)
  else if contains (py "Action") line then Some ([0x26A1%N] ++ py " " ++ line)
  else if contains (py "Observation") line
       then Some ([0x1F441%N; 0xFE0F%N] ++ py " " ++ line)
  else if contains (py "Final Answer") line then Some ([0x2705%N] ++ py " " ++ line)
  else if contains (py "ERROR") (upper line) || contains (py "EXCEPTION") (upper line)
       then Some ([0x274C%N] ++ py " " ++ line)
  else if contains (py "WARNING") (upper line)
       then Some ([0x26A0%N; 0xFE0F%N] ++ py " " ++ line)
  else Some line.

(** What one line of the sink puts on the queue: nothing for a blank line,
    else the formatted line. *)
Definition forward (sender line : str) : list Msg :=
  if truthy (strip line) then
    match format_agent_log (strip line) with
    | Some formatted_line => [(sender, formatted_line, py "agent")]
    | None => []
    end
  else [].

(** The loop [while '\n' in self.buffer] of [TeeOutput.write]; every turn
    removes a line break, so [S (length buffer)] turns are enough. *)
Fixpoint write_loop (fuel : nat) (sender buffer : str) (queue : list Msg)
  : str * list Msg :=
  match fuel with
  | O => (buffer, queue)
  | S fuel' =>
      match split_nl buffer with
      | None => (buffer, queue)
      | Some (line, rest) => write_loop fuel' sender rest (queue ++ forward sender line)
      end
  end.

(** [TeeOutput.write]; returns [self] as it is afterwards. *)
Definition TeeOutput_write (self : TeeOutput) (text : str) : M TeeOutput :=
  modify (λ a, set_console (console a ++ text) a);;
  queue <- gets (λ a, message_queue a);;
  let buffer := buffer self ++ text in
  let '(buffer', queue') := write_loop (S (length buffer)) (sender self) buffer queue in
  modify (set_message_queue queue');;
  ret (mkTeeOutput (sender self) buffer').

(** [TeeOutput.flush] *)
Definition TeeOutput_flush (self : TeeOutput) : M TeeOutput :=
  if truthy (strip (buffer self)) then
    modify (λ a, set_message_queue
                   (message_queue a ++ forward (sender self) (buffer self)) a);;
    ret (mkTeeOutput (sender self) [])
  else ret self.

Definition sys_stream (st : Stream) (a : App) : option TeeOutput :=
  match st with stdout => sys_stdout a | stderr => sys_stderr a end.

Definition set_sys_stream (st : Stream) (v : option TeeOutput) (a : App) : App :=
  match st with stdout => set_sys_stdout v a | stderr => set_sys_stderr v a end.

(** [sys.stdout.write(text)] / [sys.stderr.write(text)]: to the terminal, or
    through the tee while one is installed. *)
Definition sys_write (st : Stream) (text : str) : M unit :=
  tee <- gets (sys_stream st);;
  match tee with
  | None => modify (λ a, set_console (console a ++ text) a)
  | Some self =>
      self' <- TeeOutput_write self text;;
      modify (set_sys_stream st (Some self'))
  end.

(** [sys.stdout.flush()] / [sys.stderr.flush()] *)
Definition sys_flush (st : Stream) : M unit :=
  tee <- gets (sys_stream st);;
  match tee with
  | None => ret tt
  | Some self =>
      self' <- TeeOutput_flush self;;
      modify (set_sys_stream st (Some self'))
  end.

(** [print(text)] *)
Definition print (text : str) : M unit := sys_write stdout (text ++ [LF]).

(** *** Files *)

(** [os.path.exists(name)] *)
Definition exists_ (name : string) : M bool :=
  gets (λ a, bool_decide (is_Some (files a !! name))).

(** [with open(name, 'r') as f: json.load(f)] *)
Definition json_load (name : string) : M json :=
  λ a, match faults a !! name with
       | Some (OpenFails msg) => (Raise (Exception msg), a)
       | _ =>
           match files a !! name with
           | Some (Json v) => (Return v, a)
           | Some (Garbage why) => (Raise (Exception why), a)
           | None => (Raise (Exception (py "No such file or directory")), a)
           end
       end.

(** [with open(name, 'w') as f: json.dump(v, f, indent=2)]. A write that
    fails after the file was opened leaves it truncated. *)
Definition json_dump (name : string) (v : json) : M unit :=
  λ a, match faults a !! name with
       | Some (OpenFails msg) => (Raise (Exception msg), a)
       | Some (WriteFails msg) =>
           (Raise (Exception msg),
            set_files (<[name := Garbage (py "Expecting value")]> (files a)) a)
       | None => (Return tt, set_files (<[name := Json v]> (files a)) a)
       end.

Definition json_of_strs (l : list str) : json := JArr (JStr <$> l).

Definition json_of_chat_message (m : ChatMessage) : json :=
  JObj [(py "timestamp", JStr (cm_timestamp m)); (py "sender", JStr (cm_sender m));
        (py "message", JStr (cm_message m)); (py "type", JStr (cm_type m))].

Definition json_of_settings (s : Settings) : json :=
  JObj [(py "rules", json_of_strs (rules s)); (py "theme", JStr (theme s))].

Definition save_settings_to_file : M unit :=
  try_except
    (s <- gets (λ a, settings a);;
     json_dump "agent_settings.json" (json_of_settings s))
    (λ e, print (py "Error saving settings: " ++ e)).

Definition save_chat_history : M unit :=
  try_except
    (h <- gets (λ a, chat_history a);;
     json_dump "chat_history.json" (JArr (json_of_chat_message <$> h)))
    (λ e, print (py "Error saving chat history: " ++ e)).

Definition save_task_history : M unit :=
  try_except
    (h <- gets (λ a, task_history a);;
     json_dump "task_history.json" (json_of_strs h))
    (λ e, print (py "Error saving task history: " ++ e)).

Definition _save_rules_to_file (rules_list : list str) : M unit :=
  try_except
    (json_dump "rules.json" (json_of_strs rules_list))
    (λ e, print (py "Error saving rules to rules.json: " ++ e);;
          raise (Exception e)).

(** The message of the [AttributeError] that [rule.strip()] raises on a
    value that is not a string. *)
Definition no_attribute (v : json) (attr : str) : str :=
  py "'" ++
  match v with
  | JNull => py "NoneType" | JBool _ => py "bool" | JInt _ => py "int"
  | JFloat _ => py "float" | JStr _ => py "str" | JArr _ => py "list"
  | JObj _ => py "dict"
  end ++ py "' object has no attribute '" ++ attr ++ py "'".

(** [[rule.strip() for rule in rules if rule.strip()]] over the elements of a
    loaded JSON array. *)
Fixpoint strip_loaded (l : list json) : M (list str) :=
  match l with
  | [] => ret []
  | JStr rule :: l' =>
      rest <- strip_loaded l';;
      ret (if truthy (strip rule) then strip rule :: rest else rest)
  | v :: _ => raise (Exception (no_attribute v (py "strip")))
  end.

Definition load_rules : M (list str) :=
  try_except
    (present <- exists_ "rules.json";;
     if present then
       loaded <- json_load "rules.json";;
       match loaded with
       | JArr l => strip_loaded l
       | _ => ret []
       end
     else ret [])
    (λ e, print (py "Error loading rules from rules.json: " ++ e);; ret []).

(** *** Chat and widgets *)

Definition put (m : Msg) : M unit :=
  modify (λ a, set_message_queue (message_queue a ++ [m]) a).

Definition add_message (sender message msg_type : str) : M unit :=
  timestamp <- gets (λ a, now a);;
  modify (λ a, set_chat_display
     (chat_display a ++
        [py "[" ++ timestamp ++ py "] " ++ sender ++ py ": " ++ message ++ [LF; LF]]) a);;
  modify (λ a, set_chat_history
     (chat_history a ++ [mkChatMessage timestamp sender message msg_type]) a);;
  save_chat_history.

Definition placeholder : str := py "Message Luma".

Definition add_placeholder : M unit :=
  entry <- gets (λ a, command_entry a);;
  if negb (truthy entry) then modify (set_command_entry placeholder) else ret tt.

(** The five rule fields of the settings window, filled from
    [current_rules[:5]]. *)
Definition fill_rule_entries (current_rules : list str) : list str :=
  take 5 (take 5 current_rules ++ replicate 5 []).

Definition show_settings : M unit :=
  window <- gets (λ a, settings_window a);;
  match window with
  | Some _ => ret tt                            (* focus() *)
  | None =>
      key <- gets (λ a, current_api_key a);;
      modify (set_settings_window (Some (mkSettingsWindow key (replicate 5 []))));;
      current_rules <- load_rules;;
      modify (set_settings_window
                (Some (mkSettingsWindow key (fill_rule_entries current_rules))))
  end.

Definition update_button_states : M unit :=
  running <- gets (λ a, is_task_running a);;
  if running then
    modify (set_start_button disabled);; modify (set_stop_button normal)
  else
    modify (set_start_button normal);; modify (set_stop_button disabled).

(** The label text of a sidebar entry. *)
Definition task_text (task : str) : str :=
  if decide (40 < length task) then take 40 task ++ py "..." else task.

(** [self.task_history[-8:] if len(self.task_history) > 8 else
    self.task_history] *)
Definition recent_tasks (task_history : list str) : list str :=
  if decide (8 < length task_history)
  then drop (length task_history - 8) task_history
  else task_history.

Definition update_task_history_display : M unit :=
  history <- gets (λ a, task_history a);;
  modify (set_task_history_frame
            ((λ task, mkTaskLabel (task_text task) task) <$> reverse (recent_tasks history))).

(** [agent = Agent(llm=ChatGoogleGenerativeAI(...), ...)] *)
Definition construct_agent : M unit :=
  failure <- gets (λ a, agent_ctor a);;
  match failure with
  | Some msg => raise (Exception msg)
  | None => modify (set_agent (Some tt))
  end.

Definition initialize_agent : M unit :=
  try_except
    (if negb DEPENDENCIES_AVAILABLE then
       add_message (py "System")
         (py "Agent dependencies not available. Please install required packages.")
         (py "error")
     else
       construct_agent;;
       add_message (py "System") (py "Agent initialized successfully.") (py "system"))
    (λ e, add_message (py "System") (py "Failed to initialize agent: " ++ e) (py "error")).

(** *** Rules from the settings window *)

(** The loop of [save_rules_from_settings_ui] over the entry fields. *)
Definition collect_rules (entries : list str) : list str :=
  foldl (λ rules entry,
           let rule := strip entry in
           if truthy rule && negb (bool_decide (rule ∈ rules))
           then rules ++ [rule] else rules)
        [] entries.

Definition save_rules_from_settings_ui : M unit :=
  try_except
    (window <- gets (λ a, settings_window a);;
     match window with
     | None =>
         (* the button lives in that window; without it there are no fields
            to read and the handler ends in its except clause *)
         raise (Exception (py "'WindowsAgentGUI' object has no attribute 'rule_entries'"))
     | Some w =>
         let rules := collect_rules (rule_entries w) in
         _save_rules_to_file rules;;
         modify (λ a, set_settings (mkSettings rules (theme (settings a))) a);;
         add_message (py "System")
           (py "Saved " ++ of_nat (length rules) ++ py " rules successfully.") (py "system")
     end)
    (λ e, modify (λ a, set_dialogs
             (dialogs a ++ [showerror (py "Error") (py "Failed to save rules: " ++ e)]) a)).

(** *** Commands *)

Definition send_command : M unit :=
  command <- gets (λ a, strip (command_entry a));;
  if negb (truthy command) || bool_decide (command = placeholder) then ret tt
  else
    key <- gets (λ a, current_api_key a);;
    if negb (truthy key) then
      add_message (py "System")
        (py "Error: Please set your Google API key in Settings before starting a task.")
        (py "error");;
      show_settings
    else
      modify (set_command_entry []);;
      add_placeholder;;
      add_message (py "User") command (py "user");;
      if negb DEPENDENCIES_AVAILABLE then
        add_message (py "System")
          (py "Please install required dependencies: langchain-google-genai, windows-use")
          (py "error")
      else
        modify (λ a, set_task_history (task_history a ++ [command]) a);;
        update_task_history_display;;
        running <- gets (λ a, is_task_running a);;
        if negb running then
          let thread := mkThread command true in
          modify (set_task_thread (Some thread));;
          modify (λ a, set_started_threads (started_threads a ++ [thread]) a)
        else ret tt.

Definition start_task : M unit :=
  entry <- gets (λ a, command_entry a);;
  if negb (truthy (strip entry)) || bool_decide (entry = placeholder) then
    modify (λ a, set_dialogs
      (dialogs a ++ [showwarning (py "Warning") (py "Please enter a command first.")]) a)
  else
    key <- gets (λ a, current_api_key a);;
    if negb (truthy key) then
      add_message (py "System")
        ([0x26A0%N; 0xFE0F%N] ++
         py " API key is required to run tasks. Please enter your API key.")
        (py "error");;
      show_settings
    else
      ag <- gets (λ a, agent a);;
      proceed <-
        (if negb (bool_decide (is_Some ag)) && DEPENDENCIES_AVAILABLE then
           try_except
             (initialize_agent;; ret true)
             (λ e, add_message (py "System")
                     ([0x274C%N] ++ py " Failed to initialize agent: " ++ e) (py "error");;
                   ret false)                                   (* return *)
         else ret true);;
      if proceed then
        ag <- gets (λ a, agent a);;
        if negb (bool_decide (is_Some ag)) then
          add_message (py "System")
            ([0x274C%N] ++
             py " Agent initialization failed. Please check your API key and try again.")
            (py "error")
        else send_command
      else ret tt.

Definition stop_task : M unit :=
  running <- gets (λ a, is_task_running a);;
  thread <- gets (λ a, task_thread a);;
  if running && bool_decide (is_Some thread) then
    add_message (py "System")
      ([0x1F6D1%N] ++ py " Stopping task... Please wait...") (py "system");;
    task <- gets (λ a, current_task a);;
    match task with
    | Some t =>
        if negb (done t) then modify (set_current_task (Some (mkTask true (done t))))
        else ret tt
    | None => ret tt
    end;;
    modify (set_is_task_running false);;
    update_button_states
  else ret tt.

(** *** The worker *)

Definition play_event (ev : SinkEvent) : M unit :=
  match ev with
  | Wrote st text => sys_write st text
  | Flushed st => sys_flush st
  end.

Fixpoint play (evs : list SinkEvent) : M unit :=
  match evs with
  | [] => ret tt
  | ev :: evs' => play_event ev;; play evs'
  end.

(** [self.agent.invoke(query)] *)
Definition agent_invoke (env : Run) (query : str) : M AgentResult :=
  ag <- gets (λ a, agent a);;
  match ag with
  | None => raise (Exception (py "'NoneType' object has no attribute 'invoke'"))
  | Some _ =>
      modify (λ a, set_agent_calls (agent_calls a ++ [query]) a);;
      play (fst (invoke env query));;
      match snd (invoke env query) with
      | Return agent_result => ret agent_result
      | Raise e => raise e
      end
  end.

Definition capture_agent_output (env : Run) (query : str) : M AgentResult :=
  let tee_stdout := mkTeeOutput (py "Agent") [] in
  let tee_stderr := mkTeeOutput (py "Agent") [] in
  try_finally
    (modify (set_sys_stdout (Some tee_stdout));;
     modify (set_sys_stderr (Some tee_stderr));;
     agent_result <- agent_invoke env query;;
     sys_flush stdout;;
     sys_flush stderr;;
     ret agent_result)
    (modify (set_sys_stdout None);;
     modify (set_sys_stderr None)).

(** [await loop.run_in_executor(executor, f, ...)]: the call runs to its end;
    a cancellation delivered meanwhile replaces its outcome. *)
Definition await {A} (env : Run) (call : M A) : M A :=
  λ a, match call a with
       | (r, a') => if cancelled_at_await env then (Raise CancelledError, a') else (r, a')
       end.

(** [asyncio.current_task().cancelled()], as the coroutine reads it.
    [Task.cancelled()] answers whether the task has ended in a cancellation.
    The task asked here is the one that is running the coroutine: it has not
    ended, so the answer is [False], also after [cancel()] was called on it.
    A request made with [cancel()] does not show in this answer; asyncio
    delivers it as a [CancelledError] at the next [await] (see [await]). *)
Definition current_task_cancelled : bool := false.

(** [if asyncio.current_task().cancelled(): raise asyncio.CancelledError()] *)
Definition checkpoint (cancelled : bool) : M unit :=
  if cancelled then raise CancelledError else ret tt.

(** [[rule.strip() for rule in rules if rule.strip()]] *)
Definition valid_rules (rules : list str) : list str :=
  strip <$> filter (λ rule, truthy (strip rule) = true) rules.

(** The loop [for i, rule in enumerate(valid_rules, 1)]. *)
Fixpoint numbered (i : nat) (valid_rules : list str) : str :=
  match valid_rules with
  | [] => []
  | rule :: rest => of_nat i ++ py ". " ++ rule ++ [LF] ++ numbered (S i) rest
  end.

Definition rules_header : str :=
  py "IMPORTANT: Follow these rules while completing the task:" ++ [LF].

Definition rules_text (valid_rules : list str) (query : str) : str :=
  rules_header ++ numbered 1 valid_rules ++ [LF] ++ py "Now complete this task: " ++ query.

(** The [try] statement that ends [execute_agent_task_async]. *)
Definition execute_agent_call (env : Run) (enhanced_query : str) : M unit :=
  try_finally
    (try_except
       (try_except_cancelled
          (put (py "Agent", [0x26A1%N] ++ py " Executing agent task...", py "agent");;
           checkpoint current_task_cancelled;;
           agent_result <- await env (capture_agent_output env enhanced_query);;
           checkpoint current_task_cancelled;;
           put (py "Agent", [0x2705%N] ++ py " Task completed successfully!", py "agent");;
           match content agent_result with
           | Some c =>
               if truthy c
               then put (py "Agent", [0x1F4C4%N] ++ py " Final Result: " ++ c, py "agent")
               else ret tt
           | None => ret tt
           end)
          (raise CancelledError))
       (λ e, put (py "System", [0x274C%N] ++ py " Error executing task: " ++ e,
                  py "error")))
    (modify (set_is_task_running false);;
     put (py "update_buttons", [], [])).

Definition execute_agent_task_async (env : Run) (query : str) : M unit :=
  modify (set_is_task_running true);;
  put (py "update_buttons", [], []);;
  put (py "Agent", [0x1F916%N] ++ py " Initializing task...", py "agent");;
  put (py "Agent", [0x1F4CB%N] ++ py " Objective: " ++ query, py "agent");;
  rules <- gets (λ a, rules (settings a));;
  enhanced_query <-
    (match rules with
     | [] => ret query
     | _ :: _ =>
         let valid_rules := valid_rules rules in
         match valid_rules with
         | [] => ret query
         | _ :: _ =>
             put (py "Agent",
                  [0x1F4CB%N] ++ py " Applying " ++ of_nat (length valid_rules) ++
                  py " rules to guide task execution...", py "agent");;
             ret (rules_text valid_rules query)
         end
     end);;
  checkpoint current_task_cancelled;;
  put (py "Agent", [0x1F50D%N] ++ py " Analyzing request and planning actions...",
       py "agent");;
  execute_agent_call env enhanced_query.

Definition run_agent_task_async (env : Run) (query : str) : M unit :=
  try_finally
    (try_except
       (try_except_cancelled
          (modify (set_current_task (Some (mkTask false false)));;
           try_finally
             (execute_agent_task_async env query)
             (modify (λ a, set_current_task
                (match current_task a with
                 | Some t => Some (mkTask (cancel_requested t) true)
                 | None => None
                 end) a)))
          (put (py "System", py "Task was cancelled by user.", py "system")))
       (λ e, put (py "System", py "Error in task execution: " ++ e, py "error")))
    (modify (set_current_task None);;
     running <- gets (λ a, is_task_running a);;
     if negb running
     then put (py "System", [0x270B%N] ++ py " Task stopped successfully.", py "system")
     else ret tt).

(** [on_closing], up to the destruction of the window. *)
Definition on_closing : M unit :=
  save_chat_history;;
  save_task_history;;
  save_settings_to_file;;
  modify (set_is_task_running false).

(** *** More states for the examples *)

(** A command is typed, with blanks around it; no task is running. *)
Definition typed : App := set_command_entry (py "  open notepad ") ready.

(** The same, but no agent was built yet. *)
Definition typed_no_agent : App := set_agent None typed.

(** No agent, and the constructor of the agent library fails. *)
Definition typed_bad_agent : App :=
  set_agent_ctor (Some (py "invalid API key")) typed_no_agent.

(** Messages of a finished run wait on the queue. *)
Definition waiting : App :=
  set_message_queue
    [(py "update_buttons", [], []);
     (py "Agent", py "one", py "agent");
     (py "System", py "two", py "system")]
    ready.

(** [rules.json] holds six rules. *)
Definition six_rules_on_disk : App :=
  set_files
    {["rules.json" :=
        Json (JArr [JStr (py "r1"); JStr (py "r2"); JStr (py "r3"); JStr (py "r4");
                    JStr (py "r5"); JStr (py "r6")])]}
    ready.

(** The settings window is open and a new key is typed in its key field. *)
Definition key_typed : App :=
  set_settings_window (Some (mkSettingsWindow (py " new-key ") (replicate 5 []))) ready.

(** [.env] cannot be written. *)
Definition env_read_only (a : App) : App :=
  set_faults {[".env" := OpenFails (py "Permission denied")]} a.

(** An agent that prints nothing and raises. *)
Definition failing_agent : Run :=
  {| cancelled_at_await := false;
     invoke := λ _, ([], Raise (Exception (py "boom"))) |}.


(** *** The entry, the sidebar and the settings window *)

(** [clear_placeholder], bound to [<FocusIn>] of the entry. *)
Definition clear_placeholder : M unit :=
  entry <- gets (λ a, command_entry a);;
  if bool_decide (entry = placeholder) then modify (set_command_entry []) else ret tt.

(** [load_previous_task]: [delete(0, END)], then [insert(0, task)]. *)
Definition load_previous_task (task : str) : M unit :=
  modify (set_command_entry []);;
  modify (λ a, set_command_entry (task ++ command_entry a) a).

(** [on_history_select], up to the highlight of the clicked label. *)
Definition on_history_select (task : str) : M unit := load_previous_task task.

(** A click on the [i]-th label of the sidebar: the [<Button-1>] binding made
    by [update_task_history_display]. *)
Definition click_task_label (i : nat) : M unit :=
  frame <- gets (λ a, task_history_frame a);;
  match frame !! i with
  | Some label => on_history_select (bound_task label)
  | None => ret tt
  end.

(** The Cancel button of the settings window: [settings_window.destroy]. *)
Definition destroy_settings_window : M unit := modify (set_settings_window None).

(** *** The API key *)

(** [set_key('.env', 'GOOGLE_API_KEY', api_key)] and
    [load_dotenv(override=True)] of python-dotenv. What they write to [.env]
    and to the process environment lies outside the state; the call raises
    when [.env] cannot be written. (The import of [set_key] inside the method
    cannot fail where the program runs at all: the module calls
    [load_dotenv()] when it is loaded.) *)
Definition set_key : M unit :=
  λ a, match faults a !! ".env" with
       | Some (OpenFails msg) | Some (WriteFails msg) => (Raise (Exception msg), a)
       | None => (Return tt, a)
       end.

Definition save_api_key_to_env (api_key : str) : M unit :=
  try_except set_key
    (λ e, print (py "Error saving API key to .env: " ++ e);; raise (Exception e)).

Definition save_api_key : M unit :=
  try_except
    (window <- gets (λ a, settings_window a);;
     match window with
     | None =>
         (* as for the rules: the button lives in the settings window *)
         raise (Exception (py "'WindowsAgentGUI' object has no attribute 'api_key_entry'"))
     | Some w =>
         let api_key := strip (api_key_entry w) in
         (if truthy api_key then
            save_api_key_to_env api_key;;
            modify (set_current_api_key api_key);;
            add_message (py "System") (py "API key saved successfully.") (py "system")
          else
            add_message (py "System") (py "No API key provided.") (py "system"));;
         key <- gets (λ a, current_api_key a);;
         if DEPENDENCIES_AVAILABLE && truthy key then initialize_agent
         else add_message (py "System")
                (py "Agent will be initialized when you start a task.") (py "system")
     end)
    (λ e, modify (λ a, set_dialogs
             (dialogs a ++ [showerror (py "Error") (py "Failed to save API key: " ++ e)]) a)).

(** *** The message queue, on the main thread *)

(** [process_message_queue], up to the timer that calls it again: the loop
    [while True] ends when [get_nowait] finds the queue empty; [fuel] bounds
    its turns. *)
Fixpoint process_message_queue (fuel : nat) : M unit :=
  match fuel with
  | O => ret tt
  | S fuel' =>
      queue <- gets (λ a, message_queue a);;
      match queue with
      | [] => ret tt                                        (* queue.Empty *)
      | (sender, message, msg_type) :: queue' =>
          modify (set_message_queue queue');;
          (if bool_decide (sender = py "update_buttons") then update_button_states
           else add_message sender message msg_type);;
          process_message_queue fuel'
      end
  end.

(** *** Settings *)

Definition default_settings : json :=
  JObj [(py "rules",
         json_of_strs [py "Be helpful and accurate"; py "Provide clear explanations";
                       py "Ask for clarification when needed"]);
        (py "theme", JStr (py "dark"))].

(** [load_settings] returns what [json.load] gives, whatever its shape. *)
Definition load_settings : M json :=
  loaded <- try_except
              (present <- exists_ "agent_settings.json";;
               if present then
                 v <- json_load "agent_settings.json";; ret (Some v)   (* return *)
               else ret None)
              (λ e, print (py "Error loading settings: " ++ e);; ret None);;
  match loaded with
  | Some v => ret v
  | None => ret default_settings
  end.

(** *** Reference definitions used in the statements *)

(** Everything the sink puts on the queue for a list of lines, in order. *)
Definition forward_lines (sender : str) (lines : list str) : list Msg :=
  concat (forward sender <$> lines).




(** Duplicates removed, the first occurrence of each element kept, order
    preserved. *)
Fixpoint dedup_first (l : list str) : list str :=
  match l with
  | [] => []
  | x :: l' => x :: filter (λ y, y ≠ x) (dedup_first l')
  end.

(** The non-empty stripped texts of a list of fields, in field order. *)
Definition stripped_nonempty (entries : list str) : list str :=
  filter (λ rule, rule ≠ []) (strip <$> entries).

(** The last [n] elements of a list, all of them when there are fewer. *)
Definition last_n {A} (n : nat) (l : list A) : list A := drop (length l - n) l.

(** The string elements of a JSON array, when all its elements are strings. *)
Fixpoint strings_of (l : list json) : option (list str) :=
  match l with
  | [] => Some []
  | JStr s :: l' => cons s <$> strings_of l'
  | _ :: _ => None
  end.

(** What [load_rules] returns, read off the state of [rules.json]. *)
Definition loaded_rules (a : App) : list str :=
  match faults a !! "rules.json", files a !! "rules.json" with
  | Some (OpenFails _), _ => []
  | _, Some (Json (JArr l)) =>
      match strings_of l with
      | Some ss => stripped_nonempty ss
      | None => []
      end
  | _, _ => []
  end.

(** The terminal, the queue and the tee of [sys.stdout]: all a [print] can
    touch. *)
Definition with_io (C : str) (Q : list Msg) (S : option TeeOutput) (a : App) : App :=
  set_console C (set_message_queue Q (set_sys_stdout S a)).

(** The guards under which [send_command] starts a worker thread. *)
Definition launches (a : App) : bool :=
  truthy (strip (command_entry a))
  && negb (bool_decide (strip (command_entry a) = placeholder))
  && truthy (current_api_key a)
  && DEPENDENCIES_AVAILABLE
  && negb (is_task_running a).

(** The string [execute_agent_task_async] passes to the agent. *)
Definition enhanced_query (rules : list str) (query : str) : str :=
  match rules with
  | [] => query
  | _ :: _ =>
      match valid_rules rules with
      | [] => query
      | _ :: _ => rules_text (valid_rules rules) query
      end
  end.

(** What a completed task puts on the queue for the agent's result. *)
Definition report (agent_result : AgentResult) : list Msg :=
  (py "Agent", [0x2705%N] ++ py " Task completed successfully!", py "agent") ::
  match content agent_result with
  | Some c =>
      if truthy c
      then [(py "Agent", [0x1F4C4%N] ++ py " Final Result: " ++ c, py "agent")]
      else []
  | None => []
  end.

Definition update_buttons : Msg := (py "update_buttons", [], []).

(** The terminal, the queue and both tees: all the agent's output can touch. *)
Definition with_tees (C : str) (Q : list Msg) (So Se : option TeeOutput) (a : App) : App :=
  set_console C (set_message_queue Q (set_sys_stdout So (set_sys_stderr Se a))).

(** What [execute_agent_task_async] puts on the queue first. *)
Definition announce (rules : list str) (query : str) : list Msg :=
  [update_buttons;
   (py "Agent", [0x1F916%N] ++ py " Initializing task...", py "agent");
   (py "Agent", [0x1F4CB%N] ++ py " Objective: " ++ query, py "agent")] ++
  match rules with
  | [] => []
  | _ :: _ =>
      match valid_rules rules with
      | [] => []
      | _ :: _ =>
          [(py "Agent",
            [0x1F4CB%N] ++ py " Applying " ++ of_nat (length (valid_rules rules)) ++
            py " rules to guide task execution...", py "agent")]
      end
  end.

(** And then, up to the call. *)
Definition analyzing : Msg :=
  (py "Agent", [0x1F50D%N] ++ py " Analyzing request and planning actions...", py "agent").
Definition executing : Msg :=
  (py "Agent", [0x26A1%N] ++ py " Executing agent task...", py "agent").

(** The [finally] clause of [execute_agent_task_async]. *)
Definition back_to_idle (a : App) : App :=
  set_message_queue (message_queue a ++ [update_buttons]) (set_is_task_running false a).

(** [queue.put] of several messages in a row. *)
Definition put_all (msgs : list Msg) (a : App) : App :=
  set_message_queue (message_queue a ++ msgs) a.

(** What [run_agent_task_async] puts on the queue for a cancelled task. *)
Definition cancel_notice : Msg :=
  (py "System", py "Task was cancelled by user.", py "system").

(** The [str(e)] of the exception a fault raises. *)
Definition fault_msg (f : fault) : str :=
  match f with OpenFails msg | WriteFails msg => msg end.

(** The working directory after a write of [name] that failed. *)
Definition after_fault (name : string) (f : fault) (fs : gmap string document)
  : gmap string document :=
  match f with
  | OpenFails _ => fs
  | WriteFails _ => <[name := Garbage (py "Expecting value")]> fs
  end.

(** The guards under which [send_command] records and echoes a command. *)
Definition accepts (a : App) : bool :=
  truthy (strip (command_entry a))
  && negb (bool_decide (strip (command_entry a) = placeholder))
  && truthy (current_api_key a)
  && DEPENDENCIES_AVAILABLE.

(** A command as [send_command] records it: stripped, not empty, not the
    placeholder. *)
Definition is_command (task : str) : Prop :=
  task ≠ [] ∧ strip task = task ∧ task ≠ placeholder.

(** The text the agent library wrote, on either stream, in order. *)
Definition written (evs : list SinkEvent) : str :=
  concat ((λ ev, match ev with Wrote _ text => text | Flushed _ => [] end) <$> evs).

(** A message of the sink: sent in the agent's name, of type "agent", with
    some text. *)
Definition from_agent (m : Msg) : Prop :=
  m.1.1 = py "Agent" ∧ m.2 = py "agent" ∧ m.1.2 ≠ [].

(** The line [add_message] shows in the chat. *)
Definition chat_line (timestamp sender message : str) : str :=
  py "[" ++ timestamp ++ py "] " ++ sender ++ py ": " ++ message ++ [LF; LF].

(** The queue entries that are messages, not the button sentinel. *)
Definition chat_messages (queue : list Msg) : list Msg :=
  filter (λ m, m.1.1 ≠ py "update_buttons") queue.

Definition chat_message_of (timestamp : str) (m : Msg) : ChatMessage :=
  mkChatMessage timestamp m.1.1 m.1.2 m.2.

(** The buttons as [update_button_states] sets them. *)
Definition buttons_of (running : bool) : ButtonState * ButtonState :=
  if running then (disabled, normal) else (normal, disabled).

(** All the worker can touch: the running flag, the current task, the queue,
    the terminal, the two streams and the log of agent calls. *)
Definition worker_frame (a b : App) : Prop :=
  command_entry b = command_entry a ∧ current_api_key b = current_api_key a ∧
  agent b = agent a ∧ task_thread b = task_thread a ∧
  chat_history b = chat_history a ∧ task_history b = task_history a ∧
  settings b = settings a ∧ chat_display b = chat_display a ∧
  start_button b = start_button a ∧ stop_button b = stop_button a ∧
  task_history_frame b = task_history_frame a ∧
  settings_window b = settings_window a ∧ dialogs b = dialogs a ∧
  started_threads b = started_threads a ∧ files b = files a ∧ faults b = faults a ∧
  now b = now a ∧ agent_ctor b = agent_ctor a.

(** What [run_agent_task_async] puts on the queue last when the running flag
    is down. *)
Definition stopped_notice : Msg :=
  (py "System", [0x270B%N] ++ py " Task stopped successfully.", py "system").

(** What [execute_agent_task_async] reports when the agent's call raises. *)
Definition error_report (msg : str) : Msg :=
  (py "System", [0x274C%N] ++ py " Error executing task: " ++ msg, py "error").

(** Whether a queue holds the button sentinel. *)
Definition has_sentinel (queue : list Msg) : bool :=
  existsb (λ m, bool_decide (m.1.1 = py "update_buttons")) queue.

(** ** Facts about strings *)

(** Literals stay folded in goals. *)
Opaque py.

(** *** Facts about [strip] *)

Lemma lstrip_app_nonspace (s t : str) :
  lstrip s ≠ [] → lstrip (s ++ t) = lstrip s ++ t.
Proof.
  induction s as [|c s IH]; simpl; [done|].
  destruct (isspace c); [exact IH | done].
Qed.

Lemma lstrip_all_space (s t : str) :
  lstrip s = [] → lstrip (s ++ t) = lstrip t.
Proof.
  induction s as [|c s IH]; simpl; [done|].
  destruct (isspace c); [exact IH | done].
Qed.

Lemma lstrip_idemp (s : str) : lstrip (lstrip s) = lstrip s.
Proof.
  induction s as [|c s IH]; simpl; [done|].
  destruct (isspace c) eqn:E; [exact IH|]. simpl. by rewrite E.
Qed.

Lemma lstrip_head (s : str) c t : lstrip s = c :: t → isspace c = false.
Proof.
  induction s as [|d s IH]; simpl; [done|].
  destruct (isspace d) eqn:E; [exact IH|]. by intros [= <- _].
Qed.

Lemma lstrip_nonspace_head c (s : str) : isspace c = false → lstrip (c :: s) = c :: s.
Proof. intros E. simpl. by rewrite E. Qed.

(** Stripping the right end keeps a non-blank first character in place. *)
Lemma rstrip_cons_nonspace c (s : str) :
  isspace c = false → ∃ t, rstrip (c :: s) = c :: t.
Proof.
  intros E. unfold rstrip. rewrite reverse_cons.
  destruct (lstrip (reverse s)) as [|d u] eqn:Hs.
  - rewrite (lstrip_all_space _ _ Hs). simpl. rewrite E. by exists [].
  - rewrite lstrip_app_nonspace by (by rewrite Hs).
    rewrite Hs, reverse_app. simpl. by eexists.
Qed.

Lemma rstrip_idemp (s : str) : rstrip (rstrip s) = rstrip s.
Proof. unfold rstrip. by rewrite reverse_involutive, lstrip_idemp. Qed.

Lemma lstrip_rstrip_lstrip (s : str) : lstrip (rstrip (lstrip s)) = rstrip (lstrip s).
Proof.
  destruct (lstrip s) as [|c t] eqn:Hs; [done|].
  pose proof (lstrip_head _ _ _ Hs) as E.
  destruct (rstrip_cons_nonspace c t E) as [u ->].
  by apply lstrip_nonspace_head.
Qed.

(** [strip] is idempotent: a stripped string has no blank at either end. *)
Lemma strip_idemp (s : str) : strip (strip s) = strip s.
Proof.
  unfold strip. rewrite lstrip_rstrip_lstrip. apply rstrip_idemp.
Qed.

Lemma strip_nil : strip [] = [].
Proof. done. Qed.

(** *** Facts about [contains], [startswith] and [endswith] *)

Lemma startswith_app (p s : str) : startswith (p ++ s) p = true.
Proof. induction p as [|c p IH]; simpl; [done|]. by rewrite N.eqb_refl. Qed.

Lemma startswith_prefix (s p : str) : startswith s p = true ↔ ∃ t, s = p ++ t.
Proof.
  split.
  - revert s. induction p as [|c p IH]; intros s H; simpl in *; [by exists s|].
    destruct s as [|d s]; [done|].
    apply andb_prop in H as [Hc Hs]. apply N.eqb_eq in Hc as ->.
    destruct (IH _ Hs) as [t ->]. by exists t.
  - intros [t ->]. apply startswith_app.
Qed.

Lemma contains_here (needle hay : str) :
  startswith hay needle = true → contains needle hay = true.
Proof. destruct hay; simpl; by intros ->. Qed.

Lemma contains_infix (needle hay : str) :
  contains needle hay = true ↔ ∃ a b, hay = a ++ needle ++ b.
Proof.
  split.
  - induction hay as [|c hay IH]; simpl; intros H.
    + apply orb_prop in H as [H|H]; [|done].
      apply startswith_prefix in H as [t Ht]. by exists [], t.
    + apply orb_prop in H as [H|H].
      * apply startswith_prefix in H as [t Ht]. by exists [], t.
      * destruct (IH H) as (a & b & ->). by exists (c :: a), b.
  - intros (a & b & ->). induction a as [|c a IH]; simpl.
    + apply contains_here, startswith_app.
    + rewrite IH. apply orb_true_r.
Qed.

Lemma contains_app_l (needle a b : str) :
  contains needle a = true → contains needle (a ++ b) = true.
Proof.
  rewrite !contains_infix. intros (x & y & ->). exists x, (y ++ b).
  by rewrite <- !app_assoc.
Qed.

Lemma contains_app_r (needle a b : str) :
  contains needle b = true → contains needle (a ++ b) = true.
Proof.
  rewrite !contains_infix. intros (x & y & ->). exists (a ++ x), y.
  by rewrite <- !app_assoc.
Qed.

Lemma endswith_app (s p : str) : endswith (s ++ p) p = true.
Proof. unfold endswith. rewrite reverse_app. apply startswith_app. Qed.

(** ** Symbolic execution *)

(** Run the monad's plumbing. *)
Ltac mrun :=
  cbv [bind gets modify ret raise try_except try_except_cancelled try_finally
       checkpoint current_task_cancelled put exec eval].

(** Read the attributes of a state written as setters on another state. *)
Ltac fields :=
  cbn [with_io with_tees back_to_idle put_all set_sys_stream sys_stream
       set_command_entry set_agent set_is_task_running set_current_task
       set_task_thread set_message_queue set_chat_history set_task_history
       set_settings set_chat_display set_start_button set_stop_button
       set_task_history_frame set_settings_window set_sys_stdout set_sys_stderr
       set_dialogs set_console set_started_threads set_agent_calls set_files
       command_entry current_api_key agent is_task_running current_task
       task_thread message_queue chat_history task_history settings chat_display
       start_button stop_button task_history_frame settings_window sys_stdout
       sys_stderr dialogs console started_threads agent_calls files faults now
       agent_ctor].

Ltac fields_in H :=
  cbn [with_io with_tees back_to_idle put_all set_sys_stream sys_stream
       set_command_entry set_agent set_is_task_running set_current_task
       set_task_thread set_message_queue set_chat_history set_task_history
       set_settings set_chat_display set_start_button set_stop_button
       set_task_history_frame set_settings_window set_sys_stdout set_sys_stderr
       set_dialogs set_console set_started_threads set_agent_calls set_files
       command_entry current_api_key agent is_task_running current_task
       task_thread message_queue chat_history task_history settings chat_display
       start_button stop_button task_history_frame settings_window sys_stdout
       sys_stderr dialogs console started_threads agent_calls files faults now
       agent_ctor] in H.

Ltac run := repeat progress (mrun; fields; cbn [negb andb orb fst snd truthy]).

(** ** The log sink forwards lines in order *)

Lemma split_nl_None (s : str) : split_nl s = None → lines_of s = ([], s).
Proof.
  induction s as [|c s IH]; simpl; [done|].
  destruct (c =? LF)%N; [done|].
  destruct (split_nl s) as [[line rest]|]; [done|].
  intros _. by rewrite (IH eq_refl).
Qed.

Lemma split_nl_Some (s line rest : str) :
  split_nl s = Some (line, rest) →
  lines_of s = (line :: (lines_of rest).1, (lines_of rest).2) ∧ length rest < length s.
Proof.
  revert line. induction s as [|c s IH]; intros line; simpl; [done|].
  destruct (c =? LF)%N.
  - intros [= <- <-]. split; [done|lia].
  - destruct (split_nl s) as [[line' rest']|]; [|done].
    intros [= <- <-]. destruct (IH _ eq_refl) as [-> Hlen]. simpl. split; [done|lia].
Qed.

(** With fuel above the length of the buffer the loop of [write] runs to its
    exit: all complete lines are forwarded, the partial line stays. *)
Lemma write_loop_lines (fuel : nat) (sender buffer : str) (queue : list Msg) :
  length buffer < fuel →
  write_loop fuel sender buffer queue =
    ((lines_of buffer).2, queue ++ forward_lines sender (lines_of buffer).1).
Proof.
  revert buffer queue. induction fuel as [|fuel IH]; intros buffer queue Hlen; [lia|].
  simpl. destruct (split_nl buffer) as [[line rest]|] eqn:Hsplit.
  - apply split_nl_Some in Hsplit as [-> Hrest].
    rewrite IH by lia. simpl. unfold forward_lines. simpl.
    by rewrite <- app_assoc.
  - rewrite (split_nl_None _ Hsplit). unfold forward_lines. simpl.
    by rewrite app_nil_r.
Qed.

(** Lines do not depend on how the text is cut into chunks. *)
Lemma lines_of_app (s t : str) :
  lines_of (s ++ t) =
    ((lines_of s).1 ++ (lines_of ((lines_of s).2 ++ t)).1,
     (lines_of ((lines_of s).2 ++ t)).2).
Proof.
  induction s as [|c s IH]; simpl.
  - by destruct (lines_of t).
  - rewrite IH. simpl. destruct (c =? LF)%N eqn:Hc; [done|].
    destruct (lines_of s).1 as [|line lines]; simpl; [|done].
    rewrite Hc. by destruct (lines_of ((lines_of s).2 ++ t)).1.
Qed.

Lemma forward_lines_app (sender : str) (l1 l2 : list str) :
  forward_lines sender (l1 ++ l2) = forward_lines sender l1 ++ forward_lines sender l2.
Proof. unfold forward_lines. by rewrite fmap_app, concat_app. Qed.

(** A line is forwarded at most once. *)
Lemma forward_at_most_once (sender line : str) : length (forward sender line) ≤ 1.
Proof.
  unfold forward. destruct (truthy (strip line)); [|simpl; lia].
  destruct (format_agent_log (strip line)); simpl; lia.
Qed.

Lemma format_agent_log_Some (line : str) :
  truthy (strip line) = true → ∃ formatted, format_agent_log line = Some formatted.
Proof.
  intros H. unfold format_agent_log. rewrite H. simpl.
  repeat match goal with
         | |- context [if ?c then _ else _] => destruct c; [by eexists|]
         end.
  by eexists.
Qed.

(** A line with a visible character is forwarded exactly once, formatted; a
    blank line is not forwarded. *)
Lemma forward_visible (sender line : str) :
  truthy (strip line) = true →
  ∃ formatted, format_agent_log line = Some formatted ∧
               forward sender line = [(sender, formatted, py "agent")].
Proof.
  intros H. unfold forward. rewrite H.
  assert (format_agent_log (strip line) = format_agent_log line) as ->.
  { unfold format_agent_log. by rewrite strip_idemp. }
  destruct (format_agent_log_Some line H) as [f Hf]. exists f. by rewrite Hf.
Qed.

Lemma forward_blank (sender line : str) :
  truthy (strip line) = false → forward sender line = [].
Proof. intros H. unfold forward. by rewrite H. Qed.

Lemma TeeOutput_write_lines (self : TeeOutput) (text : str) (a : App) :
  TeeOutput_write self text a =
    (Return (mkTeeOutput (sender self) (lines_of (buffer self ++ text)).2),
     set_message_queue
       (message_queue a ++ forward_lines (sender self) (lines_of (buffer self ++ text)).1)
       (set_console (console a ++ text) a)).
Proof.
  unfold TeeOutput_write, bind, modify, gets, ret.
  rewrite (write_loop_lines (S (length (buffer self ++ text)))) by (simpl; lia).
  reflexivity.
Qed.

Lemma TeeOutput_flush_spec (self : TeeOutput) (a : App) :
  TeeOutput_flush self a =
    (Return (if truthy (strip (buffer self)) then mkTeeOutput (sender self) [] else self),
     set_message_queue (message_queue a ++ forward (sender self) (buffer self)) a).
Proof.
  unfold TeeOutput_flush. destruct (truthy (strip (buffer self))) eqn:H; [done|].
  rewrite (forward_blank _ _ H), app_nil_r. by destruct a.
Qed.

(** The partial line holds no line break. *)
Lemma lines_of_rest (s : str) : lines_of (lines_of s).2 = ([], (lines_of s).2).
Proof.
  induction s as [|c s IH]; simpl; [done|].
  destruct (c =? LF)%N eqn:Hc; [done|].
  destruct (lines_of s).1; simpl; [|done]. by rewrite Hc, IH.
Qed.

Lemma sys_write_teed (st : Stream) (text : str) (self : TeeOutput) (a : App) :
  sys_stream st a = Some self →
  sys_write st text a =
    (Return tt,
     set_sys_stream st
       (Some (mkTeeOutput (sender self) (lines_of (buffer self ++ text)).2))
       (set_message_queue
          (message_queue a ++ forward_lines (sender self) (lines_of (buffer self ++ text)).1)
          (set_console (console a ++ text) a))).
Proof.
  intros Hst. unfold sys_write, bind, gets. rewrite Hst.
  rewrite TeeOutput_write_lines. reflexivity.
Qed.

(** Chunks written one after the other to an installed tee. *)
Lemma play_writes (st : Stream) (chunks : list str) (self : TeeOutput) (a : App) :
  sys_stream st a = Some self →
  lines_of (buffer self) = ([], buffer self) →
  play (Wrote st <$> chunks) a =
    (Return tt,
     set_sys_stream st
       (Some (mkTeeOutput (sender self) (lines_of (buffer self ++ concat chunks)).2))
       (set_message_queue
          (message_queue a ++
           forward_lines (sender self) (lines_of (buffer self ++ concat chunks)).1)
          (set_console (console a ++ concat chunks) a))).
Proof.
  revert self a. induction chunks as [|text chunks IH]; intros self a Hst Hbuf.
  - simpl. rewrite !app_nil_r, Hbuf. unfold forward_lines. simpl.
    rewrite app_nil_r. unfold ret. f_equal.
    destruct a, st, self; simpl in *; by rewrite <- Hst.
  - simpl. unfold bind. rewrite (sys_write_teed _ _ _ _ Hst).
    rewrite (IH (mkTeeOutput (sender self) (lines_of (buffer self ++ text)).2)).
    + simpl. rewrite (app_assoc (buffer self)).
      rewrite (lines_of_app (buffer self ++ text)). simpl.
      rewrite forward_lines_app.
      f_equal. destruct st; simpl; by rewrite <- !app_assoc.
    + by destruct st.
    + apply lines_of_rest.
Qed.

Lemma forward_classified (sender line : str) :
  forward sender line =
    match format_agent_log line with
    | Some formatted => [(sender, formatted, py "agent")]
    | None => []
    end.
Proof.
  destruct (truthy (strip line)) eqn:H.
  - destruct (forward_visible sender line H) as (f & -> & ->). done.
  - rewrite (forward_blank _ _ H). unfold format_agent_log. by rewrite H.
Qed.

Lemma format_agent_log_None (line : str) :
  format_agent_log line = None ↔ strip line = [].
Proof.
  split.
  - intros H. destruct (strip line) eqn:E; [done|].
    destruct (format_agent_log_Some line) as [f Hf]; [by rewrite E|congruence].
  - intros H. unfold format_agent_log. by rewrite H.
Qed.

Lemma sys_flush_teed (st : Stream) (self : TeeOutput) (a : App) :
  sys_stream st a = Some self →
  sys_flush st a =
    (Return tt,
     set_sys_stream st
       (Some (if truthy (strip (buffer self)) then mkTeeOutput (sender self) [] else self))
       (set_message_queue (message_queue a ++ forward (sender self) (buffer self)) a)).
Proof.
  intros Hst. unfold sys_flush, bind, gets. rewrite Hst.
  rewrite TeeOutput_flush_spec. reflexivity.
Qed.

Lemma agent_invoke_writes (env : Run) (query : str) (st : Stream)
    (chunks : list str) (o : outcome AgentResult) (self : TeeOutput) (a : App) :
  is_Some (agent a) →
  invoke env query = (Wrote st <$> chunks, o) →
  sys_stream st a = Some self →
  lines_of (buffer self) = ([], buffer self) →
  agent_invoke env query a =
    (o,
     set_sys_stream st
       (Some (mkTeeOutput (sender self) (lines_of (buffer self ++ concat chunks)).2))
       (set_message_queue
          (message_queue a ++
           forward_lines (sender self) (lines_of (buffer self ++ concat chunks)).1)
          (set_console (console a ++ concat chunks)
             (set_agent_calls (agent_calls a ++ [query]) a)))).
Proof.
  intros [ag Hag] Hinv Hst Hbuf.
  unfold agent_invoke, bind, gets, modify. rewrite Hag, Hinv. simpl.
  erewrite (play_writes st chunks self); [|by destruct st|done].
  destruct o, st; reflexivity.
Qed.

Lemma capture_single_stream (env : Run) (query : str) (st : Stream)
    (chunks : list str) (r : AgentResult) (a : App) :
  is_Some (agent a) →
  invoke env query = (Wrote st <$> chunks, Return r) →
  capture_agent_output env query a =
    (Return r,
     set_sys_stdout None (set_sys_stderr None
       (set_agent_calls (agent_calls a ++ [query])
          (set_console (console a ++ concat chunks)
             (set_message_queue
                (message_queue a ++
                 forward_lines (py "Agent") (lines_of (concat chunks)).1 ++
                 forward (py "Agent") (lines_of (concat chunks)).2) a))))).
Proof.
  intros Hag Hinv.
  unfold capture_agent_output, try_finally, bind, modify.
  erewrite (agent_invoke_writes env query st chunks (Return r)
              (mkTeeOutput (py "Agent") []));
    [|done|done|by destruct st|done].
  destruct st; run.
  - erewrite (sys_flush_teed stdout) by reflexivity. run.
    erewrite (sys_flush_teed stderr) by reflexivity. run.
    rewrite (forward_blank _ []) by done. rewrite app_nil_r, <- app_assoc. reflexivity.
  - erewrite (sys_flush_teed stdout) by reflexivity. run.
    erewrite (sys_flush_teed stderr) by reflexivity. run.
    rewrite (forward_blank _ []) by done. rewrite app_nil_r, <- app_assoc. reflexivity.
Qed.

(** When the agent raises, [capture_agent_output] never reaches its flushes:
    the complete lines were forwarded, the partial line is dropped. *)
Lemma capture_single_stream_raises (env : Run) (query : str) (st : Stream)
    (chunks : list str) (e : exn) (a : App) :
  is_Some (agent a) →
  invoke env query = (Wrote st <$> chunks, Raise e) →
  capture_agent_output env query a =
    (Raise e,
     set_sys_stdout None (set_sys_stderr None
       (set_agent_calls (agent_calls a ++ [query])
          (set_console (console a ++ concat chunks)
             (set_message_queue
                (message_queue a ++
                 forward_lines (py "Agent") (lines_of (concat chunks)).1) a))))).
Proof.
  intros Hag Hinv.
  unfold capture_agent_output, try_finally, bind, modify.
  erewrite (agent_invoke_writes env query st chunks (Raise e)
              (mkTeeOutput (py "Agent") []));
    [|done|done|by destruct st|done].
  destruct st; reflexivity.
Qed.

(** ** What the helpers may change *)

Lemma with_io_id (a : App) :
  with_io (console a) (message_queue a) (sys_stdout a) a = a.
Proof. by destruct a. Qed.

Lemma print_effect (text : str) (a : App) :
  ∃ C Q S, print text a = (Return tt, with_io C Q S a).
Proof.
  unfold print. destruct (sys_stdout a) as [self|] eqn:Hso.
  - rewrite (sys_write_teed stdout _ self a Hso). by eexists _, _, _.
  - unfold sys_write, bind, gets, modify. simpl. rewrite Hso.
    by exists (console a ++ text ++ [LF]), (message_queue a), (sys_stdout a).
Qed.

(** With [sys.stdout] not redirected, [print] only reaches the terminal. *)
Lemma print_terminal (text : str) (a : App) :
  sys_stdout a = None →
  print text a = (Return tt, set_console (console a ++ text ++ [LF]) a).
Proof.
  intros Hso. unfold print, sys_write, bind, gets, modify. simpl. by rewrite Hso.
Qed.

Lemma save_chat_history_effect (a : App) :
  ∃ F C Q S,
    save_chat_history a = (Return tt, set_files F (with_io C Q S a)) ∧
    ∀ name, name ≠ "chat_history.json" → F !! name = files a !! name.
Proof.
  unfold save_chat_history, try_except, bind, gets, json_dump.
  destruct (faults a !! "chat_history.json") as [[msg|msg]|].
  - destruct (print_effect (py "Error saving chat history: " ++ msg) a)
      as (C & Q & S & ->).
    by exists (files a), C, Q, S.
  - match goal with |- context [print ?t ?b] =>
      destruct (print_effect t b) as (C & Q & S & ->) end.
    eexists _, C, Q, S. split; [reflexivity|].
    intros name Hname. by apply lookup_insert_ne.
  - eexists _, (console a), (message_queue a), (sys_stdout a).
    split; [reflexivity|]. intros name Hname. by apply lookup_insert_ne.
Qed.

(** [add_message] shows and records the message, and saves the chat history:
    of the files only [chat_history.json] can change. *)
Lemma add_message_effect (sender message msg_type : str) (a : App) :
  ∃ F C Q S,
    add_message sender message msg_type a =
      (Return tt,
       set_files F (with_io C Q S
         (set_chat_history
            (chat_history a ++ [mkChatMessage (now a) sender message msg_type])
            (set_chat_display
               (chat_display a ++
                [py "[" ++ now a ++ py "] " ++ sender ++ py ": " ++ message ++ [LF; LF]])
               a)))) ∧
    ∀ name, name ≠ "chat_history.json" → F !! name = files a !! name.
Proof.
  unfold add_message, bind, gets, modify.
  match goal with |- context [save_chat_history ?b] =>
    destruct (save_chat_history_effect b) as (F & C & Q & S & -> & HF) end.
  by exists F, C, Q, S.
Qed.

(** Replace the next [add_message] call by its effect. *)
Ltac step_add_message :=
  match goal with
  | |- context [add_message ?s ?m ?t ?b] =>
      let F := fresh "F" in let C := fresh "C" in
      let Q := fresh "Q" in let S := fresh "S" in
      let HF := fresh "HF" in
      destruct (add_message_effect s m t b) as (F & C & Q & S & -> & HF);
      fields_in HF
  end.

Lemma truthy_true (s : str) : truthy s = true ↔ s ≠ [].
Proof. by destruct s. Qed.

Lemma truthy_false (s : str) : truthy s = false ↔ s = [].
Proof. by destruct s. Qed.

Lemma strip_loaded_strings (l : list json) (a : App) :
  match strings_of l with
  | Some ss => strip_loaded l a = (Return (stripped_nonempty ss), a)
  | None => ∃ e, strip_loaded l a = (Raise (Exception e), a)
  end.
Proof.
  induction l as [|v l IH]; [done|].
  destruct v; try (by eexists).
  simpl. unfold bind. destruct (strings_of l) as [ss|]; simpl.
  - rewrite IH. unfold ret, stripped_nonempty. simpl.
    destruct (strip s) eqn:Hs; simpl.
    + by rewrite filter_cons_False by naive_solver.
    + by rewrite filter_cons_True by done.
  - destruct IH as [e ->]. by eexists.
Qed.

Lemma load_rules_effect (a : App) :
  ∃ C Q S, load_rules a = (Return (loaded_rules a), with_io C Q S a).
Proof.
  assert (∃ C Q S, (Return (A := list str) [], a) =
                   (Return (A := list str) [], with_io C Q S a)) as Hid.
  { exists (console a), (message_queue a), (sys_stdout a). by rewrite with_io_id. }
  assert (∀ e, ∃ C Q S,
    (print (py "Error loading rules from rules.json: " ++ e);; ret []) a =
      (Return (A := list str) [], with_io C Q S a)) as Herr.
  { intros e. unfold bind.
    destruct (print_effect (py "Error loading rules from rules.json: " ++ e) a)
      as (C & Q & S & ->).
    by exists C, Q, S. }
  unfold load_rules, loaded_rules, try_except, bind at 1 2, exists_, gets, json_load.
  destruct (files a !! "rules.json") as [[v|why]|] eqn:Hfile; simpl; rewrite ?Hfile.
  - destruct (faults a !! "rules.json") as [[msg|msg]|]; [apply Herr| |];
      (destruct v as [| | | | |l|]; simpl; unfold ret; try apply Hid;
       pose proof (strip_loaded_strings l a) as Hl;
       destruct (strings_of l) as [ss|];
       [rewrite Hl; exists (console a), (message_queue a), (sys_stdout a);
        by rewrite with_io_id
       |destruct Hl as [e ->]; apply Herr]).
  - destruct (faults a !! "rules.json") as [[msg|msg]|]; apply Herr.
  - destruct (faults a !! "rules.json") as [[msg|msg]|]; apply Hid.
Qed.

Lemma show_settings_effect (a : App) :
  ∃ W C Q S,
    show_settings a = (Return tt, set_settings_window (Some W) (with_io C Q S a)).
Proof.
  unfold show_settings, bind at 1, gets.
  destruct (settings_window a) as [w|] eqn:Hw.
  - exists w, (console a), (message_queue a), (sys_stdout a).
    unfold ret. f_equal. destruct a. simpl in *. by rewrite Hw.
  - unfold bind, gets, modify.
    match goal with |- context [load_rules ?b] =>
      destruct (load_rules_effect b) as (C & Q & S & ->) end.
    by eexists _, C, Q, S.
Qed.

Lemma initialize_agent_effect (a : App) :
  ∃ G F C Q S H D,
    initialize_agent a =
      (Return tt,
       set_agent G (set_files F (with_io C Q S
         (set_chat_history H (set_chat_display D a))))).
Proof.
  unfold initialize_agent, construct_agent. mrun.
  destruct DEPENDENCIES_AVAILABLE; cbn [negb].
  - destruct (agent_ctor a) as [msg|]; step_add_message;
      match goal with
      | |- ∃ G F C Q S H D, (_, ?X) = _ =>
          exists (agent X), (files X), (console X), (message_queue X),
                 (sys_stdout X), (chat_history X), (chat_display X);
          reflexivity
      end.
  - step_add_message.
    match goal with
    | |- ∃ G F C Q S H D, (_, ?X) = _ =>
        exists (agent X), (files X), (console X), (message_queue X),
               (sys_stdout X), (chat_history X), (chat_display X);
        reflexivity
    end.
Qed.

(** ** Starting a task *)

Lemma strip_placeholder : strip placeholder = placeholder.
Proof. by vm_compute. Qed.

Lemma send_command_launch (a : App) :
  let a' := exec send_command a in
  let thread := mkThread (strip (command_entry a)) true in
  started_threads a' = started_threads a ++ (if launches a then [thread] else []) ∧
  task_thread a' = (if launches a then Some thread else task_thread a) ∧
  is_task_running a' = is_task_running a.
Proof.
  unfold launches, send_command, add_placeholder, update_task_history_display. run.
  destruct (truthy (strip (command_entry a))) eqn:Hcmd; run;
    [|by rewrite app_nil_r].
  case_bool_decide as Hph; run; [by rewrite app_nil_r|].
  destruct (truthy (current_api_key a)) eqn:Hkey; run.
  - step_add_message. run.
    destruct DEPENDENCIES_AVAILABLE; run.
    + destruct (is_task_running a) eqn:Hrun; run; rewrite ?Hrun;
        [by rewrite app_nil_r|done].
    + step_add_message. run. by rewrite app_nil_r.
  - step_add_message. run.
    match goal with |- context [show_settings ?b] =>
      destruct (show_settings_effect b) as (W & C' & Q' & S' & ->) end.
    run. by rewrite app_nil_r.
Qed.

(** The history entry is appended before the running flag is looked at. *)
Lemma send_command_history (a : App) :
  truthy (strip (command_entry a)) = true →
  strip (command_entry a) ≠ placeholder →
  truthy (current_api_key a) = true →
  DEPENDENCIES_AVAILABLE = true →
  task_history (exec send_command a) = task_history a ++ [strip (command_entry a)].
Proof.
  intros Hcmd Hph Hkey Hdep.
  unfold send_command, add_placeholder, update_task_history_display. run.
  rewrite Hcmd, bool_decide_eq_false_2 by done. run.
  rewrite Hkey. run. step_add_message. run. rewrite Hdep. run.
  by destruct (is_task_running a); run.
Qed.

(** The rejections that come first leave the whole state as it is. *)
Lemma send_command_blank (a : App) :
  truthy (strip (command_entry a)) = false ∨ strip (command_entry a) = placeholder →
  send_command a = (Return tt, a).
Proof.
  intros H. unfold send_command. run.
  destruct H as [-> | ->]; [done|].
  rewrite bool_decide_eq_true_2 by done. by rewrite orb_true_r.
Qed.

Lemma send_command_no_key (a : App) :
  truthy (strip (command_entry a)) = true →
  strip (command_entry a) ≠ placeholder →
  truthy (current_api_key a) = false →
  let a' := exec send_command a in
  is_Some (settings_window a') ∧
  chat_history a' = chat_history a ++
    [mkChatMessage (now a) (py "System")
       (py "Error: Please set your Google API key in Settings before starting a task.")
       (py "error")] ∧
  task_history a' = task_history a.
Proof.
  intros Hcmd Hph Hkey. unfold send_command. run.
  rewrite Hcmd, bool_decide_eq_false_2 by done. run.
  rewrite Hkey. run.
  step_add_message. run.
  match goal with |- context [show_settings ?b] =>
    destruct (show_settings_effect b) as (W & C' & Q' & S' & ->) end.
  run. by eauto.
Qed.

Lemma launches_frame (a b : App) :
  command_entry b = command_entry a →
  current_api_key b = current_api_key a →
  is_task_running b = is_task_running a →
  launches b = launches a.
Proof. unfold launches. by intros -> -> ->. Qed.

Lemma start_task_launch (a : App) :
  launches a = false →
  let a' := exec start_task a in
  started_threads a' = started_threads a ∧
  task_thread a' = task_thread a ∧
  is_task_running a' = is_task_running a.
Proof.
  intros Hno. unfold start_task. run.
  destruct (negb (truthy (strip (command_entry a))) ||
            bool_decide (command_entry a = placeholder)); run; [done|].
  destruct (truthy (current_api_key a)) eqn:Hkey; run.
  - assert (∀ b, command_entry b = command_entry a →
                 current_api_key b = current_api_key a →
                 is_task_running b = is_task_running a →
                 started_threads b = started_threads a →
                 task_thread b = task_thread a →
      let b' := (if negb (bool_decide (is_Some (agent b)))
                 then add_message (py "System")
                        ([0x274C%N] ++
                         py " Agent initialization failed. Please check your API key and try again.")
                        (py "error")
                 else send_command) b in
      started_threads b'.2 = started_threads a ∧
      task_thread b'.2 = task_thread a ∧
      is_task_running b'.2 = is_task_running a) as Hrest.
    { intros b Hce Hk Hr Hth Htt.
      destruct (negb (bool_decide (is_Some (agent b)))); run.
      - step_add_message. run. done.
      - pose proof (send_command_launch b) as Hb. cbv zeta in Hb.
        rewrite (launches_frame a b Hce Hk Hr), Hno, app_nil_r in Hb.
        unfold exec in Hb. by rewrite Hth, Htt, Hr in Hb. }
    destruct (negb (bool_decide (is_Some (agent a))) && DEPENDENCIES_AVAILABLE); run.
    + destruct (initialize_agent_effect a) as (G & F & C & Q & S & H & D & ->). run.
      match goal with |- context [(if _ then _ else send_command) ?b] =>
        exact (Hrest b eq_refl eq_refl eq_refl eq_refl eq_refl) end.
    + exact (Hrest a eq_refl eq_refl eq_refl eq_refl eq_refl).
  - step_add_message. run.
    match goal with |- context [show_settings ?b] =>
      destruct (show_settings_effect b) as (W & C' & Q' & S' & ->) end.
    run. done.
Qed.

Lemma start_task_no_key (a : App) :
  truthy (strip (command_entry a)) = true →
  command_entry a ≠ placeholder →
  truthy (current_api_key a) = false →
  let a' := exec start_task a in
  is_Some (settings_window a') ∧
  chat_history a' = chat_history a ++
    [mkChatMessage (now a) (py "System")
       ([0x26A0%N; 0xFE0F%N] ++
        py " API key is required to run tasks. Please enter your API key.")
       (py "error")] ∧
  task_history a' = task_history a.
Proof.
  intros Hcmd Hph Hkey. unfold start_task. run.
  rewrite Hcmd, bool_decide_eq_false_2 by done. run.
  rewrite Hkey. run.
  step_add_message. run.
  match goal with |- context [show_settings ?b] =>
    destruct (show_settings_effect b) as (W & C' & Q' & S' & ->) end.
  run. by eauto.
Qed.

Lemma rejected_not_launched (a : App) :
  truthy (strip (command_entry a)) = false ∨
  strip (command_entry a) = placeholder ∨
  is_task_running a = true ∨
  truthy (current_api_key a) = false →
  launches a = false.
Proof.
  unfold launches. intros [-> | [-> | [-> | ->]]]; [done| | |].
  - by rewrite bool_decide_eq_true_2, andb_false_r.
  - by rewrite !andb_false_r.
  - by rewrite andb_false_r.
Qed.

(** C7. A start request, from the Start button ([start_task]) or from the
    Return key ([send_command]), launches no worker thread when the command
    is empty, or is the placeholder text, or a task is already running, or no
    API key is configured. When the command is acceptable and the API key is
    what is missing, the settings window is opened and an error message is
    added to the chat. *)
Theorem start_rejected_without_launch (a : App) :
  truthy (strip (command_entry a)) = false ∨
  strip (command_entry a) = placeholder ∨
  is_task_running a = true ∨
  truthy (current_api_key a) = false →
  (started_threads (exec start_task a) = started_threads a ∧
   task_thread (exec start_task a) = task_thread a ∧
   is_task_running (exec start_task a) = is_task_running a) ∧
  (started_threads (exec send_command a) = started_threads a ∧
   task_thread (exec send_command a) = task_thread a ∧
   is_task_running (exec send_command a) = is_task_running a) ∧
  (truthy (strip (command_entry a)) = true ∧
   strip (command_entry a) ≠ placeholder ∧
   truthy (current_api_key a) = false →
   (is_Some (settings_window (exec start_task a)) ∧
    ∃ m, chat_history (exec start_task a) = chat_history a ++ [m] ∧
         cm_type m = py "error") ∧
   (is_Some (settings_window (exec send_command a)) ∧
    ∃ m, chat_history (exec send_command a) = chat_history a ++ [m] ∧
         cm_type m = py "error")).
Proof.
  intros Hrej. apply rejected_not_launched in Hrej as Hno.
  split; [exact (start_task_launch a Hno)|]. split.
  - pose proof (send_command_launch a) as H. cbv zeta in H.
    by rewrite Hno, app_nil_r in H.
  - intros (Hcmd & Hph & Hkey). split.
    + destruct (start_task_no_key a Hcmd) as (Hw & Hch & _); [|done|].
      { intros Heq. apply Hph. rewrite Heq. apply strip_placeholder. }
      split; [done|]. by eexists.
    + destruct (send_command_no_key a Hcmd Hph Hkey) as (Hw & Hch & _).
      split; [done|]. by eexists.
Qed.

(** C6. When [stop_task] is called while a task is running (the flag is set,
    a worker thread was started, and the current asyncio task is not done),
    it requests cancellation of the current task, sets the running flag to
    false, puts the buttons in their idle states at once, adds the
    "Stopping task" notice to the chat, and returns; nothing in it waits for
    the worker, whose threads and queue it leaves as they are. *)
Theorem stop_while_running (a : App) (thread : Thread) (t : Task) :
  is_task_running a = true →
  task_thread a = Some thread →
  current_task a = Some t →
  done t = false →
  let a' := exec stop_task a in
  eval stop_task a = Return tt ∧
  current_task a' = Some (mkTask true false) ∧
  is_task_running a' = false ∧
  start_button a' = normal ∧ stop_button a' = disabled ∧
  chat_history a' = chat_history a ++
    [mkChatMessage (now a) (py "System")
       ([0x1F6D1%N] ++ py " Stopping task... Please wait...") (py "system")] ∧
  chat_display a' = chat_display a ++
    [py "[" ++ now a ++ py "] " ++ py "System" ++ py ": " ++
     ([0x1F6D1%N] ++ py " Stopping task... Please wait...") ++ [LF; LF]] ∧
  started_threads a' = started_threads a ∧
  agent_calls a' = agent_calls a.
Proof.
  intros Hrun Hth Hct Hdone. unfold stop_task, update_button_states. run.
  rewrite Hrun, Hth. run.
  rewrite bool_decide_eq_true_2 by done. run.
  step_add_message. run. rewrite Hct, Hdone. run. done.
Qed.

(** While no task is running [stop_task] does nothing at all. *)
Lemma stop_while_idle (a : App) :
  is_task_running a = false → stop_task a = (Return tt, a).
Proof. intros Hrun. unfold stop_task. run. by rewrite Hrun. Qed.

(** ** The worker *)

Lemma with_tees_id (a : App) :
  with_tees (console a) (message_queue a) (sys_stdout a) (sys_stderr a) a = a.
Proof. by destruct a. Qed.

Ltac tees_witness :=
  match goal with
  | |- ∃ C Q So Se, (_, ?X) = _ =>
      exists (console X), (message_queue X), (sys_stdout X), (sys_stderr X);
      reflexivity
  end.

Lemma sys_write_effect (st : Stream) (text : str) (a : App) :
  ∃ C Q So Se, sys_write st text a = (Return tt, with_tees C Q So Se a).
Proof.
  destruct (sys_stream st a) as [self|] eqn:Hst.
  - rewrite (sys_write_teed st text self a Hst). destruct st; tees_witness.
  - unfold sys_write. run. rewrite Hst. tees_witness.
Qed.

Lemma sys_flush_effect (st : Stream) (a : App) :
  ∃ C Q So Se, sys_flush st a = (Return tt, with_tees C Q So Se a).
Proof.
  destruct (sys_stream st a) as [self|] eqn:Hst.
  - rewrite (sys_flush_teed st self a Hst). destruct st; tees_witness.
  - unfold sys_flush. run. rewrite Hst.
    exists (console a), (message_queue a), (sys_stdout a), (sys_stderr a).
    by rewrite with_tees_id.
Qed.

Lemma play_effect (evs : list SinkEvent) (a : App) :
  ∃ C Q So Se, play evs a = (Return tt, with_tees C Q So Se a).
Proof.
  revert a. induction evs as [|ev evs IH]; intros a.
  - exists (console a), (message_queue a), (sys_stdout a), (sys_stderr a).
    by rewrite with_tees_id.
  - simpl. unfold bind.
    destruct ev as [st text|st]; simpl;
      [destruct (sys_write_effect st text a) as (C & Q & So & Se & ->)
      |destruct (sys_flush_effect st a) as (C & Q & So & Se & ->)];
      destruct (IH (with_tees C Q So Se a)) as (C' & Q' & So' & Se' & ->);
      tees_witness.
Qed.

(** With an agent at hand, [capture_agent_output] ends as the agent's call
    ends; it records the call, may write to the terminal and the queue, and
    leaves the streams restored. *)
Lemma capture_effect (env : Run) (query : str) (a : App) :
  is_Some (agent a) →
  ∃ C Q,
    capture_agent_output env query a =
      ((invoke env query).2,
       with_tees C Q None None (set_agent_calls (agent_calls a ++ [query]) a)).
Proof.
  intros [ag Hag]. unfold capture_agent_output, agent_invoke. run.
  rewrite Hag.
  match goal with |- context [play ?evs ?b] =>
    destruct (play_effect evs b) as (C & Q & So & Se & ->) end.
  destruct (invoke env query).2 as [r|e]; run.
  - match goal with |- context [sys_flush stdout ?b] =>
      destruct (sys_flush_effect stdout b) as (C1 & Q1 & So1 & Se1 & ->) end.
    run.
    match goal with |- context [sys_flush stderr ?b] =>
      destruct (sys_flush_effect stderr b) as (C2 & Q2 & So2 & Se2 & ->) end.
    run. by exists C2, Q2.
  - by exists C, Q.
Qed.

(** Without an agent the call fails before anything is written. *)
Lemma capture_no_agent (env : Run) (query : str) (a : App) :
  agent a = None →
  capture_agent_output env query a =
    (Raise (Exception (py "'NoneType' object has no attribute 'invoke'")),
     set_sys_stdout None (set_sys_stderr None a)).
Proof.
  intros Hag. unfold capture_agent_output, agent_invoke. run. by rewrite Hag.
Qed.
Lemma app_ext (a b : App) :
  command_entry a = command_entry b → current_api_key a = current_api_key b →
  agent a = agent b → is_task_running a = is_task_running b →
  current_task a = current_task b → task_thread a = task_thread b →
  message_queue a = message_queue b → chat_history a = chat_history b →
  task_history a = task_history b → settings a = settings b →
  chat_display a = chat_display b → start_button a = start_button b →
  stop_button a = stop_button b → task_history_frame a = task_history_frame b →
  settings_window a = settings_window b → sys_stdout a = sys_stdout b →
  sys_stderr a = sys_stderr b → dialogs a = dialogs b → console a = console b →
  started_threads a = started_threads b → agent_calls a = agent_calls b →
  files a = files b → faults a = faults b → now a = now b →
  agent_ctor a = agent_ctor b → a = b.
Proof. destruct a, b; simpl; intros; by subst. Qed.

(** Two results whose states agree attribute by attribute, the queues up to
    the bracketing of their appends. *)
Ltac same_state :=
  lazymatch goal with
  | |- (_, _) = (_, _) => apply (f_equal2 pair); [reflexivity|]
  | _ => idtac
  end;
  unfold back_to_idle, put_all; apply app_ext; fields;
  rewrite <- ?app_assoc; reflexivity.

(** The [try] statement, flattened: one case per way it can end. The two
    checks around the call read [False] and pass. *)
Lemma execute_agent_call_flat (env : Run) (e : str) (a : App) :
  execute_agent_call env e a =
    match await env (capture_agent_output env e) (put_all [executing] a) with
    | (Return r, a2) => (Return tt, back_to_idle (put_all (report r) a2))
    | (Raise CancelledError, a2) => (Raise CancelledError, back_to_idle a2)
    | (Raise (Exception msg), a2) =>
        (Return tt,
         back_to_idle
           (put_all [(py "System", [0x274C%N] ++ py " Error executing task: " ++ msg,
                      py "error")] a2))
    end.
Proof.
  unfold execute_agent_call, report, executing. run.
  unfold put_all.
  destruct (await env (capture_agent_output env e) _) as [[r|[|msg]] a2]; run;
    [|done|done].
  destruct (content r) as [c|]; [destruct (truthy c)|]; run; same_state.
Qed.

Lemma execute_flat (env : Run) (query : str) (a : App) :
  execute_agent_task_async env query a =
    execute_agent_call env (enhanced_query (rules (settings a)) query)
      (put_all [analyzing]
         (put_all (announce (rules (settings a)) query) (set_is_task_running true a))).
Proof.
  unfold execute_agent_task_async, enhanced_query, announce, analyzing, update_buttons.
  run.
  destruct (rules (settings a)) as [|rule rules']; run.
  - f_equal. unfold put_all. same_state.
  - destruct (valid_rules (rule :: rules')) as [|v vs]; run;
      f_equal; unfold put_all; same_state.
Qed.

Lemma await_capture_returns (env : Run) (e : str) (r : AgentResult) (a : App) :
  is_Some (agent a) → (invoke env e).2 = Return r → cancelled_at_await env = false →
  ∃ a2, await env (capture_agent_output env e) a = (Return r, a2) ∧
        agent_calls a2 = agent_calls a ++ [e].
Proof.
  intros Hag Hr Haw. unfold await.
  destruct (capture_effect env e a Hag) as (C & Q & ->).
  rewrite Haw, Hr. by eexists.
Qed.

(** A cancellation delivered at the [await] ends the coroutine in
    [CancelledError]. *)
Lemma execute_cancelled (env : Run) (query : str) (a : App) :
  cancelled_at_await env = true →
  eval (execute_agent_task_async env query) a = Raise CancelledError.
Proof.
  intros Haw. unfold eval. rewrite execute_flat, execute_agent_call_flat.
  unfold await.
  destruct (capture_agent_output env _ _) as [o s]. by rewrite Haw.
Qed.

Lemma run_agent_task_async_cancelled (env : Run) (query : str) (a : App) :
  eval (execute_agent_task_async env query)
       (set_current_task (Some (mkTask false false)) a) = Raise CancelledError →
  eval (run_agent_task_async env query) a = Return tt ∧
  cancel_notice ∈ message_queue (exec (run_agent_task_async env query) a).
Proof.
  unfold run_agent_task_async, cancel_notice. run.
  destruct (execute_agent_task_async env query _) as [[[]|[|msg]] s]; run; try done.
  intros _. destruct (is_task_running s); run; split; try done; set_solver.
Qed.

(** *** The checks of the cancellation flag *)

(** No state makes a check raise: with an agent in place the coroutine
    always reaches the agent's call, whatever [stop_task] has requested of
    the current task. *)
Lemma execute_calls_agent (env : Run) (query : str) (a : App) :
  is_Some (agent a) →
  agent_calls (exec (execute_agent_task_async env query) a) =
    agent_calls a ++ [enhanced_query (rules (settings a)) query].
Proof.
  intros Hag. unfold exec. rewrite execute_flat, execute_agent_call_flat.
  unfold await.
  match goal with |- context [capture_agent_output env ?e ?s] =>
    destruct (capture_effect env e s) as (C & Q & ->); [exact Hag|] end.
  destruct (cancelled_at_await env);
    [|destruct (invoke env _).2 as [r|[|msg]]]; run; done.
Qed.

(** And when no cancellation is delivered at the [await], the result of a
    call that returns is reported. *)
Lemma execute_reports_result (env : Run) (query : str) (r : AgentResult) (a : App) :
  is_Some (agent a) →
  cancelled_at_await env = false →
  (invoke env (enhanced_query (rules (settings a)) query)).2 = Return r →
  ∃ a2, execute_agent_task_async env query a =
          (Return tt, back_to_idle (put_all (report r) a2)).
Proof.
  intros Hag Haw Hr. rewrite execute_flat, execute_agent_call_flat.
  match goal with |- context [await env (capture_agent_output env ?e) ?s] =>
    destruct (await_capture_returns env e r s) as (a2 & -> & _);
      [exact Hag|exact Hr|exact Haw|] end.
  by exists a2.
Qed.

(** ** Rule injection *)

Lemma numbered_contains (valid : list str) (i k : nat) (rule : str) :
  valid !! k = Some rule →
  contains (of_nat (i + k) ++ py ". " ++ rule) (numbered i valid) = true.
Proof.
  revert i k. induction valid as [|r valid IH]; intros i k Hk; [done|].
  apply contains_infix. destruct k as [|k]; simpl in *.
  - injection Hk as ->. rewrite Nat.add_0_r.
    exists [], ([LF] ++ numbered (S i) valid). by rewrite <- !app_assoc.
  - specialize (IH (S i) k Hk). apply contains_infix in IH as (x & y & ->).
    replace (i + S k) with (S i + k) by lia.
    exists (of_nat i ++ py ". " ++ r ++ [LF] ++ x), y. by rewrite <- !app_assoc.
Qed.

(** Rules as [load_rules] and the settings window leave them, stripped and
    non-empty, are all valid. *)
Lemma valid_rules_clean (rules : list str) :
  Forall (λ rule, rule ≠ [] ∧ strip rule = rule) rules → valid_rules rules = rules.
Proof.
  unfold valid_rules. induction 1 as [|rule rules [Hne Hs] _ IH]; [done|].
  rewrite filter_cons_True by (rewrite Hs; by destruct rule).
  rewrite fmap_cons, Hs. by f_equal.
Qed.

(** C5. When at least one configured rule has a visible character, the
    string that [execute_agent_task_async] passes to the agent is the raw
    command with the instruction block in front of it: the header, one line
    "i. rule" for the i-th such rule (stripped, counted from 1), and the
    phrase that introduces the task; the command itself is its unchanged
    suffix. *)
Theorem rules_prepended (env : Run) (query : str) (a : App) :
  valid_rules (rules (settings a)) ≠ [] →
  is_Some (agent a) →
  let valid := valid_rules (rules (settings a)) in
  let block := rules_header ++ numbered 1 valid ++ [LF] ++ py "Now complete this task: " in
  agent_calls (exec (execute_agent_task_async env query) a) =
    agent_calls a ++ [block ++ query] ∧
  endswith (block ++ query) query = true ∧
  (∀ k rule, valid !! k = Some rule →
     contains (of_nat (S k) ++ py ". " ++ rule) (block ++ query) = true).
Proof.
  intros Hvalid Hag valid block. split; [|split].
  - rewrite (execute_calls_agent env query a Hag).
    assert (enhanced_query (rules (settings a)) query = block ++ query) as ->; [|done].
    unfold enhanced_query, rules_text, block, valid.
    destruct (rules (settings a)) as [|r rs]; [done|].
    destruct (valid_rules (r :: rs)); [done|]. by rewrite <- !app_assoc.
  - apply endswith_app.
  - intros k rule Hk. unfold block. rewrite <- app_assoc.
    apply contains_app_r. rewrite <- app_assoc. apply contains_app_l.
    by apply (numbered_contains valid 1 k).
Qed.

(** ** The lines of a text *)






(** ** Persistence *)

Lemma json_dump_fault (name : string) (v : json) (f : fault) (a : App) :
  faults a !! name = Some f →
  json_dump name v a =
    (Raise (Exception (fault_msg f)), set_files (after_fault name f (files a)) a).
Proof.
  intros Hf. unfold json_dump. rewrite Hf. destruct f; [|done].
  simpl. by destruct a.
Qed.

Lemma json_dump_ok (name : string) (v : json) (a : App) :
  faults a !! name = None →
  json_dump name v a = (Return tt, set_files (<[name := Json v]> (files a)) a).
Proof. intros Hf. unfold json_dump. by rewrite Hf. Qed.

(** A failed save, with [sys.stdout] not redirected: one line on the
    terminal, nothing else but the damaged file. *)
Lemma failed_save (name : string) (v : App → json) (label : str) (f : fault) (a : App) :
  sys_stdout a = None →
  faults a !! name = Some f →
  try_except (x <- gets v;; json_dump name x) (λ e, print (label ++ e)) a =
    (Return tt,
     set_console (console a ++ (label ++ fault_msg f) ++ [LF])
       (set_files (after_fault name f (files a)) a)).
Proof.
  intros Hso Hf. run. rewrite (json_dump_fault name (v a) f a Hf).
  rewrite print_terminal by done. reflexivity.
Qed.

(** C3, as the code has it. While [sys.stdout] is not redirected by an agent
    call in flight: a failed write of the settings, the chat history or the
    task history prints one line on the terminal and changes nothing else but
    the file it may have truncated; no exception leaves the method. A failed
    write of the rules from the settings window prints its line too, and then
    shows an error dialog; the rules in memory stay as they were and no chat
    message is added. *)
Theorem failed_save_reporting (a : App) :
  sys_stdout a = None →
  (∀ f, faults a !! "agent_settings.json" = Some f →
     save_settings_to_file a =
       (Return tt,
        set_console (console a ++ (py "Error saving settings: " ++ fault_msg f) ++ [LF])
          (set_files (after_fault "agent_settings.json" f (files a)) a))) ∧
  (∀ f, faults a !! "chat_history.json" = Some f →
     save_chat_history a =
       (Return tt,
        set_console (console a ++ (py "Error saving chat history: " ++ fault_msg f) ++ [LF])
          (set_files (after_fault "chat_history.json" f (files a)) a))) ∧
  (∀ f, faults a !! "task_history.json" = Some f →
     save_task_history a =
       (Return tt,
        set_console (console a ++ (py "Error saving task history: " ++ fault_msg f) ++ [LF])
          (set_files (after_fault "task_history.json" f (files a)) a))) ∧
  (∀ f w, faults a !! "rules.json" = Some f → settings_window a = Some w →
     save_rules_from_settings_ui a =
       (Return tt,
        set_dialogs
          (dialogs a ++
           [showerror (py "Error") (py "Failed to save rules: " ++ fault_msg f)])
          (set_console
             (console a ++ (py "Error saving rules to rules.json: " ++ fault_msg f) ++ [LF])
             (set_files (after_fault "rules.json" f (files a)) a)))).
Proof.
  intros Hso. repeat split; intros f.
  - intros Hf. by apply (failed_save "agent_settings.json" (λ a, json_of_settings (settings a))).
  - intros Hf.
    by apply (failed_save "chat_history.json"
                (λ a, JArr (json_of_chat_message <$> chat_history a))).
  - intros Hf. by apply (failed_save "task_history.json" (λ a, json_of_strs (task_history a))).
  - intros w Hf Hw. unfold save_rules_from_settings_ui, _save_rules_to_file. run.
    rewrite Hw. run. rewrite (json_dump_fault _ _ f a Hf).
    rewrite print_terminal by done. reflexivity.
Qed.

(** A save that does not fail stores the document. *)
Lemma save_task_history_ok (a : App) :
  faults a !! "task_history.json" = None →
  save_task_history a =
    (Return tt,
     set_files (<["task_history.json" := Json (json_of_strs (task_history a))]> (files a)) a).
Proof.
  intros Hf. unfold save_task_history. run. by rewrite (json_dump_ok _ _ a Hf).
Qed.

(** ** The sidebar *)

Lemma recent_tasks_last (task_history : list str) :
  recent_tasks task_history = last_n 8 task_history.
Proof.
  unfold recent_tasks, last_n. case_decide as H; [done|].
  by replace (length task_history - 8) with 0 by lia.
Qed.

Lemma strings_of_strs (l : list str) : strings_of (JStr <$> l) = Some l.
Proof.
  induction l as [|s l IH]; [done|].
  rewrite fmap_cons. cbn [strings_of]. by rewrite IH.
Qed.

(** The labels, newest entry first. *)
Lemma recent_tasks_newest_first (task_history : list str) :
  reverse (recent_tasks task_history) = take 8 (reverse task_history).
Proof. rewrite recent_tasks_last. unfold last_n. by rewrite take_reverse. Qed.

(** C8. The sidebar shows one label for each of the last 8 entries of the
    task history (for all of them when there are at most 8), the most recent
    first: label [i] stands for the [i]-th entry counted from the end. A
    label is bound to its entry, whole, and shows the entry itself when it has
    at most 40 characters, and its first 40 characters followed by "..."
    otherwise. The display leaves the history as it is, and
    [save_task_history], when its write does not fail, stores the whole
    history, every entry in full and in order. *)
Theorem history_display_and_persistence (a : App) :
  faults a !! "task_history.json" = None →
  let shown := task_history_frame (exec update_task_history_display a) in
  length shown = length (task_history a) `min` 8 ∧
  (∀ i, i < 8 → bound_task <$> (shown !! i) = reverse (task_history a) !! i) ∧
  bound_task <$> shown = reverse (drop (length (task_history a) - 8) (task_history a)) ∧
  (∀ label, label ∈ shown →
     text label =
       if decide (length (bound_task label) ≤ 40) then bound_task label
       else take 40 (bound_task label) ++ py "...") ∧
  task_history (exec update_task_history_display a) = task_history a ∧
  files (exec save_task_history a) !! "task_history.json" =
    Some (Json (JArr (JStr <$> task_history a))) ∧
  task_history (exec save_task_history a) = task_history a.
Proof.
  intros Hf shown. subst shown. unfold update_task_history_display. run.
  split; [|split; [|split; [|split; [|split; [done|]]]]].
  - rewrite length_fmap, length_reverse, recent_tasks_last. unfold last_n.
    rewrite length_drop. lia.
  - intros i Hi. rewrite list_lookup_fmap, recent_tasks_newest_first.
    rewrite lookup_take_lt by done.
    by destruct (reverse (task_history a) !! i).
  - rewrite <- list_fmap_compose, recent_tasks_last. apply list_fmap_id.
  - intros label (task & -> & _)%list_elem_of_fmap. cbn [text bound_task].
    unfold task_text. repeat case_decide; (done || lia).
  - unfold exec. rewrite save_task_history_ok by done. run.
    by rewrite lookup_insert_eq.
Qed.

(** ** Rules *)

Lemma dedup_first_filter (P : str → Prop) `{∀ x, Decision (P x)} (l : list str) :
  dedup_first (filter P l) = filter P (dedup_first l).
Proof.
  induction l as [|x l IH]; [done|]. simpl.
  destruct (decide (P x)) as [HP|HP].
  - rewrite !filter_cons_True by done. simpl. rewrite IH.
    f_equal. rewrite !list_filter_filter. apply list_filter_iff. tauto.
  - rewrite !filter_cons_False by done. rewrite IH, list_filter_filter.
    apply list_filter_iff. intros y. split; [|tauto].
    intros Hy. split; [done|]. by intros ->.
Qed.

Lemma elem_of_dedup_first (x : str) (l : list str) : x ∈ dedup_first l ↔ x ∈ l.
Proof.
  induction l as [|y l IH]; [done|]. simpl.
  rewrite !elem_of_cons, list_elem_of_filter, IH.
  destruct (decide (x = y)); tauto.
Qed.

Lemma NoDup_dedup_first (l : list str) : NoDup (dedup_first l).
Proof.
  induction l as [|x l IH]; simpl; constructor.
  - rewrite list_elem_of_filter. tauto.
  - by apply NoDup_filter.
Qed.

Lemma stripped_nonempty_cons (entry : str) (entries : list str) :
  stripped_nonempty (entry :: entries) =
    if truthy (strip entry) then strip entry :: stripped_nonempty entries
    else stripped_nonempty entries.
Proof.
  unfold stripped_nonempty. rewrite fmap_cons.
  destruct (strip entry) eqn:Hs; simpl.
  - by rewrite filter_cons_False by naive_solver.
  - by rewrite filter_cons_True by done.
Qed.

(** The loop of [save_rules_from_settings_ui], from any rules collected so
    far. *)
Lemma collect_rules_from (rules entries : list str) :
  foldl (λ rules entry,
           let rule := strip entry in
           if truthy rule && negb (bool_decide (rule ∈ rules))
           then rules ++ [rule] else rules)
        rules entries =
  rules ++ dedup_first (filter (λ rule, rule ∉ rules) (stripped_nonempty entries)).
Proof.
  revert rules. induction entries as [|entry entries IH]; intros rules.
  - by rewrite app_nil_r.
  - cbn [foldl]. rewrite IH, stripped_nonempty_cons.
    destruct (truthy (strip entry)) eqn:Hs; cbn [andb]; [|done].
    case_bool_decide as Hin; cbn [negb].
    + by rewrite filter_cons_False by naive_solver.
    + rewrite filter_cons_True by done. cbn [dedup_first].
      rewrite <- app_assoc. cbn [app]. do 2 f_equal.
      rewrite <- dedup_first_filter. f_equal.
      rewrite list_filter_filter. apply list_filter_iff.
      intros y. rewrite elem_of_app, list_elem_of_singleton. tauto.
Qed.

(** The rules collected from the fields are the stripped non-empty texts, each
    kept at its first occurrence. *)
Lemma collect_rules_dedup (entries : list str) :
  collect_rules entries = dedup_first (stripped_nonempty entries).
Proof.
  unfold collect_rules. rewrite collect_rules_from. cbn [app]. f_equal.
  induction (stripped_nonempty entries) as [|x l IH]; [done|].
  rewrite filter_cons_True by apply not_elem_of_nil. by f_equal.
Qed.

(** C9. When the write of [rules.json] does not fail, saving the rules from
    the settings window stores, in the file and in the settings in memory,
    the whitespace-stripped non-empty texts of the rule fields with
    duplicates removed: each text once, at the place of its first occurrence,
    in field order. *)
Theorem settings_rules_saved (a : App) (w : SettingsWindow) :
  settings_window a = Some w →
  faults a !! "rules.json" = None →
  let a' := exec save_rules_from_settings_ui a in
  let saved := dedup_first (stripped_nonempty (rule_entries w)) in
  eval save_rules_from_settings_ui a = Return tt ∧
  files a' !! "rules.json" = Some (Json (JArr (JStr <$> saved))) ∧
  rules (settings a') = saved ∧
  theme (settings a') = theme (settings a) ∧
  dialogs a' = dialogs a ∧
  NoDup saved ∧
  (∀ rule, rule ∈ saved ↔ rule ≠ [] ∧ ∃ entry, entry ∈ rule_entries w ∧ rule = strip entry).
Proof.
  intros Hw Hf a' saved. subst a' saved.
  unfold save_rules_from_settings_ui, _save_rules_to_file. run.
  rewrite Hw. run. rewrite collect_rules_dedup.
  rewrite (json_dump_ok _ _ a Hf). run.
  step_add_message. run.
  rewrite HF by done. rewrite lookup_insert_eq.
  do 5 (split; [done|]). split; [apply NoDup_dedup_first|].
  intros rule. rewrite elem_of_dedup_first. unfold stripped_nonempty.
  rewrite list_elem_of_filter, list_elem_of_fmap.
  split; [intros (Hne & entry & -> & Hin)|intros (Hne & entry & Hin & ->)]; eauto.
Qed.

Lemma stripped_nonempty_clean (entries : list str) :
  Forall (λ rule, rule ≠ [] ∧ strip rule = rule) (stripped_nonempty entries).
Proof.
  apply Forall_forall. intros rule. unfold stripped_nonempty.
  rewrite list_elem_of_filter, list_elem_of_fmap.
  intros (Hne & entry & -> & _). split; [done|apply strip_idemp].
Qed.

Lemma loaded_rules_clean (a : App) :
  Forall (λ rule, rule ≠ [] ∧ strip rule = rule) (loaded_rules a).
Proof.
  unfold loaded_rules.
  destruct (faults a !! "rules.json") as [[msg|msg]|];
    destruct (files a !! "rules.json") as [[v|why]|]; try constructor;
    (destruct v as [| | | | |l|]; try constructor;
     destruct (strings_of l); [apply stripped_nonempty_clean|constructor]).
Qed.

(** C10. [load_rules] never raises and always returns non-empty strings
    without blanks at their ends. It returns the empty list when [rules.json]
    is missing, is not valid JSON, holds a value that is not an array, or
    holds an array with an element that is not a string (and also when the
    file cannot be opened); when the file can be read and holds an array of
    strings, it returns these strings stripped, the empty ones left out, in
    the order of the array. *)
Theorem load_rules_total (a : App) :
  ∃ loaded,
    eval load_rules a = Return loaded ∧
    Forall (λ rule, rule ≠ [] ∧ strip rule = rule) loaded ∧
    (files a !! "rules.json" = None → loaded = []) ∧
    (∀ why, files a !! "rules.json" = Some (Garbage why) → loaded = []) ∧
    (∀ v, files a !! "rules.json" = Some (Json v) →
          (∀ l, v ≠ JArr l) → loaded = []) ∧
    (∀ l, files a !! "rules.json" = Some (Json (JArr l)) →
          strings_of l = None → loaded = []) ∧
    (∀ msg, faults a !! "rules.json" = Some (OpenFails msg) → loaded = []) ∧
    (∀ l ss, files a !! "rules.json" = Some (Json (JArr l)) →
             strings_of l = Some ss →
             (∀ msg, faults a !! "rules.json" ≠ Some (OpenFails msg)) →
             loaded = stripped_nonempty ss).
Proof.
  exists (loaded_rules a). split.
  { destruct (load_rules_effect a) as (C & Q & S & H). unfold eval. by rewrite H. }
  split; [apply loaded_rules_clean|].
  unfold loaded_rules.
  repeat split.
  - intros ->. by destruct (faults a !! "rules.json") as [[]|].
  - intros why ->. by destruct (faults a !! "rules.json") as [[]|].
  - intros v -> Hv. destruct (faults a !! "rules.json") as [[]|]; [done| |];
      (destruct v as [| | | | |l|]; try done; by destruct (Hv l)).
  - intros l -> ->. by destruct (faults a !! "rules.json") as [[]|].
  - by intros msg ->.
  - intros l ss -> -> Hopen.
    destruct (faults a !! "rules.json") as [[msg|msg]|]; [by destruct (Hopen msg)|done|done].
Qed.

(** ** More of the command handlers *)

(** Attribute reads, the setters the claims did not need included. *)
Ltac fields' :=
  cbn [with_io with_tees back_to_idle put_all set_sys_stream sys_stream
       set_command_entry set_current_api_key set_agent set_is_task_running
       set_current_task set_task_thread set_message_queue set_chat_history
       set_task_history set_settings set_chat_display set_start_button
       set_stop_button set_task_history_frame set_settings_window set_sys_stdout
       set_sys_stderr set_dialogs set_console set_started_threads set_agent_calls
       set_files set_faults set_now set_agent_ctor
       command_entry current_api_key agent is_task_running current_task
       task_thread message_queue chat_history task_history settings chat_display
       start_button stop_button task_history_frame settings_window sys_stdout
       sys_stderr dialogs console started_threads agent_calls files faults now
       agent_ctor].

Ltac run' := repeat progress (run; fields').

Lemma accepts_guards (a : App) :
  accepts a = true ↔
  truthy (strip (command_entry a)) = true ∧
  strip (command_entry a) ≠ placeholder ∧
  truthy (current_api_key a) = true ∧
  DEPENDENCIES_AVAILABLE = true.
Proof.
  unfold accepts. rewrite !andb_true_iff, negb_true_iff, bool_decide_eq_false. tauto.
Qed.

Lemma launches_accepts (a : App) :
  launches a = (accepts a && negb (is_task_running a)).
Proof. reflexivity. Qed.

(** The newest entry of the history is the first label of the sidebar. *)
Lemma recent_tasks_snoc (history : list str) (task : str) :
  reverse (recent_tasks (history ++ [task])) =
    task :: reverse (drop (length history - 7) history).
Proof.
  rewrite recent_tasks_last. unfold last_n. rewrite length_app. simpl.
  replace (length history + 1 - 8) with (length history - 7) by lia.
  rewrite drop_app_le by lia. by rewrite reverse_app.
Qed.

(** An accepted command: the whole effect of [send_command]. *)
Lemma send_command_accepted (a : App) :
  accepts a = true →
  let command := strip (command_entry a) in
  let thread := mkThread command true in
  ∃ F C Q S,
    send_command a =
      (Return tt,
       (if is_task_running a then (λ b, b)
        else λ b, set_started_threads (started_threads a ++ [thread])
                    (set_task_thread (Some thread) b))
         (set_task_history_frame
            ((λ task, mkTaskLabel (task_text task) task) <$>
               reverse (recent_tasks (task_history a ++ [command])))
            (set_task_history (task_history a ++ [command])
               (set_files F (with_io C Q S
                  (set_chat_history
                     (chat_history a ++ [mkChatMessage (now a) (py "User") command (py "user")])
                     (set_chat_display
                        (chat_display a ++ [chat_line (now a) (py "User") command])
                        (set_command_entry placeholder a)))))))) ∧
    ∀ name, name ≠ "chat_history.json" → F !! name = files a !! name.
Proof.
  intros Hacc command thread. apply accepts_guards in Hacc as (Hcmd & Hph & Hkey & Hdep).
  unfold send_command, add_placeholder, update_task_history_display. run.
  rewrite Hcmd, bool_decide_eq_false_2 by done. run.
  rewrite Hkey. run. step_add_message. run. rewrite Hdep. run.
  exists F, C, Q, S. split; [|exact HF].
  destruct (is_task_running a) eqn:Hrun; run; rewrite ?Hrun; reflexivity.
Qed.

(** X1. A command that passes every guard of [send_command] (not blank, not
    the placeholder, an API key configured, the dependencies imported, no
    task running) starts exactly one worker thread, a daemon, with the
    stripped command as its argument; the command is echoed to the chat as
    the user's message, appended to the task history, shown as the first
    label of the sidebar, and the entry goes back to the placeholder. The
    running flag is not set by the handler: it stays false until the worker
    sets it. *)
Theorem accepted_command_starts_worker (a : App) :
  launches a = true →
  let command := strip (command_entry a) in
  let a' := exec send_command a in
  eval send_command a = Return tt ∧
  started_threads a' = started_threads a ++ [mkThread command true] ∧
  task_thread a' = Some (mkThread command true) ∧
  task_history a' = task_history a ++ [command] ∧
  chat_history a' =
    chat_history a ++ [mkChatMessage (now a) (py "User") command (py "user")] ∧
  chat_display a' = chat_display a ++ [chat_line (now a) (py "User") command] ∧
  command_entry a' = placeholder ∧
  (∃ older, task_history_frame a' = mkTaskLabel (task_text command) command :: older) ∧
  is_task_running a' = false ∧
  dialogs a' = dialogs a ∧
  settings_window a' = settings_window a.
Proof.
  intros Hl command a'. subst a'.
  rewrite launches_accepts in Hl. apply andb_prop in Hl as [Hacc Hrun].
  apply negb_true_iff in Hrun.
  destruct (send_command_accepted a Hacc) as (F & C & Q & S & Hsend & _).
  unfold eval, exec. rewrite Hsend, Hrun. run.
  rewrite recent_tasks_snoc, fmap_cons.
  repeat split; try done. by eexists.
Qed.

Lemma send_command_records (a : App) :
  task_history (exec send_command a) =
    task_history a ++ (if accepts a then [strip (command_entry a)] else []).
Proof.
  destruct (accepts a) eqn:Hacc.
  - destruct (send_command_accepted a Hacc) as (F & C & Q & S & Hsend & _).
    unfold exec. rewrite Hsend. by destruct (is_task_running a); run.
  - rewrite app_nil_r. revert Hacc.
    unfold accepts, send_command, add_placeholder, update_task_history_display. run.
    destruct (truthy (strip (command_entry a))) eqn:Hcmd; run; [|done].
    case_bool_decide as Hph; run; [done|].
    destruct (truthy (current_api_key a)) eqn:Hkey; run.
    + intros ->. step_add_message. run. step_add_message. run. done.
    + intros _. step_add_message. run.
      match goal with |- context [show_settings ?b] =>
        destruct (show_settings_effect b) as (W & C' & Q' & S' & ->) end.
      run. done.
Qed.

Lemma accepted_is_command (a : App) :
  accepts a = true → is_command (strip (command_entry a)).
Proof.
  intros (Hcmd & Hph & _ & _)%accepts_guards. split; [|split].
  - by apply truthy_true.
  - apply strip_idemp.
  - done.
Qed.

Lemma accepts_frame (a b : App) :
  command_entry b = command_entry a →
  current_api_key b = current_api_key a →
  accepts b = accepts a.
Proof. unfold accepts. by intros -> ->. Qed.

(** What [start_task] does to the history: nothing, or what the
    [send_command] it ends with does. *)
Lemma start_task_records (a : App) :
  task_history (exec start_task a) = task_history a ∨
  accepts a = true ∧
  task_history (exec start_task a) = task_history a ++ [strip (command_entry a)].
Proof.
  unfold start_task. run.
  destruct (negb (truthy (strip (command_entry a))) ||
            bool_decide (command_entry a = placeholder)); run; [by left|].
  destruct (truthy (current_api_key a)) eqn:Hkey; run.
  - assert (∀ b, command_entry b = command_entry a →
                 current_api_key b = current_api_key a →
                 task_history b = task_history a →
      let b' := (if negb (bool_decide (is_Some (agent b)))
                 then add_message (py "System")
                        ([0x274C%N] ++
                         py " Agent initialization failed. Please check your API key and try again.")
                        (py "error")
                 else send_command) b in
      task_history b'.2 = task_history a ∨
      accepts a = true ∧
      task_history b'.2 = task_history a ++ [strip (command_entry a)]) as Hrest.
    { intros b Hce Hk Hh.
      destruct (negb (bool_decide (is_Some (agent b)))); run.
      - step_add_message. run. by left.
      - pose proof (send_command_records b) as Hb. unfold exec in Hb.
        rewrite (accepts_frame a b Hce Hk), Hh, Hce in Hb.
        destruct (accepts a); [right|left]; [done|by rewrite app_nil_r in Hb]. }
    destruct (negb (bool_decide (is_Some (agent a))) && DEPENDENCIES_AVAILABLE); run.
    + destruct (initialize_agent_effect a) as (G & F & C & Q & S & H & D & ->). run.
      match goal with |- context [(if _ then _ else send_command) ?b] =>
        exact (Hrest b eq_refl eq_refl eq_refl) end.
    + exact (Hrest a eq_refl eq_refl eq_refl).
  - step_add_message. run.
    match goal with |- context [show_settings ?b] =>
      destruct (show_settings_effect b) as (W & C' & Q' & S' & ->) end.
    run. by left.
Qed.

(** X2. The task history only grows, by at most one entry per command
    handler, and what [send_command] and [start_task] append is a command:
    stripped, not empty and not the placeholder. A history that holds only
    commands still does after either handler. *)
Theorem history_grows_by_commands (a : App) :
  (∃ new, task_history (exec send_command a) = task_history a ++ new ∧
          length new ≤ 1 ∧ Forall is_command new) ∧
  (∃ new, task_history (exec start_task a) = task_history a ++ new ∧
          length new ≤ 1 ∧ Forall is_command new) ∧
  (Forall is_command (task_history a) →
   Forall is_command (task_history (exec send_command a)) ∧
   Forall is_command (task_history (exec start_task a))).
Proof.
  assert (∃ new, task_history (exec send_command a) = task_history a ++ new ∧
                 length new ≤ 1 ∧ Forall is_command new) as Hsend.
  { rewrite send_command_records. destruct (accepts a) eqn:Hacc.
    - eexists. split; [done|]. split; [simpl; lia|].
      constructor; [by apply accepted_is_command|constructor].
    - exists []. split; [done|]. split; [simpl; lia|constructor]. }
  assert (∃ new, task_history (exec start_task a) = task_history a ++ new ∧
                 length new ≤ 1 ∧ Forall is_command new) as Hstart.
  { destruct (start_task_records a) as [-> | [Hacc ->]].
    - exists []. rewrite app_nil_r. split; [done|]. split; [simpl; lia|constructor].
    - eexists. split; [done|]. split; [simpl; lia|].
      constructor; [by apply accepted_is_command|constructor]. }
  split; [exact Hsend|]. split; [exact Hstart|].
  intros Hall. destruct Hsend as (n1 & -> & _ & H1), Hstart as (n2 & -> & _ & H2).
  split; by apply Forall_app.
Qed.

(** ** The agent, built on demand *)

Lemma initialize_agent_cases (a : App) :
  ∃ F C Q S,
    initialize_agent a =
      (Return tt,
       set_files F (with_io C Q S
         (if DEPENDENCIES_AVAILABLE then
            match agent_ctor a with
            | None =>
                set_chat_history
                  (chat_history a ++
                   [mkChatMessage (now a) (py "System")
                      (py "Agent initialized successfully.") (py "system")])
                  (set_chat_display
                     (chat_display a ++
                      [chat_line (now a) (py "System") (py "Agent initialized successfully.")])
                     (set_agent (Some tt) a))
            | Some msg =>
                set_chat_history
                  (chat_history a ++
                   [mkChatMessage (now a) (py "System")
                      (py "Failed to initialize agent: " ++ msg) (py "error")])
                  (set_chat_display
                     (chat_display a ++
                      [chat_line (now a) (py "System")
                         (py "Failed to initialize agent: " ++ msg)])
                     a)
            end
          else
            set_chat_history
              (chat_history a ++
               [mkChatMessage (now a) (py "System")
                  (py "Agent dependencies not available. Please install required packages.")
                  (py "error")])
              (set_chat_display
                 (chat_display a ++
                  [chat_line (now a) (py "System")
                     (py "Agent dependencies not available. Please install required packages.")])
                 a)))) ∧
    ∀ name, name ≠ "chat_history.json" → F !! name = files a !! name.
Proof.
  unfold initialize_agent, construct_agent. mrun.
  destruct DEPENDENCIES_AVAILABLE; cbn [negb].
  - destruct (agent_ctor a) as [msg|]; step_add_message; by exists F, C, Q, S.
  - step_add_message. by exists F, C, Q, S.
Qed.

(** X3. [initialize_agent] never raises. It leaves an agent in place exactly
    when the dependencies were imported and the constructor did not fail;
    either way it says so with one chat message from "System", of type
    "system" on success and "error" otherwise; a failure leaves the agent
    attribute as it was. *)
Theorem initialize_agent_reports (a : App) :
  let a' := exec initialize_agent a in
  let built := DEPENDENCIES_AVAILABLE && bool_decide (agent_ctor a = None) in
  eval initialize_agent a = Return tt ∧
  agent a' = (if built then Some tt else agent a) ∧
  ∃ m, chat_history a' = chat_history a ++ [m] ∧
       cm_timestamp m = now a ∧
       cm_sender m = py "System" ∧
       cm_type m = (if built then py "system" else py "error").
Proof.
  intros a' built. subst a' built.
  destruct (initialize_agent_cases a) as (F & C & Q & S & Hinit & _).
  unfold eval, exec. rewrite Hinit.
  destruct DEPENDENCIES_AVAILABLE; [destruct (agent_ctor a) as [msg|]|]; run;
    (split; [done|]); (split; [done|]); by eexists.
Qed.

Lemma launches_entry (a : App) :
  accepts a = true →
  negb (truthy (strip (command_entry a))) || bool_decide (command_entry a = placeholder) = false.
Proof.
  intros (Hcmd & Hph & _ & _)%accepts_guards. rewrite Hcmd. cbn [negb orb].
  apply bool_decide_eq_false_2. intros Heq. apply Hph. rewrite Heq. apply strip_placeholder.
Qed.

(** X4. The Start button with an acceptable command, a key and no task
    running: when an agent is already there, or can be built, [start_task]
    ends with an agent in place and one worker thread started for the
    stripped command, which is appended to the history. *)
Theorem start_task_launches (a : App) :
  launches a = true →
  is_Some (agent a) ∨ agent_ctor a = None →
  let command := strip (command_entry a) in
  let a' := exec start_task a in
  eval start_task a = Return tt ∧
  is_Some (agent a') ∧
  started_threads a' = started_threads a ++ [mkThread command true] ∧
  task_thread a' = Some (mkThread command true) ∧
  task_history a' = task_history a ++ [command] ∧
  command_entry a' = placeholder ∧
  dialogs a' = dialogs a.
Proof.
  intros Hl Hag command a'. subst a' command.
  rewrite launches_accepts in Hl. apply andb_prop in Hl as [Hacc Hrun].
  apply negb_true_iff in Hrun.
  pose proof (launches_entry a Hacc) as Hentry.
  pose proof Hacc as (Hcmd & Hph & Hkey & Hdep)%accepts_guards.
  unfold eval, exec, start_task. run. rewrite Hentry, Hkey. run.
  destruct (agent a) as [ag|] eqn:Ha.
  - rewrite bool_decide_eq_true_2 by done. run. rewrite Ha.
    rewrite bool_decide_eq_true_2 by done. run.
    destruct (send_command_accepted a Hacc) as (F & C & Q & S & -> & _).
    rewrite Hrun. run. by rewrite Ha.
  - destruct Hag as [[? [=]]|Hctor].
    rewrite bool_decide_eq_false_2 by (by intros [? [=]]). rewrite Hdep. run.
    destruct (initialize_agent_cases a) as (F & C & Q & S & -> & _).
    rewrite Hdep, Hctor. run.
    rewrite bool_decide_eq_true_2 by done. run.
    match goal with |- context [send_command ?b] =>
      destruct (send_command_accepted b) as (F' & C' & Q' & S' & -> & _);
        [by rewrite (accepts_frame a b)|] end.
    run. rewrite Hrun. run. done.
Qed.

(** X5. The Start button when no agent can be had (none is in place and
    the dependencies are missing or the constructor fails): no thread is
    started and the history is left alone; the chat ends with the error
    message "Agent initialization failed", and the command stays in the
    entry. *)
Theorem start_task_without_agent (a : App) :
  truthy (strip (command_entry a)) = true →
  command_entry a ≠ placeholder →
  truthy (current_api_key a) = true →
  agent a = None →
  DEPENDENCIES_AVAILABLE = false ∨ is_Some (agent_ctor a) →
  let a' := exec start_task a in
  eval start_task a = Return tt ∧
  agent a' = None ∧
  started_threads a' = started_threads a ∧
  task_thread a' = task_thread a ∧
  task_history a' = task_history a ∧
  command_entry a' = command_entry a ∧
  last (chat_history a') =
    Some (mkChatMessage (now a) (py "System")
            ([0x274C%N] ++
             py " Agent initialization failed. Please check your API key and try again.")
            (py "error")).
Proof.
  intros Hcmd Hph Hkey Ha Hno a'. subst a'.
  unfold eval, exec, start_task. run.
  rewrite Hcmd, bool_decide_eq_false_2 by done. run. rewrite Hkey. run. rewrite Ha.
  rewrite bool_decide_eq_false_2 by (by intros [? [=]]). run.
  destruct DEPENDENCIES_AVAILABLE eqn:Hdep; run.
  - destruct Hno as [[=]|[msg Hctor]].
    destruct (initialize_agent_cases a) as (F & C & Q & S & -> & _).
    rewrite Hdep, Hctor. run. rewrite Ha.
    rewrite bool_decide_eq_false_2 by (by intros [? [=]]). run.
    step_add_message. run. by rewrite last_snoc.
  - rewrite Ha. rewrite bool_decide_eq_false_2 by (by intros [? [=]]). run.
    step_add_message. run. by rewrite last_snoc.
Qed.

(** ** More of the stop button *)

(** X6. [stop_task] never raises and a second press does nothing: after a
    stop the handler finds no running task. It starts no thread, forgets
    none, and leaves a current task that is already done as it is. *)
Theorem stop_task_second_press (a : App) :
  eval stop_task a = Return tt ∧
  stop_task (exec stop_task a) = (Return tt, exec stop_task a) ∧
  task_thread (exec stop_task a) = task_thread a ∧
  started_threads (exec stop_task a) = started_threads a ∧
  (∀ t, current_task a = Some t → done t = true →
        current_task (exec stop_task a) = Some t).
Proof.
  destruct (is_task_running a && bool_decide (is_Some (task_thread a))) eqn:Hguard.
  - assert (is_task_running (exec stop_task a) = false ∧
            eval stop_task a = Return tt ∧
            task_thread (exec stop_task a) = task_thread a ∧
            started_threads (exec stop_task a) = started_threads a ∧
            (∀ t, current_task a = Some t → done t = true →
                  current_task (exec stop_task a) = Some t)) as (Hidle & ? & ? & ? & ?).
    { unfold eval, exec, stop_task, update_button_states. run. rewrite Hguard. run.
      step_add_message. run.
      destruct (current_task a) as [t|] eqn:Ht; [destruct (done t) eqn:Hd|]; run;
        repeat split; try done.
      - intros t' [= <-] _. done.
      - intros t' [= <-]. congruence. }
    repeat split; try done. by apply stop_while_idle.
  - assert (stop_task a = (Return tt, a)) as Hnop.
    { unfold stop_task. run. by rewrite Hguard. }
    unfold eval, exec. rewrite Hnop. cbn [fst snd]. by rewrite Hnop.
Qed.

(** ** More of the worker *)

(** Whatever the agent does, [capture_agent_output] leaves the streams
    restored and touches nothing but the terminal, the queue and the log of
    calls. *)
Lemma capture_restores (env : Run) (query : str) (a : App) :
  ∃ o C Q K,
    capture_agent_output env query a =
      (o, with_tees C Q None None (set_agent_calls K a)).
Proof.
  destruct (agent a) as [ag|] eqn:Hag.
  - destruct (capture_effect env query a) as (C & Q & ->); [by eexists|].
    by eexists _, C, Q, _.
  - rewrite (capture_no_agent env query a Hag).
    by exists (Raise (Exception (py "'NoneType' object has no attribute 'invoke'"))),
              (console a), (message_queue a), (agent_calls a).
Qed.

Lemma execute_effect (env : Run) (query : str) (a : App) :
  let a' := exec (execute_agent_task_async env query) a in
  worker_frame a a' ∧
  current_task a' = current_task a ∧
  is_task_running a' = false ∧
  (sys_stdout a = None → sys_stdout a' = None) ∧
  last (message_queue a') = Some update_buttons.
Proof.
  unfold exec, worker_frame. rewrite execute_flat, execute_agent_call_flat.
  unfold await.
  match goal with |- context [capture_agent_output env ?e ?s] =>
    destruct (capture_restores env e s) as (o & C & Q & K & ->) end.
  destruct (cancelled_at_await env); [|destruct o as [r|[|msg]]];
    run; repeat split; try done; by rewrite last_snoc.
Qed.

Lemma run_effect (env : Run) (query : str) (a : App) :
  let a' := exec (run_agent_task_async env query) a in
  eval (run_agent_task_async env query) a = Return tt ∧
  worker_frame a a' ∧
  current_task a' = None ∧
  is_task_running a' = false ∧
  (sys_stdout a = None → sys_stdout a' = None) ∧
  update_buttons ∈ message_queue a' ∧
  last (message_queue a') = Some stopped_notice.
Proof.
  pose proof (execute_effect env query (set_current_task (Some (mkTask false false)) a))
    as (Hframe & _ & Hflag & Hso & Hlast).
  unfold exec, eval, worker_frame in *. fields_in Hframe. fields_in Hso.
  unfold run_agent_task_async, stopped_notice, cancel_notice. run.
  destruct (execute_agent_task_async env query _) as [o s]. cbn [fst snd] in *.
  destruct Hframe as (? & ? & ? & ? & ? & ? & ? & ? & ? & ? & ? & ? & ? & ? & ? & ? & ? & ?).
  assert (update_buttons ∈ message_queue s) as Hin.
  { destruct (message_queue s) as [|m l] using rev_ind; [done|].
    rewrite last_snoc in Hlast. injection Hlast as ->. set_solver. }
  destruct o as [[]|[|msg]]; run; rewrite Hflag; run;
    repeat split; try done; try (by rewrite last_snoc); set_solver.
Qed.

(** X7. The worker thread never touches a widget. Whatever the agent does,
    cancelled or not, [run_agent_task_async] returns without an
    exception, forgets the current task, and leaves the chat, the buttons,
    the sidebar, the entry, the dialogs, the histories, the settings and the
    files exactly as they were: all it has to say goes through the queue. *)
Theorem worker_touches_no_widget (env : Run) (query : str) (a : App) :
  let a' := exec (run_agent_task_async env query) a in
  eval (run_agent_task_async env query) a = Return tt ∧
  current_task a' = None ∧
  chat_display a' = chat_display a ∧ chat_history a' = chat_history a ∧
  start_button a' = start_button a ∧ stop_button a' = stop_button a ∧
  task_history_frame a' = task_history_frame a ∧
  command_entry a' = command_entry a ∧
  settings_window a' = settings_window a ∧ dialogs a' = dialogs a ∧
  task_history a' = task_history a ∧ settings a' = settings a ∧
  files a' = files a ∧
  started_threads a' = started_threads a.
Proof.
  destruct (run_effect env query a) as (Hret & Hframe & Hct & _).
  unfold worker_frame in Hframe. cbv zeta. tauto.
Qed.

(** X8. How a run leaves the running flag. Every run of the coroutine ends
    with the flag down and the button sentinel last on the queue, and every
    run of the worker ends with the flag down, the sentinel on the queue and,
    last, the notice "Task stopped successfully": after a success, after an
    error of the agent and after a cancellation alike. *)
Theorem running_flag_after_run (env : Run) (query : str) (a : App) :
  let a' := exec (run_agent_task_async env query) a in
  is_task_running (exec (execute_agent_task_async env query) a) = false ∧
  last (message_queue (exec (execute_agent_task_async env query) a)) = Some update_buttons ∧
  is_task_running a' = false ∧
  update_buttons ∈ message_queue a' ∧
  last (message_queue a') = Some stopped_notice.
Proof.
  destruct (run_effect env query a) as (_ & _ & _ & Hflag & _ & Hin & Hlast).
  destruct (execute_effect env query a) as (_ & _ & Hflag' & _ & Hlast').
  cbv zeta. tauto.
Qed.

Lemma execute_agent_raises (env : Run) (query msg : str) (a : App) :
  cancelled_at_await env = false →
  is_Some (agent a) →
  (invoke env (enhanced_query (rules (settings a)) query)).2 = Raise (Exception msg) →
  ∃ C Q,
    execute_agent_task_async env query a =
      (Return tt,
       back_to_idle (put_all [error_report msg]
         (with_tees C Q None None
            (set_agent_calls (agent_calls a ++ [enhanced_query (rules (settings a)) query])
               (put_all [executing] (put_all [analyzing]
                  (put_all (announce (rules (settings a)) query)
                     (set_is_task_running true a)))))))).
Proof.
  intros Haw Hag Hinv.
  rewrite execute_flat, execute_agent_call_flat. unfold await.
  match goal with |- context [capture_agent_output env ?e ?s] =>
    destruct (capture_effect env e s) as (C & Q & ->); [exact Hag|] end.
  rewrite Haw, Hinv. by exists C, Q.
Qed.

(** X9. An exception of the agent does not leave the coroutine: with no
    cancellation delivered, [execute_agent_task_async] returns normally,
    puts the message "Error executing task: ..." with the exception's text
    on the queue as a "System" error, followed by the button sentinel, and
    resets the running flag; neither the completion message nor a result is
    reported. *)
Theorem agent_exception_reported (env : Run) (query msg : str) (a : App) :
  cancelled_at_await env = false →
  is_Some (agent a) →
  (invoke env (enhanced_query (rules (settings a)) query)).2 = Raise (Exception msg) →
  let a' := exec (execute_agent_task_async env query) a in
  eval (execute_agent_task_async env query) a = Return tt ∧
  (∃ earlier, message_queue a' = earlier ++ [error_report msg; update_buttons]) ∧
  is_task_running a' = false ∧
  agent_calls a' = agent_calls a ++ [enhanced_query (rules (settings a)) query] ∧
  sys_stdout a' = None ∧ sys_stderr a' = None.
Proof.
  intros Haw Hag Hinv a'. subst a'.
  destruct (execute_agent_raises env query msg a Haw Hag Hinv) as (C & Q & Hex).
  unfold eval, exec. rewrite Hex. run.
  split; [done|]. split; [|done].
  exists Q. by rewrite <- app_assoc.
Qed.

Lemma run_no_agent (env : Run) (query : str) (a : App) :
  cancelled_at_await env = false →
  agent a = None →
  let a' := exec (run_agent_task_async env query) a in
  message_queue a' =
    message_queue a ++ announce (rules (settings a)) query ++
    [analyzing; executing;
     error_report (py "'NoneType' object has no attribute 'invoke'");
     update_buttons; stopped_notice] ∧
  agent_calls a' = agent_calls a.
Proof.
  intros Haw Hag. unfold exec, run_agent_task_async. run.
  rewrite execute_flat, execute_agent_call_flat. unfold await. rewrite capture_no_agent by (fields; done).
  rewrite Haw. run. split; [|done].
  unfold error_report, stopped_notice. rewrite <- !app_assoc. reflexivity.
Qed.

(** X10. The Return key does not build the agent. [start_task] builds a
    missing agent before it hands over to [send_command]; [send_command]
    itself, which the Return key calls directly, does not look at the agent.
    With no agent in place an accepted command still starts its worker, and
    that run ends with the error "'NoneType' object has no attribute
    'invoke'" on the queue, without a call to any agent. *)
Theorem return_key_skips_agent_setup (env : Run) (a : App) :
  launches a = true →
  agent a = None →
  cancelled_at_await env = false →
  let command := strip (command_entry a) in
  let a1 := exec send_command a in
  let a2 := exec (run_agent_task_async env command) a1 in
  agent a1 = None ∧
  started_threads a1 = started_threads a ++ [mkThread command true] ∧
  agent_calls a2 = agent_calls a ∧
  error_report (py "'NoneType' object has no attribute 'invoke'") ∈ message_queue a2 ∧
  last (message_queue a2) = Some stopped_notice.
Proof.
  intros Hl Hag Haw command a1 a2.
  rewrite launches_accepts in Hl. apply andb_prop in Hl as [Hacc Hrun].
  apply negb_true_iff in Hrun.
  destruct (send_command_accepted a Hacc) as (F & C & Q & S & Hsend & _).
  assert (agent a1 = None ∧ agent_calls a1 = agent_calls a ∧
          started_threads a1 = started_threads a ++ [mkThread command true])
    as (Hag1 & Hcalls & Hth).
  { subst a1. unfold exec. rewrite Hsend, Hrun. run. done. }
  destruct (run_no_agent env command a1 Haw Hag1) as (Hq & Hc).
  subst a2. rewrite Hq, Hc.
  split; [done|]. split; [done|]. split; [done|]. split.
  - set_solver.
  - rewrite !app_assoc. rewrite <- (app_assoc _ _ [_; _; _; _; _]).
    change [analyzing; executing;
            error_report (py "'NoneType' object has no attribute 'invoke'");
            update_buttons; stopped_notice]
      with ([analyzing; executing;
             error_report (py "'NoneType' object has no attribute 'invoke'");
             update_buttons] ++ [stopped_notice]).
    by rewrite !app_assoc, last_snoc.
Qed.

(** X11. The transcript of a successful run. For an agent that prints on
    one stream and returns, with no cancellation delivered: the worker leaves on the
    queue, after what was there, the button sentinel and the opening
    messages (with the rules notice when rules apply), "Analyzing", then
    "Executing", then the agent's lines as the sink forwards them, then the
    completion message and the result if it has one, then the button
    sentinel and the notice "Task stopped successfully"; the terminal got
    the agent's text unchanged. *)
Theorem successful_run_transcript (env : Run) (query : str) (st : Stream)
    (chunks : list str) (r : AgentResult) (a : App) :
  cancelled_at_await env = false →
  is_Some (agent a) →
  invoke env (enhanced_query (rules (settings a)) query) = (Wrote st <$> chunks, Return r) →
  let a' := exec (run_agent_task_async env query) a in
  message_queue a' =
    message_queue a ++ announce (rules (settings a)) query ++ [analyzing; executing] ++
    forward_lines (py "Agent") (lines_of (concat chunks)).1 ++
    forward (py "Agent") (lines_of (concat chunks)).2 ++
    report r ++ [update_buttons; stopped_notice] ∧
  console a' = console a ++ concat chunks ∧
  agent_calls a' = agent_calls a ++ [enhanced_query (rules (settings a)) query] ∧
  is_task_running a' = false.
Proof.
  intros Haw Hag Hinv. unfold exec, run_agent_task_async. run.
  rewrite execute_flat, execute_agent_call_flat. unfold await. fields.
  rewrite (capture_single_stream env _ st chunks r) by (fields; done).
  rewrite Haw. run. repeat split.
  unfold stopped_notice. rewrite <- !app_assoc. reflexivity.
Qed.

(** ** More of the log sink *)

Lemma format_agent_log_nonempty (line formatted : str) :
  format_agent_log line = Some formatted → formatted ≠ [].
Proof.
  unfold format_agent_log. destruct (strip line) as [|c s] eqn:Hs; [done|].
  cbn [truthy negb].
  repeat match goal with
         | |- context [if ?c then _ else _] => destruct c; [by intros [= <-]|]
         end.
  by intros [= <-].
Qed.

Lemma forward_from_agent (line : str) : Forall from_agent (forward (py "Agent") line).
Proof.
  rewrite forward_classified. destruct (format_agent_log line) as [f|] eqn:Hf; [|constructor].
  constructor; [|constructor]. split; [done|]. split; [done|].
  by apply (format_agent_log_nonempty line).
Qed.

Lemma forward_lines_from_agent (lines : list str) :
  Forall from_agent (forward_lines (py "Agent") lines).
Proof.
  unfold forward_lines. induction lines as [|line lines IH]; [constructor|].
  rewrite fmap_cons. simpl. apply Forall_app. split; [apply forward_from_agent|exact IH].
Qed.

(** The four attributes [with_tees] sets are all it depends on. *)
Lemma with_tees_over (C Q : _) (So Se : option TeeOutput) (C' Q' : _) (So' Se' : option TeeOutput)
    (a : App) :
  with_tees C Q So Se (with_tees C' Q' So' Se' a) = with_tees C Q So Se a.
Proof. reflexivity. Qed.

(** Any writes and flushes, on either stream, while both tees are
    installed. *)
Lemma play_teed (evs : list SinkEvent) (a : App) (t1 t2 : TeeOutput) :
  sys_stdout a = Some t1 → sys_stderr a = Some t2 →
  sender t1 = py "Agent" → sender t2 = py "Agent" →
  ∃ new t1' t2',
    play evs a =
      (Return tt,
       with_tees (console a ++ written evs) (message_queue a ++ new)
         (Some t1') (Some t2') a) ∧
    sender t1' = py "Agent" ∧ sender t2' = py "Agent" ∧ Forall from_agent new.
Proof.
  revert a t1 t2. induction evs as [|ev evs IH]; intros a t1 t2 Ho He Hs1 Hs2.
  - exists [], t1, t2. split; [|by repeat split].
    simpl. unfold ret, written. simpl. rewrite !app_nil_r, <- Ho, <- He.
    by rewrite with_tees_id.
  - simpl. unfold bind.
    assert (∀ b new0 text,
      console b = console a ++ text →
      message_queue b = message_queue a ++ new0 →
      Forall from_agent new0 →
      (∃ u1 u2, sys_stdout b = Some u1 ∧ sys_stderr b = Some u2 ∧
                sender u1 = py "Agent" ∧ sender u2 = py "Agent") →
      with_tees (console a) (message_queue a) (sys_stdout a) (sys_stderr a) b = a →
      ∃ new t1' t2',
        play evs b =
          (Return tt,
           with_tees (console a ++ text ++ written evs) (message_queue a ++ new)
             (Some t1') (Some t2') a) ∧
        sender t1' = py "Agent" ∧ sender t2' = py "Agent" ∧ Forall from_agent new) as Hnext.
    { intros b new0 text Hc Hq Hnew0 (u1 & u2 & Hu1 & Hu2 & Hsu1 & Hsu2) Hb.
      destruct (IH b u1 u2 Hu1 Hu2 Hsu1 Hsu2) as (new & t1' & t2' & -> & ? & ? & Hnew).
      exists (new0 ++ new), t1', t2'. split; [|split; [done|split; [done|]]].
      - rewrite Hc, Hq, <- !app_assoc. f_equal.
        etransitivity;
          [symmetry; apply (with_tees_over _ _ _ _ (console a) (message_queue a)
                              (sys_stdout a) (sys_stderr a))|].
        by rewrite Hb.
      - by apply Forall_app. }
    destruct ev as [st text|st]; simpl.
    + destruct st.
      * rewrite (sys_write_teed stdout text t1 a Ho). fields.
        match goal with |- context [play evs ?b] =>
          destruct (Hnext b (forward_lines (sender t1) (lines_of (buffer t1 ++ text)).1) text)
            as (new & t1' & t2' & -> & ? & ? & ?) end;
          [done|done|rewrite Hs1; apply forward_lines_from_agent
          |by eexists _, _|exact (with_tees_id a)|].
        exists new, t1', t2'. split; [|done].
        unfold written. rewrite fmap_cons. reflexivity.
      * rewrite (sys_write_teed stderr text t2 a He). fields.
        match goal with |- context [play evs ?b] =>
          destruct (Hnext b (forward_lines (sender t2) (lines_of (buffer t2 ++ text)).1) text)
            as (new & t1' & t2' & -> & ? & ? & ?) end;
          [done|done|rewrite Hs2; apply forward_lines_from_agent
          |by eexists _, _|exact (with_tees_id a)|].
        exists new, t1', t2'. split; [|done].
        unfold written. rewrite fmap_cons. reflexivity.
    + destruct st.
      * rewrite (sys_flush_teed stdout t1 a Ho). fields.
        match goal with |- context [play evs ?b] =>
          destruct (Hnext b (forward (sender t1) (buffer t1)) [])
            as (new & t1' & t2' & -> & ? & ? & ?) end;
          [by rewrite app_nil_r|done|rewrite Hs1; apply forward_from_agent
          |eexists _, _; repeat split; try done; by destruct (truthy (strip (buffer t1)))
          |exact (with_tees_id a)|].
        exists new, t1', t2'. split; [|done].
        unfold written. rewrite fmap_cons. reflexivity.
      * rewrite (sys_flush_teed stderr t2 a He). fields.
        match goal with |- context [play evs ?b] =>
          destruct (Hnext b (forward (sender t2) (buffer t2)) [])
            as (new & t1' & t2' & -> & ? & ? & ?) end;
          [by rewrite app_nil_r|done|rewrite Hs2; apply forward_from_agent
          |eexists _, _; repeat split; try done; by destruct (truthy (strip (buffer t2)))
          |exact (with_tees_id a)|].
        exists new, t1', t2'. split; [|done].
        unfold written. rewrite fmap_cons. reflexivity.
Qed.

(** With an agent in place: how the call ends, what reaches the terminal, and
    where the new messages of the queue come from. *)
Lemma capture_output (env : Run) (query : str) (a : App) :
  is_Some (agent a) →
  ∃ new,
    capture_agent_output env query a =
      ((invoke env query).2,
       with_tees (console a ++ written (invoke env query).1) (message_queue a ++ new)
         None None (set_agent_calls (agent_calls a ++ [query]) a)) ∧
    Forall from_agent new.
Proof.
  intros [ag Hag]. unfold capture_agent_output, agent_invoke. run. rewrite Hag.
  match goal with |- context [play ?evs ?b] =>
    destruct (play_teed evs b (mkTeeOutput (py "Agent") []) (mkTeeOutput (py "Agent") []))
      as (new & t1 & t2 & -> & Hs1 & Hs2 & Hnew); [done|done|done|done|] end.
  destruct (invoke env query).2 as [r|e]; run.
  - erewrite (sys_flush_teed stdout) by reflexivity. run.
    erewrite (sys_flush_teed stderr) by reflexivity. run.
    eexists. rewrite <- !app_assoc. split; [reflexivity|].
    apply Forall_app. split; [done|].
    apply Forall_app. rewrite Hs1, Hs2. split; apply forward_from_agent.
  - by exists new.
Qed.

(** X12. The terminal keeps everything and the queue only grows. For any
    sequence of writes and flushes of the agent library, on either stream and
    however its call ends, [capture_agent_output] passes the written text to
    the terminal unchanged and in order; what was on the queue stays in front,
    and every message added behind it comes from the sink: sender "Agent",
    type "agent", a text that is not empty. *)
Theorem terminal_gets_agent_output (env : Run) (query : str) (a : App) :
  is_Some (agent a) →
  let a' := exec (capture_agent_output env query) a in
  console a' = console a ++ written (invoke env query).1 ∧
  ∃ new, message_queue a' = message_queue a ++ new ∧ Forall from_agent new.
Proof.
  intros Hag. destruct (capture_output env query a Hag) as (new & Hcap & Hnew).
  unfold exec. rewrite Hcap. run. split; [done|]. by exists new.
Qed.

(** X13. Whatever happens in the call, [capture_agent_output] leaves
    [sys.stdout] and [sys.stderr] restored. With an agent in place the call
    ends as the agent's [invoke] ends, its exceptions included, and is
    recorded; with none it raises before anything is written or queued. *)
Theorem capture_restores_streams (env : Run) (query : str) (a : App) :
  let a' := exec (capture_agent_output env query) a in
  sys_stdout a' = None ∧ sys_stderr a' = None ∧
  (is_Some (agent a) →
   eval (capture_agent_output env query) a = (invoke env query).2 ∧
   agent_calls a' = agent_calls a ++ [query]) ∧
  (agent a = None →
   eval (capture_agent_output env query) a =
     Raise (Exception (py "'NoneType' object has no attribute 'invoke'")) ∧
   agent_calls a' = agent_calls a ∧
   message_queue a' = message_queue a ∧
   console a' = console a).
Proof.
  cbv zeta. unfold eval, exec.
  destruct (agent a) as [ag|] eqn:Hag.
  - destruct (capture_effect env query a) as (C & Q & ->); [by eexists|].
    run. repeat split; try done; try (by intros [=]).
  - rewrite (capture_no_agent env query a Hag). run.
    repeat split; try done; try (by intros [? [=]]).
Qed.

(** X14. What the sink forwards does not depend on how the agent library
    cuts its output into writes, nor on which of the two streams it uses:
    two calls that write the same text, each on one stream, and end the same
    way end with the same outcome and leave the same queue; when they use the
    same stream they leave the same state altogether, terminal included. *)
Theorem sink_independent_of_chunking (env1 env2 : Run) (query : str) (st1 st2 : Stream)
    (chunks1 chunks2 : list str) (o : outcome AgentResult) (a : App) :
  is_Some (agent a) →
  invoke env1 query = (Wrote st1 <$> chunks1, o) →
  invoke env2 query = (Wrote st2 <$> chunks2, o) →
  concat chunks1 = concat chunks2 →
  eval (capture_agent_output env1 query) a = eval (capture_agent_output env2 query) a ∧
  message_queue (exec (capture_agent_output env1 query) a) =
    message_queue (exec (capture_agent_output env2 query) a) ∧
  (st1 = st2 → capture_agent_output env1 query a = capture_agent_output env2 query a).
Proof.
  intros Hag H1 H2 Hcat. unfold eval, exec. destruct o as [r|e].
  - rewrite (capture_single_stream env1 query st1 chunks1 r a Hag H1).
    rewrite (capture_single_stream env2 query st2 chunks2 r a Hag H2).
    by rewrite Hcat.
  - rewrite (capture_single_stream_raises env1 query st1 chunks1 e a Hag H1).
    rewrite (capture_single_stream_raises env2 query st2 chunks2 e a Hag H2).
    by rewrite Hcat.
Qed.

(** ** The queue, drained on the main thread *)

(** With [sys.stdout] not redirected, [add_message] cannot reach the
    queue. *)
Lemma add_message_quiet (sender message msg_type : str) (a : App) :
  sys_stdout a = None →
  ∃ F C,
    add_message sender message msg_type a =
      (Return tt,
       set_console C (set_files F
         (set_chat_history
            (chat_history a ++ [mkChatMessage (now a) sender message msg_type])
            (set_chat_display (chat_display a ++ [chat_line (now a) sender message]) a)))) ∧
    (∀ name, name ≠ "chat_history.json" → F !! name = files a !! name) ∧
    (faults a !! "chat_history.json" = None →
     C = console a ∧
     F = <["chat_history.json" :=
             Json (JArr (json_of_chat_message <$>
                           (chat_history a ++ [mkChatMessage (now a) sender message msg_type])))]>
           (files a)).
Proof.
  intros Hso. unfold add_message, save_chat_history. run.
  destruct (faults a !! "chat_history.json") as [f|] eqn:Hf.
  - erewrite json_dump_fault by (fields; exact Hf). run.
    rewrite print_terminal by (fields; exact Hso). fields.
    eexists _, _. split; [reflexivity|]. split; [|done].
    intros name Hname. destruct f; [done|]. by apply lookup_insert_ne.
  - erewrite json_dump_ok by (fields; exact Hf). run.
    exists (<["chat_history.json" :=
               Json (JArr (json_of_chat_message <$>
                             (chat_history a ++ [mkChatMessage (now a) sender message msg_type])))]>
              (files a)), (console a).
    split; [reflexivity|]. split; [|done].
    intros name Hname. by apply lookup_insert_ne.
Qed.

Lemma chat_messages_sentinel (m : Msg) (queue : list Msg) :
  m.1.1 = py "update_buttons" → chat_messages (m :: queue) = chat_messages queue.
Proof. intros H. unfold chat_messages. by rewrite filter_cons_False by naive_solver. Qed.

Lemma chat_messages_message (m : Msg) (queue : list Msg) :
  m.1.1 ≠ py "update_buttons" → chat_messages (m :: queue) = m :: chat_messages queue.
Proof. intros H. unfold chat_messages. by rewrite filter_cons_True. Qed.

(** With enough fuel the loop runs until the queue is empty. *)
Lemma process_message_queue_drains (fuel : nat) (a : App) :
  sys_stdout a = None →
  length (message_queue a) < fuel →
  eval (process_message_queue fuel) a = Return tt ∧
  message_queue (exec (process_message_queue fuel) a) = [] ∧
  chat_history (exec (process_message_queue fuel) a) =
    chat_history a ++ (chat_message_of (now a) <$> chat_messages (message_queue a)) ∧
  chat_display (exec (process_message_queue fuel) a) =
    chat_display a ++
    ((λ m, chat_line (now a) m.1.1 m.1.2) <$> chat_messages (message_queue a)) ∧
  (start_button (exec (process_message_queue fuel) a),
   stop_button (exec (process_message_queue fuel) a)) =
    (if has_sentinel (message_queue a) then buttons_of (is_task_running a)
     else (start_button a, stop_button a)) ∧
  is_task_running (exec (process_message_queue fuel) a) = is_task_running a ∧
  sys_stdout (exec (process_message_queue fuel) a) = None ∧
  task_history (exec (process_message_queue fuel) a) = task_history a ∧
  started_threads (exec (process_message_queue fuel) a) = started_threads a ∧
  command_entry (exec (process_message_queue fuel) a) = command_entry a.
Proof.
  revert a. induction fuel as [|fuel IH]; intros a Hso Hlen; [lia|].
  unfold eval, exec in *. cbn [process_message_queue]. run.
  destruct (message_queue a) as [|[[s m] t] queue] eqn:Hq.
  - run. simpl. by rewrite !app_nil_r.
  - run. simpl in Hlen.
    assert (∀ b, sys_stdout b = None → message_queue b = queue →
                 (process_message_queue fuel b).1 = Return tt ∧
                 message_queue (process_message_queue fuel b).2 = [] ∧
                 chat_history (process_message_queue fuel b).2 =
                   chat_history b ++ (chat_message_of (now b) <$> chat_messages queue) ∧
                 chat_display (process_message_queue fuel b).2 =
                   chat_display b ++
                   ((λ m, chat_line (now b) m.1.1 m.1.2) <$> chat_messages queue) ∧
                 (start_button (process_message_queue fuel b).2,
                  stop_button (process_message_queue fuel b).2) =
                   (if has_sentinel queue then buttons_of (is_task_running b)
                    else (start_button b, stop_button b)) ∧
                 is_task_running (process_message_queue fuel b).2 = is_task_running b ∧
                 sys_stdout (process_message_queue fuel b).2 = None ∧
                 task_history (process_message_queue fuel b).2 = task_history b ∧
                 started_threads (process_message_queue fuel b).2 = started_threads b ∧
                 command_entry (process_message_queue fuel b).2 = command_entry b) as Hnext.
    { intros b Hb <-. apply IH; [done|lia]. }
    case_bool_decide as Hs.
    + rewrite chat_messages_sentinel by done.
      unfold has_sentinel. cbn [existsb fst snd].
      rewrite bool_decide_eq_true_2 by done. cbn [orb].
      unfold update_button_states. run.
      destruct (is_task_running a) eqn:Hrun; run;
        match goal with |- context [process_message_queue fuel ?b] =>
          destruct (Hnext b) as (? & ? & Hch & Hcd & Hbt & Hr & ? & ? & ? & ?);
            [exact Hso|reflexivity|] end;
        fields_in Hch; fields_in Hcd; fields_in Hbt; fields_in Hr;
        rewrite Hr, Hrun in *;
        (repeat split; try done);
        rewrite Hbt; by destruct (has_sentinel queue).
    + rewrite chat_messages_message by done.
      unfold has_sentinel. cbn [existsb fst snd].
      rewrite bool_decide_eq_false_2 by done. cbn [orb].
      match goal with |- context [add_message s m t ?b] =>
        destruct (add_message_quiet s m t b) as (F & C & -> & _ & _); [exact Hso|] end.
      fields.
      match goal with |- context [process_message_queue fuel ?b] =>
        destruct (Hnext b) as (? & ? & Hch & Hcd & Hbt & Hr & ? & ? & ? & ?);
          [exact Hso|reflexivity|] end.
      fields_in Hch. fields_in Hcd. fields_in Hbt. fields_in Hr.
      rewrite Hch, Hcd, Hbt, !fmap_cons, <- !app_assoc.
      repeat split; done.
Qed.

(** X15. One tick of the main thread, with [sys.stdout] not redirected:
    given turns enough for the entries that are waiting, the loop of
    [process_message_queue] ends with the queue empty, having shown and
    recorded every message in the order it was queued; the button sentinel
    is not shown, and if one was waiting the buttons now follow the running
    flag. The loop changes neither the flag nor the history nor the entry,
    and starts no thread. *)
Theorem queue_drained_in_order (fuel : nat) (a : App) :
  sys_stdout a = None →
  length (message_queue a) < fuel →
  let a' := exec (process_message_queue fuel) a in
  let shown := chat_messages (message_queue a) in
  eval (process_message_queue fuel) a = Return tt ∧
  message_queue a' = [] ∧
  chat_history a' = chat_history a ++ (chat_message_of (now a) <$> shown) ∧
  chat_display a' = chat_display a ++ ((λ m, chat_line (now a) m.1.1 m.1.2) <$> shown) ∧
  (start_button a', stop_button a') =
    (if has_sentinel (message_queue a) then buttons_of (is_task_running a)
     else (start_button a, stop_button a)) ∧
  is_task_running a' = is_task_running a ∧
  task_history a' = task_history a ∧
  started_threads a' = started_threads a ∧
  command_entry a' = command_entry a.
Proof.
  intros Hso Hlen.
  destruct (process_message_queue_drains fuel a Hso Hlen)
    as (? & ? & ? & ? & ? & ? & ? & ? & ? & ?).
  cbv zeta. tauto.
Qed.

Lemma has_sentinel_elem (queue : list Msg) :
  update_buttons ∈ queue → has_sentinel queue = true.
Proof.
  unfold has_sentinel. induction queue as [|m queue IH]; [by intros ?%elem_of_nil|].
  intros [<- | Hin]%elem_of_cons; cbn [existsb].
  - by rewrite bool_decide_eq_true_2.
  - rewrite IH by done. apply orb_true_r.
Qed.

Lemma chat_messages_last (queue : list Msg) (m : Msg) :
  last queue = Some m → m.1.1 ≠ py "update_buttons" → last (chat_messages queue) = Some m.
Proof.
  destruct queue as [|m' queue] using rev_ind; [done|].
  rewrite last_snoc. intros [= ->] Hm. unfold chat_messages.
  rewrite filter_app, filter_cons_True, filter_nil by done. by rewrite last_snoc.
Qed.

Lemma run_sentinel (env : Run) (query : str) (a : App) :
  update_buttons ∈ message_queue (exec (run_agent_task_async env query) a).
Proof. by destruct (run_effect env query a) as (_ & _ & _ & _ & _ & ? & _). Qed.

(** X16. A finished run and the next tick of the main thread. Once the
    worker has returned and the queue has been drained, the queue is empty,
    the running flag is down and the buttons are idle, Start enabled and Stop
    disabled, with the notice "Task stopped successfully" as the last chat
    message: after a success, after an error of the agent and after a
    cancellation alike. *)
Theorem buttons_after_finished_run (env : Run) (query : str) (fuel : nat) (a : App) :
  sys_stdout a = None →
  length (message_queue (exec (run_agent_task_async env query) a)) < fuel →
  let a2 := exec (process_message_queue fuel) (exec (run_agent_task_async env query) a) in
  message_queue a2 = [] ∧
  is_task_running a2 = false ∧
  start_button a2 = normal ∧ stop_button a2 = disabled ∧
  last (chat_history a2) = Some (chat_message_of (now a) stopped_notice).
Proof.
  intros Hso Hlen.
  destruct (run_effect env query a) as (_ & Hframe & _ & Hflag & Hso1 & _ & Hlast).
  destruct (process_message_queue_drains fuel _ (Hso1 Hso) Hlen)
    as (_ & Hq & Hch & _ & Hbt & Hr & _).
  rewrite (has_sentinel_elem _ (run_sentinel env query a)), Hflag in Hbt.
  assert (now (exec (run_agent_task_async env query) a) = now a) as Hnow.
  { unfold worker_frame in Hframe. tauto. }
  cbv zeta. split; [exact Hq|]. split; [by rewrite Hr|].
  injection Hbt as -> ->. split; [done|]. split; [done|].
  rewrite Hch, Hnow.
  apply chat_messages_last in Hlast; [|intros H; vm_compute in H; discriminate].
  destruct (chat_messages _) as [|m l] using rev_ind; [done|].
  rewrite last_snoc in Hlast. injection Hlast as ->.
  rewrite fmap_app, app_assoc. exact (last_snoc _ _).
Qed.

(** ** More of the persistence *)

(** X17. Every chat message is on disk as soon as it is shown. When the
    write of [chat_history.json] does not fail, [add_message] returns with
    the message appended to the chat display and to the chat history, and
    with the file holding the whole history, the new message included; no
    other file is touched. *)
Theorem add_message_persists (sender message msg_type : str) (a : App) :
  faults a !! "chat_history.json" = None →
  let a' := exec (add_message sender message msg_type) a in
  eval (add_message sender message msg_type) a = Return tt ∧
  chat_history a' = chat_history a ++ [mkChatMessage (now a) sender message msg_type] ∧
  chat_display a' = chat_display a ++ [chat_line (now a) sender message] ∧
  files a' !! "chat_history.json" =
    Some (Json (JArr (json_of_chat_message <$> chat_history a'))) ∧
  (∀ name, name ≠ "chat_history.json" → files a' !! name = files a !! name) ∧
  message_queue a' = message_queue a ∧ console a' = console a.
Proof.
  intros Hf. unfold eval, exec, add_message, save_chat_history. run.
  erewrite json_dump_ok by (fields; exact Hf). run.
  rewrite lookup_insert_eq. repeat split; try done.
  intros name Hname. by apply lookup_insert_ne.
Qed.

(** One of the three silent saves: it returns, and can only touch its own
    file, the terminal and, through a redirected [sys.stdout], the queue. *)
Lemma save_effect (name : string) (v : App → json) (label : str) (a : App) :
  ∃ F C Q S,
    try_except (x <- gets v;; json_dump name x) (λ e, print (label ++ e)) a =
      (Return tt, set_files F (with_io C Q S a)) ∧
    (∀ name', name' ≠ name → F !! name' = files a !! name') ∧
    (faults a !! name = None → F !! name = Some (Json (v a))).
Proof.
  run. destruct (faults a !! name) as [f|] eqn:Hf.
  - rewrite (json_dump_fault name (v a) f a Hf).
    match goal with |- context [print ?t ?b] =>
      destruct (print_effect t b) as (C & Q & S & ->) end.
    exists (after_fault name f (files a)), C, Q, S. split; [reflexivity|]. split; [|done].
    intros name' Hname. destruct f; [done|]. by apply lookup_insert_ne.
  - rewrite (json_dump_ok name (v a) a Hf).
    exists (<[name := Json (v a)]> (files a)), (console a), (message_queue a), (sys_stdout a).
    split; [reflexivity|]. split; [|by rewrite lookup_insert_eq].
    intros name' Hname. by apply lookup_insert_ne.
Qed.

Lemma save_chat_history_saves (a : App) :
  ∃ F C Q S,
    save_chat_history a = (Return tt, set_files F (with_io C Q S a)) ∧
    (∀ name, name ≠ "chat_history.json" → F !! name = files a !! name) ∧
    (faults a !! "chat_history.json" = None →
     F !! "chat_history.json" = Some (Json (JArr (json_of_chat_message <$> chat_history a)))).
Proof.
  exact (save_effect "chat_history.json"
           (λ a, JArr (json_of_chat_message <$> chat_history a))
           (py "Error saving chat history: ") a).
Qed.

Lemma save_task_history_saves (a : App) :
  ∃ F C Q S,
    save_task_history a = (Return tt, set_files F (with_io C Q S a)) ∧
    (∀ name, name ≠ "task_history.json" → F !! name = files a !! name) ∧
    (faults a !! "task_history.json" = None →
     F !! "task_history.json" = Some (Json (json_of_strs (task_history a)))).
Proof.
  exact (save_effect "task_history.json" (λ a, json_of_strs (task_history a))
           (py "Error saving task history: ") a).
Qed.

Lemma save_settings_saves (a : App) :
  ∃ F C Q S,
    save_settings_to_file a = (Return tt, set_files F (with_io C Q S a)) ∧
    (∀ name, name ≠ "agent_settings.json" → F !! name = files a !! name) ∧
    (faults a !! "agent_settings.json" = None →
     F !! "agent_settings.json" = Some (Json (json_of_settings (settings a)))).
Proof.
  exact (save_effect "agent_settings.json" (λ a, json_of_settings (settings a))
           (py "Error saving settings: ") a).
Qed.

Lemma on_closing_effect (a : App) :
  ∃ F C Q S,
    on_closing a = (Return tt, set_is_task_running false (set_files F (with_io C Q S a))) ∧
    (faults a !! "chat_history.json" = None →
     F !! "chat_history.json" =
       Some (Json (JArr (json_of_chat_message <$> chat_history a)))) ∧
    (faults a !! "task_history.json" = None →
     F !! "task_history.json" = Some (Json (json_of_strs (task_history a)))) ∧
    (faults a !! "agent_settings.json" = None →
     F !! "agent_settings.json" = Some (Json (json_of_settings (settings a)))).
Proof.
  unfold on_closing. unfold bind at 1.
  destruct (save_chat_history_saves a) as (F1 & C1 & Q1 & S1 & -> & Hf1 & Hs1).
  unfold bind at 1.
  match goal with |- context [save_task_history ?b] =>
    destruct (save_task_history_saves b) as (F2 & C2 & Q2 & S2 & -> & Hf2 & Hs2) end.
  unfold bind at 1.
  match goal with |- context [save_settings_to_file ?b] =>
    destruct (save_settings_saves b) as (F3 & C3 & Q3 & S3 & -> & Hf3 & Hs3) end.
  fields_in Hf2. fields_in Hs2. fields_in Hf3. fields_in Hs3. run.
  exists F3, C3, Q3, S3. split; [reflexivity|]. split; [|split].
  - intros Hok. rewrite Hf3, Hf2 by done. by apply Hs1.
  - intros Hok. rewrite Hf3 by done. by apply Hs2.
  - exact Hs3.
Qed.

(** X18. Closing the window never raises and clears the running flag. The
    three saves are independent: each file whose write does not fail ends up
    holding the chat history, the task history or the settings as they are in
    memory, whether or not the other writes failed. Nothing in memory but
    the flag changes, and no dialog is shown. *)
Theorem on_closing_saves (a : App) :
  let a' := exec on_closing a in
  eval on_closing a = Return tt ∧
  is_task_running a' = false ∧
  (faults a !! "chat_history.json" = None →
   files a' !! "chat_history.json" =
     Some (Json (JArr (json_of_chat_message <$> chat_history a)))) ∧
  (faults a !! "task_history.json" = None →
   files a' !! "task_history.json" = Some (Json (json_of_strs (task_history a)))) ∧
  (faults a !! "agent_settings.json" = None →
   files a' !! "agent_settings.json" = Some (Json (json_of_settings (settings a)))) ∧
  chat_history a' = chat_history a ∧ task_history a' = task_history a ∧
  settings a' = settings a ∧ dialogs a' = dialogs a ∧ chat_display a' = chat_display a.
Proof.
  destruct (on_closing_effect a) as (F & C & Q & S & Hclose & H1 & H2 & H3).
  unfold eval, exec. rewrite Hclose. run. by repeat split.
Qed.

(** What [load_settings] returns, read off the state of
    [agent_settings.json]; it changes nothing but what a [print] can. *)
Lemma load_settings_effect (a : App) :
  ∃ C Q S,
    load_settings a =
      (Return
         match faults a !! "agent_settings.json", files a !! "agent_settings.json" with
         | Some (OpenFails _), _ => default_settings
         | _, Some (Json v) => v
         | _, _ => default_settings
         end,
       with_io C Q S a).
Proof.
  assert (∀ v : json, ∃ C Q S, (Return v, a) = (Return v, with_io C Q S a)) as Hid.
  { intros v. exists (console a), (message_queue a), (sys_stdout a). by rewrite with_io_id. }
  assert (∀ e, ∃ C Q S,
    (loaded <- (print (py "Error loading settings: " ++ e);; ret None);;
     match loaded with Some v => ret v | None => ret default_settings end) a =
      (Return default_settings, with_io C Q S a)) as Herr.
  { intros e. unfold bind.
    destruct (print_effect (py "Error loading settings: " ++ e) a) as (C & Q & S & ->).
    by exists C, Q, S. }
  unfold load_settings, exists_, json_load.
  destruct (files a !! "agent_settings.json") as [[v|why]|] eqn:Hfile.
  - destruct (faults a !! "agent_settings.json") as [[msg|msg]|] eqn:Hfault.
    + specialize (Herr msg). revert Herr. run. rewrite Hfile.
      rewrite bool_decide_eq_true_2 by done. run. by rewrite Hfault.
    + specialize (Hid v). revert Hid. run. rewrite Hfile.
      rewrite bool_decide_eq_true_2 by done. run. by rewrite Hfault, Hfile.
    + specialize (Hid v). revert Hid. run. rewrite Hfile.
      rewrite bool_decide_eq_true_2 by done. run. by rewrite Hfault, Hfile.
  - assert (∃ e, match faults a !! "agent_settings.json" with
                 | Some (OpenFails msg) => msg
                 | _ => why
                 end = e) as [e He] by (by eexists).
    specialize (Herr e). revert Herr. run. rewrite Hfile.
    rewrite bool_decide_eq_true_2 by done. run.
    destruct (faults a !! "agent_settings.json") as [[msg|msg]|];
      rewrite ?Hfile; by subst e.
  - specialize (Hid default_settings). revert Hid. run. rewrite Hfile.
    rewrite bool_decide_eq_false_2 by (by intros [? [=]]). run.
    by destruct (faults a !! "agent_settings.json") as [[msg|msg]|].
Qed.

(** X19. [load_settings] never raises and changes no attribute and no
    file. It returns the default settings (three rules, theme "dark") when
    [agent_settings.json] is missing, cannot be opened or is not valid JSON,
    and otherwise the document the file holds, as it is. *)
Theorem load_settings_total (a : App) :
  ∃ loaded,
    eval load_settings a = Return loaded ∧
    (files a !! "agent_settings.json" = None → loaded = default_settings) ∧
    (∀ why, files a !! "agent_settings.json" = Some (Garbage why) →
            loaded = default_settings) ∧
    (∀ msg, faults a !! "agent_settings.json" = Some (OpenFails msg) →
            loaded = default_settings) ∧
    (∀ v, files a !! "agent_settings.json" = Some (Json v) →
          (∀ msg, faults a !! "agent_settings.json" ≠ Some (OpenFails msg)) →
          loaded = v) ∧
    files (exec load_settings a) = files a ∧
    settings (exec load_settings a) = settings a.
Proof.
  destruct (load_settings_effect a) as (C & Q & S & Hload).
  eexists. unfold eval, exec. rewrite Hload. run. split; [reflexivity|].
  repeat split; try done.
  - intros ->. by destruct (faults a !! "agent_settings.json") as [[]|].
  - intros why ->. by destruct (faults a !! "agent_settings.json") as [[]|].
  - by intros msg ->.
  - intros v -> Hopen.
    destruct (faults a !! "agent_settings.json") as [[msg|msg]|];
      [by destruct (Hopen msg)|done|done].
Qed.

(** X20. Settings survive a save and a load. After
    [save_settings_to_file] with a write that does not fail, [load_settings]
    returns the settings in memory, rules and theme. After a write that
    failed half-way the file is damaged, and [load_settings] falls back to
    the default settings. *)
Theorem settings_round_trip (a : App) :
  (faults a !! "agent_settings.json" = None →
   eval load_settings (exec save_settings_to_file a) =
     Return (JObj [(py "rules", JArr (JStr <$> rules (settings a)));
                   (py "theme", JStr (theme (settings a)))])) ∧
  (∀ msg, faults a !! "agent_settings.json" = Some (WriteFails msg) →
   eval load_settings (exec save_settings_to_file a) = Return default_settings).
Proof.
  split.
  - intros Hf.
    destruct (save_settings_saves a) as (F & C & Q & S & Hsave & _ & Hs).
    unfold exec at 1. rewrite Hsave. cbn [snd].
    match goal with |- context [eval load_settings ?b] =>
      destruct (load_settings_effect b) as (C' & Q' & S' & Hload) end.
    unfold eval. rewrite Hload. fields. rewrite Hf, (Hs Hf). done.
  - intros msg Hf. unfold exec at 1, save_settings_to_file. run.
    rewrite (json_dump_fault _ _ _ a Hf). run.
    match goal with |- context [print ?t ?b] =>
      destruct (print_effect t b) as (C & Q & S & ->) end.
    cbn [snd].
    match goal with |- context [load_settings ?b] =>
      destruct (load_settings_effect b) as (C' & Q' & S' & Hload) end.
    rewrite Hload. fields. rewrite Hf. cbn [after_fault fst].
    by rewrite lookup_insert_eq.
Qed.

(** ** More of the rules *)

(** A successful save from the settings window: the whole effect. *)
Lemma save_rules_ok (a : App) (w : SettingsWindow) :
  settings_window a = Some w →
  faults a !! "rules.json" = None →
  let saved := dedup_first (stripped_nonempty (rule_entries w)) in
  ∃ F C Q S,
    save_rules_from_settings_ui a =
      (Return tt,
       set_files F (with_io C Q S
         (set_chat_history
            (chat_history a ++
             [mkChatMessage (now a) (py "System")
                (py "Saved " ++ of_nat (length saved) ++ py " rules successfully.")
                (py "system")])
            (set_chat_display
               (chat_display a ++
                [chat_line (now a) (py "System")
                   (py "Saved " ++ of_nat (length saved) ++ py " rules successfully.")])
               (set_settings (mkSettings saved (theme (settings a))) a))))) ∧
    F !! "rules.json" = Some (Json (json_of_strs saved)).
Proof.
  intros Hw Hf saved. subst saved.
  unfold save_rules_from_settings_ui, _save_rules_to_file. run.
  rewrite Hw. run. rewrite collect_rules_dedup.
  rewrite (json_dump_ok _ _ a Hf). run.
  step_add_message. run.
  exists F, C, Q, S. split; [reflexivity|].
  rewrite HF by done. by rewrite lookup_insert_eq.
Qed.

Lemma stripped_nonempty_id (rules : list str) :
  Forall (λ rule, rule ≠ [] ∧ strip rule = rule) rules → stripped_nonempty rules = rules.
Proof.
  induction 1 as [|rule rules [Hne Hs] _ IH]; [done|].
  rewrite stripped_nonempty_cons, Hs, IH. by destruct rule.
Qed.

Lemma dedup_first_clean (rules : list str) :
  Forall (λ rule, rule ≠ [] ∧ strip rule = rule) rules →
  Forall (λ rule, rule ≠ [] ∧ strip rule = rule) (dedup_first rules).
Proof.
  rewrite !Forall_forall. intros H rule Hin. apply H. by apply elem_of_dedup_first.
Qed.

Lemma saved_rules_clean (entries : list str) :
  Forall (λ rule, rule ≠ [] ∧ strip rule = rule) (dedup_first (stripped_nonempty entries)).
Proof. apply dedup_first_clean, stripped_nonempty_clean. Qed.

(** What [load_rules] finds after a successful save. *)
Lemma loaded_after_save (a : App) (w : SettingsWindow) :
  settings_window a = Some w →
  faults a !! "rules.json" = None →
  loaded_rules (exec save_rules_from_settings_ui a) =
    dedup_first (stripped_nonempty (rule_entries w)).
Proof.
  intros Hw Hf.
  destruct (save_rules_ok a w Hw Hf) as (F & C & Q & S & Hsave & Hfile).
  unfold exec. rewrite Hsave. unfold loaded_rules. cbn [snd]. fields.
  rewrite Hf, Hfile. unfold json_of_strs. rewrite strings_of_strs.
  apply stripped_nonempty_id, saved_rules_clean.
Qed.

(** X21. Rules survive a save and a load. After the rules were saved from
    the settings window with a write that did not fail, [load_rules] returns
    exactly the rules now in memory: the stripped, non-empty, distinct texts
    of the fields, in field order. *)
Theorem rules_round_trip (a : App) (w : SettingsWindow) :
  settings_window a = Some w →
  faults a !! "rules.json" = None →
  let a' := exec save_rules_from_settings_ui a in
  eval load_rules a' = Return (rules (settings a')) ∧
  rules (settings a') = dedup_first (stripped_nonempty (rule_entries w)).
Proof.
  intros Hw Hf a'. subst a'.
  destruct (load_rules_effect (exec save_rules_from_settings_ui a)) as (C & Q & S & Hload).
  unfold eval. rewrite Hload. cbn [fst]. rewrite (loaded_after_save a w Hw Hf).
  destruct (save_rules_ok a w Hw Hf) as (F' & C' & Q' & S' & Hsave & _).
  unfold exec. rewrite Hsave. run. done.
Qed.

Lemma fill_rule_entries_short (current_rules : list str) :
  length current_rules ≤ 5 →
  fill_rule_entries current_rules =
    current_rules ++ replicate (5 - length current_rules) [].
Proof.
  intros Hlen. unfold fill_rule_entries.
  rewrite (take_ge current_rules) by lia.
  rewrite take_app, (take_ge current_rules) by lia.
  by rewrite take_replicate, Nat.min_l by lia.
Qed.

Lemma length_fill_rule_entries (current_rules : list str) :
  length (fill_rule_entries current_rules) = 5.
Proof.
  unfold fill_rule_entries. rewrite length_take, length_app, length_replicate. lia.
Qed.

Lemma stripped_nonempty_app (l1 l2 : list str) :
  stripped_nonempty (l1 ++ l2) = stripped_nonempty l1 ++ stripped_nonempty l2.
Proof. unfold stripped_nonempty. by rewrite fmap_app, filter_app. Qed.

Lemma stripped_nonempty_blank (n : nat) : stripped_nonempty (replicate n []) = [].
Proof.
  induction n as [|n IH]; [done|]. cbn [replicate].
  rewrite stripped_nonempty_cons. by rewrite strip_nil.
Qed.

(** The fields of a new settings window hold the first five rules and
    nothing else. *)
Lemma stripped_fill_rule_entries (current_rules : list str) :
  Forall (λ rule, rule ≠ [] ∧ strip rule = rule) current_rules →
  stripped_nonempty (fill_rule_entries current_rules) = take 5 current_rules.
Proof.
  intros Hclean. unfold fill_rule_entries.
  rewrite take_app, take_take, Nat.min_id, take_replicate.
  rewrite stripped_nonempty_app, stripped_nonempty_blank, app_nil_r.
  apply stripped_nonempty_id. by apply Forall_take.
Qed.

Lemma show_settings_new (a : App) :
  settings_window a = None →
  ∃ C Q S,
    show_settings a =
      (Return tt,
       set_settings_window
         (Some (mkSettingsWindow (current_api_key a) (fill_rule_entries (loaded_rules a))))
         (with_io C Q S a)).
Proof.
  intros Hw. unfold show_settings. run. rewrite Hw. run.
  match goal with |- context [load_rules ?b] =>
    destruct (load_rules_effect b) as (C & Q & S & ->) end.
  run. by exists C, Q, S.
Qed.

(** X22. The settings window. [show_settings] never raises and leaves a
    window in place. A window that is already open is left as it is, with
    whatever was typed in it. A new window has the current API key in its
    key field and exactly five rule fields: the rules [load_rules] returns
    fill the first fields in order, at most five of them, and the fields
    after them are empty. *)
Theorem settings_window_fields (a : App) :
  eval show_settings a = Return tt ∧
  (∀ w, settings_window a = Some w → show_settings a = (Return tt, a)) ∧
  (settings_window a = None →
   ∃ w, settings_window (exec show_settings a) = Some w ∧
        api_key_entry w = current_api_key a ∧
        length (rule_entries w) = 5 ∧
        (∀ i, i < 5 → rule_entries w !! i = Some (default ([] : str) (loaded_rules a !! i)))).
Proof.
  split; [|split].
  - destruct (show_settings_effect a) as (W & C & Q & S & H). unfold eval. by rewrite H.
  - intros w Hw. unfold show_settings. run. by rewrite Hw.
  - intros Hw. destruct (show_settings_new a Hw) as (C & Q & So & Hshow).
    eexists. unfold exec. rewrite Hshow. run. split; [reflexivity|]. cbn [api_key_entry rule_entries].
    split; [done|]. split; [apply length_fill_rule_entries|].
    intros i Hi. unfold fill_rule_entries.
    rewrite lookup_take_lt by lia.
    destruct (decide (i < length (loaded_rules a))) as [Hlt|Hge].
    + assert (i < length (take 5 (loaded_rules a))) as Hin by (rewrite length_take; lia).
      rewrite (lookup_app_l _ _ _ Hin).
      rewrite lookup_take_lt by lia.
      destruct (lookup_lt_is_Some_2 _ _ Hlt) as [rule ->]. done.
    + rewrite (lookup_ge_None_2 (loaded_rules a)) by lia. cbn [default].
      assert (length (take 5 (loaded_rules a)) ≤ i) as Hout by (rewrite length_take; lia).
      rewrite (lookup_app_r _ _ _ Hout).
      apply lookup_replicate_2. rewrite length_take. lia.
Qed.

Lemma length_dedup_first (l : list str) : length (dedup_first l) ≤ length l.
Proof.
  induction l as [|x l IH]; [done|]. cbn [dedup_first length].
  pose proof (length_filter (λ y, y ≠ x) (dedup_first l)). lia.
Qed.

Lemma length_stripped_nonempty (entries : list str) :
  length (stripped_nonempty entries) ≤ length entries.
Proof.
  unfold stripped_nonempty.
  pose proof (length_filter (λ rule : str, rule ≠ []) (strip <$> entries)) as H.
  by rewrite length_fmap in H.
Qed.

(** X23. The settings window holds five rules and no more. Opening the
    window and saving its rules without touching a field rewrites
    [rules.json] with the first five of the rules [load_rules] returned,
    duplicates among them removed: a sixth rule and those after it are lost. *)
Theorem window_keeps_five_rules (a : App) :
  settings_window a = None →
  faults a !! "rules.json" = None →
  let a' := exec (show_settings;; save_rules_from_settings_ui) a in
  ∃ loaded,
    eval load_rules a = Return loaded ∧
    rules (settings a') = dedup_first (take 5 loaded) ∧
    files a' !! "rules.json" = Some (Json (JArr (JStr <$> dedup_first (take 5 loaded)))) ∧
    length (rules (settings a')) ≤ 5.
Proof.
  intros Hw Hf a'. subst a'. exists (loaded_rules a). split.
  { destruct (load_rules_effect a) as (C & Q & S & H). unfold eval. by rewrite H. }
  destruct (show_settings_new a Hw) as (C & Q & So & Hshow).
  unfold exec, bind. rewrite Hshow.
  match goal with |- context [save_rules_from_settings_ui ?b] =>
    destruct (save_rules_ok b _ eq_refl Hf) as (F' & C' & Q' & S' & Hsave & Hfile) end.
  cbv zeta in Hsave, Hfile. cbn [rule_entries] in Hsave, Hfile.
  rewrite stripped_fill_rule_entries in Hsave, Hfile by apply loaded_rules_clean.
  rewrite Hsave. run. split; [done|]. split; [exact Hfile|].
  etransitivity; [apply length_dedup_first|]. rewrite length_take. lia.
Qed.

(** X24. Saved rules come back into the window. After the rules were saved
    from a window of at most five fields, with a write that did not fail, a
    window closed and opened again shows the saved rules in its first fields,
    in order, and empty fields after them, five fields in all. *)
Theorem reopened_window_shows_saved_rules (a : App) (w : SettingsWindow) :
  settings_window a = Some w →
  faults a !! "rules.json" = None →
  length (rule_entries w) ≤ 5 →
  let saved := dedup_first (stripped_nonempty (rule_entries w)) in
  let a' := exec (save_rules_from_settings_ui;; destroy_settings_window;; show_settings) a in
  settings_window a' =
    Some (mkSettingsWindow (current_api_key a)
            (saved ++ replicate (5 - length saved) [])) ∧
  rules (settings a') = saved.
Proof.
  intros Hw Hf Hlen saved a'. subst a'.
  destruct (save_rules_ok a w Hw Hf) as (F & C & Q & S & Hsave & Hfile).
  fold saved in Hsave, Hfile.
  unfold exec, bind, destroy_settings_window, modify. rewrite Hsave. run.
  match goal with |- context [show_settings ?b] =>
    destruct (show_settings_new b eq_refl) as (C' & Q' & So' & Hshow) end.
  rewrite Hshow. run.
  match goal with |- context [fill_rule_entries (loaded_rules ?b)] =>
    assert (loaded_rules b = saved) as -> end.
  { unfold loaded_rules. fields. rewrite Hf, Hfile. unfold json_of_strs.
    rewrite strings_of_strs. apply stripped_nonempty_id, saved_rules_clean. }
  rewrite fill_rule_entries_short; [done|].
  subst saved. etransitivity; [apply length_dedup_first|].
  etransitivity; [apply length_stripped_nonempty|done].
Qed.

Lemma enhanced_query_clean (rules : list str) (query : str) :
  Forall (λ rule, rule ≠ [] ∧ strip rule = rule) rules →
  enhanced_query rules query =
    match rules with [] => query | _ :: _ => rules_text rules query end.
Proof.
  intros Hclean. unfold enhanced_query. rewrite (valid_rules_clean rules Hclean).
  by destruct rules.
Qed.

(** X25. From the settings window to the agent. After the rules were
    saved from the window, the next task hands the agent the command behind
    the instruction block made of exactly the saved rules, numbered in field
    order; when every field was blank the agent gets the command alone. *)
Theorem saved_rules_reach_agent (env : Run) (query : str) (a : App) (w : SettingsWindow) :
  settings_window a = Some w →
  faults a !! "rules.json" = None →
  is_Some (agent a) →
  let saved := dedup_first (stripped_nonempty (rule_entries w)) in
  agent_calls (exec (save_rules_from_settings_ui;; execute_agent_task_async env query) a) =
    agent_calls a ++
    [match saved with
     | [] => query
     | _ :: _ =>
         rules_header ++ numbered 1 saved ++ [LF] ++ py "Now complete this task: " ++ query
     end].
Proof.
  intros Hw Hf Hag saved.
  destruct (save_rules_ok a w Hw Hf) as (F & C & Q & S & Hsave & _).
  fold saved in Hsave.
  unfold exec, bind. rewrite Hsave.
  match goal with |- context [execute_agent_task_async env query ?b] =>
    pose proof (execute_calls_agent env query b Hag) as Hcall end.
  unfold exec in Hcall. rewrite Hcall. fields. cbn [rules].
  rewrite enhanced_query_clean by apply saved_rules_clean. reflexivity.
Qed.

(** ** The entry and the sidebar *)

(** X26. Focus does not eat what was typed. A focus-in followed by a
    focus-out ([clear_placeholder], then [add_placeholder]) leaves any text
    in the entry as it is, the placeholder included, and turns an empty entry
    into the placeholder; neither handler touches anything but the entry. *)
Theorem focus_keeps_typed_text (a : App) :
  let a' := exec (clear_placeholder;; add_placeholder) a in
  eval (clear_placeholder;; add_placeholder) a = Return tt ∧
  command_entry a' = (if truthy (command_entry a) then command_entry a else placeholder) ∧
  set_command_entry (command_entry a) a' = a.
Proof.
  unfold eval, exec, clear_placeholder, add_placeholder. run.
  case_bool_decide as Hph; run.
  - split; [done|]. split; [|done]. rewrite Hph. by destruct (truthy placeholder).
  - destruct (command_entry a) as [|c s] eqn:He; run; rewrite ?He;
      (split; [done|]); (split; [done|]); apply app_ext; fields; done.
Qed.

Lemma click_loads_task (a : App) (i : nat) (task : str) :
  reverse (task_history a) !! i = Some task →
  i < 8 →
  (update_task_history_display;; click_task_label i) a =
    (Return tt,
     set_command_entry task
       (set_task_history_frame
          ((λ task, mkTaskLabel (task_text task) task) <$>
             reverse (recent_tasks (task_history a)))
          a)).
Proof.
  intros Htask Hi.
  unfold update_task_history_display, click_task_label, on_history_select,
    load_previous_task. run.
  rewrite list_lookup_fmap, recent_tasks_last. unfold last_n.
  rewrite <- take_reverse, lookup_take_lt, Htask by done.
  cbn [fmap option_fmap option_map bound_task]. run. by rewrite app_nil_r.
Qed.

(** X27. A click in the sidebar brings the whole task back. After the
    sidebar was refreshed, a click on its [i]-th label (the newest entry is
    label 0, eight labels at most) puts the task that label stands for into
    the entry: the full text, also when the label shows it cut to 40
    characters. If the task is a command and the guards of [send_command]
    hold, sending it starts a worker for the same task and appends it to the
    history once more. *)
Theorem history_click_reruns_task (a : App) (i : nat) (task : str) :
  reverse (task_history a) !! i = Some task →
  i < 8 →
  let a1 := exec (update_task_history_display;; click_task_label i) a in
  command_entry a1 = task ∧
  task_history a1 = task_history a ∧
  (is_command task →
   truthy (current_api_key a) = true →
   DEPENDENCIES_AVAILABLE = true →
   is_task_running a = false →
   started_threads (exec send_command a1) = started_threads a ++ [mkThread task true] ∧
   task_history (exec send_command a1) = task_history a ++ [task]).
Proof.
  intros Htask Hi a1.
  assert (a1 = set_command_entry task
                 (set_task_history_frame
                    ((λ task, mkTaskLabel (task_text task) task) <$>
                       reverse (recent_tasks (task_history a))) a)) as ->.
  { subst a1. unfold exec. by rewrite (click_loads_task a i task Htask Hi). }
  fields.
  split; [done|]. split; [done|].
  intros (Hne & Hstrip & Hph) Hkey Hdep Hrun.
  match goal with |- context [exec send_command ?b] =>
    destruct (send_command_accepted b) as (F & C & Q & S & Hsend & _);
      [apply accepts_guards; fields; rewrite Hstrip;
       split; [by apply truthy_true|]; by repeat split|] end.
  unfold exec. rewrite Hsend. fields. rewrite Hrun, Hstrip. by run.
Qed.

(** ** The API key *)

(** X28. Saving an API key. With a key typed in the settings window and a
    [.env] that can be written, [save_api_key] returns, stores the key,
    stripped, as the current key, so that the commands no longer ask for
    one, confirms with the chat message "API key saved successfully." and
    shows no dialog; when the dependencies were imported it builds the agent
    at once, and an agent whose constructor fails is reported in the chat,
    not raised. *)
Theorem api_key_saved (a : App) (w : SettingsWindow) :
  settings_window a = Some w →
  truthy (strip (api_key_entry w)) = true →
  faults a !! ".env" = None →
  let a' := exec save_api_key a in
  let built := DEPENDENCIES_AVAILABLE && bool_decide (agent_ctor a = None) in
  eval save_api_key a = Return tt ∧
  current_api_key a' = strip (api_key_entry w) ∧
  truthy (current_api_key a') = true ∧
  agent a' = (if built then Some tt else agent a) ∧
  dialogs a' = dialogs a ∧
  ∃ m, chat_history a' =
         chat_history a ++
         [mkChatMessage (now a) (py "System") (py "API key saved successfully.")
            (py "system"); m] ∧
       cm_sender m = py "System" ∧
       cm_type m = (if built then py "system"
                    else if DEPENDENCIES_AVAILABLE then py "error" else py "system").
Proof.
  intros Hw Hkey Hf a' built. subst a' built.
  unfold eval, exec, save_api_key, save_api_key_to_env, set_key. run'.
  rewrite Hw. run'. rewrite Hkey, Hf. run'.
  step_add_message. run'. rewrite Hkey.
  destruct DEPENDENCIES_AVAILABLE eqn:Hdep; run'.
  - match goal with |- context [initialize_agent ?b] =>
      destruct (initialize_agent_cases b) as (F' & C' & Q' & S' & -> & _) end.
    rewrite Hdep. fields'.
    destruct (agent_ctor a) as [msg|]; run';
      rewrite ?bool_decide_eq_false_2 by done; rewrite ?bool_decide_eq_true_2 by done;
      repeat split; try done; eexists; rewrite <- app_assoc; by repeat split.
  - step_add_message. run'. repeat split; try done.
    eexists. rewrite <- app_assoc. by repeat split.
Qed.

(** X29. An API key that is not saved changes nothing. When [.env] cannot
    be written, [save_api_key] shows the error dialog "Failed to save API
    key: ..." with the cause, and leaves the current key, the agent and the
    chat as they were. When the key field is blank the current key and the
    dialogs stay as they were and the chat says "No API key provided.". In
    both cases the handler returns. *)
Theorem api_key_not_saved (a : App) (w : SettingsWindow) :
  settings_window a = Some w →
  let a' := exec save_api_key a in
  eval save_api_key a = Return tt ∧
  (∀ f, truthy (strip (api_key_entry w)) = true → faults a !! ".env" = Some f →
        current_api_key a' = current_api_key a ∧
        agent a' = agent a ∧
        chat_history a' = chat_history a ∧
        dialogs a' =
          dialogs a ++
          [showerror (py "Error") (py "Failed to save API key: " ++ fault_msg f)]) ∧
  (truthy (strip (api_key_entry w)) = false →
   current_api_key a' = current_api_key a ∧
   dialogs a' = dialogs a ∧
   ∃ m, chat_history a' =
          chat_history a ++
          [mkChatMessage (now a) (py "System") (py "No API key provided.") (py "system"); m]).
Proof.
  intros Hw a'. subst a'.
  unfold eval, exec, save_api_key, save_api_key_to_env, set_key. run'.
  rewrite Hw. run'.
  destruct (truthy (strip (api_key_entry w))) eqn:Hkey; run'.
  - destruct (faults a !! ".env") as [f|] eqn:Hf.
    + assert (∃ msg, fault_msg f = msg ∧
                match f with OpenFails m | WriteFails m => m end = msg) as (msg & Hm & Hm')
        by (destruct f; by eexists).
      destruct f; simpl in Hm'; subst msg; run';
        match goal with |- context [print ?t ?b] =>
          destruct (print_effect t b) as (C & Q & S & ->) end;
        run'; (split; [done|]); (split; [|done]);
        intros f' _ [= <-]; done.
    + run'. step_add_message. run'. rewrite Hkey.
      destruct DEPENDENCIES_AVAILABLE eqn:Hdep; run'.
      * match goal with |- context [initialize_agent ?b] =>
          destruct (initialize_agent_cases b) as (F' & C' & Q' & S' & -> & _) end.
        run'. split; [done|]. split; [done|]. done.
      * step_add_message. run'. split; [done|]. split; [done|]. done.
  - step_add_message. run'.
    destruct (DEPENDENCIES_AVAILABLE && truthy (current_api_key a)) eqn:Hinit; run'.
    + match goal with |- context [initialize_agent ?b] =>
        destruct (initialize_agent_cases b) as (F' & C' & Q' & S' & -> & _) end.
      run'. split; [done|]. split; [done|]. intros _.
      destruct DEPENDENCIES_AVAILABLE; [destruct (agent_ctor a)|]; run';
        repeat split; try done; eexists; rewrite <- app_assoc; reflexivity.
    + step_add_message. run'. split; [done|]. split; [done|]. intros _.
      repeat split; try done. eexists. rewrite <- app_assoc. reflexivity.
Qed.


End Program.

(** ** Instances *)

Example strip_both_ends : strip (py "  Be brief	 ") = py "Be brief".
Proof. by vm_compute. Qed.

Example lines_of_two : lines_of (py "ab" ++ [LF] ++ [LF] ++ py "cd") = ([py "ab"; []], py "cd").
Proof. by vm_compute. Qed.

Example format_thought :
  format_agent_log ascii_upper (py " Thought: open the browser ") =
    Some ([0x1F4AD%N] ++ py " Thought: open the browser").
Proof. by vm_compute. Qed.

Example format_error_any_case :
  format_agent_log ascii_upper (py "an error occurred") = Some ([0x274C%N] ++ py " an error occurred").
Proof. by vm_compute. Qed.

Example format_plain : format_agent_log ascii_upper (py "hello") = Some (py "hello").
Proof. by vm_compute. Qed.

Example rules_text_AB :
  rules_text [py "A"; py "B"] (py "C") =
    py "IMPORTANT: Follow these rules while completing the task:" ++ [LF] ++
    py "1. A" ++ [LF] ++ py "2. B" ++ [LF] ++ [LF] ++ py "Now complete this task: C".
Proof. by vm_compute. Qed.

Example task_text_long :
  task_text (py "Go to microsoft word and write a short 20 word summary on agi.") =
    py "Go to microsoft word and write a short 2...".
Proof. by vm_compute. Qed.

Example collect_rules_fields :
  collect_rules [py " Be brief "; []; py "Be brief"; py "Cite sources"; py "  "] =
    [py "Be brief"; py "Cite sources"].
Proof. by vm_compute. Qed.

(** When the agent raises, the partial line it left is never flushed. *)
Example partial_line_lost_when_agent_raises :
  let env := mkRun false
               (λ _, ([Wrote stdout (py "one" ++ [LF] ++ py "two")],
                      Raise (Exception (py "boom")))) in
  message_queue (exec (capture_agent_output ascii_upper env (py "go")) ready) =
    [(py "Agent", py "one", py "agent")].
Proof. by vm_compute. Qed.

(** A [flush] of the library in the middle of a line forwards what was
    written of the line so far as a message of its own. *)
Example mid_line_flush_splits_line :
  let env := mkRun false
               (λ _, ([Wrote stdout (py "ab"); Flushed stdout; Wrote stdout (py "cd" ++ [LF])],
                      Return (mkAgentResult None))) in
  message_queue (exec (capture_agent_output ascii_upper env (py "go")) ready) =
    [(py "Agent", py "ab", py "agent"); (py "Agent", py "cd", py "agent")].
Proof. by vm_compute. Qed.

(** *** C1 *)

(** C1. At a concrete state with a task running, a second command that is
    submitted with the Return key is still appended to the task history,
    although no worker is started for it. *)
Theorem second_command_recorded_while_running :
  is_task_running busy = true ∧
  task_history busy = [py "first task"] ∧
  task_history (exec (send_command ascii_upper true) busy) =
    [py "first task"; py "second task"] ∧
  started_threads (exec (send_command ascii_upper true) busy) = started_threads busy.
Proof. by vm_compute. Qed.

(** *** C2 *)

(** C2. The checks of the cancellation flag do not see a request made by
    [stop_task]. At a concrete state reached by [stop_task] on a running
    task, so that [cancel()] was called on the current task: the coroutine
    passes its checks and invokes the agent. If asyncio delivers no
    [CancelledError] at the [await], it reports the completion and the
    result; if it does, the coroutine ends in [CancelledError], but only
    after the agent was invoked. *)
Theorem stop_request_missed_by_checks :
  let a := exec (stop_task ascii_upper) busy in
  let undelivered := mkRun false (λ _, ([], Return (mkAgentResult (Some (py "done"))))) in
  let delivered := mkRun true (λ _, ([], Return (mkAgentResult (Some (py "done"))))) in
  current_task busy = Some (mkTask false false) ∧
  current_task a = Some (mkTask true false) ∧
  agent_calls a = [] ∧ message_queue a = [] ∧
  eval (execute_agent_task_async ascii_upper undelivered (py "go")) a = Return tt ∧
  agent_calls (exec (execute_agent_task_async ascii_upper undelivered (py "go")) a) =
    [py "go"] ∧
  message_queue (exec (execute_agent_task_async ascii_upper undelivered (py "go")) a) =
    [(py "update_buttons", [], []);
     (py "Agent", [0x1F916%N] ++ py " Initializing task...", py "agent");
     (py "Agent", [0x1F4CB%N] ++ py " Objective: go", py "agent");
     (py "Agent", [0x1F50D%N] ++ py " Analyzing request and planning actions...", py "agent");
     (py "Agent", [0x26A1%N] ++ py " Executing agent task...", py "agent");
     (py "Agent", [0x2705%N] ++ py " Task completed successfully!", py "agent");
     (py "Agent", [0x1F4C4%N] ++ py " Final Result: done", py "agent");
     (py "update_buttons", [], [])] ∧
  eval (execute_agent_task_async ascii_upper delivered (py "go")) a = Raise CancelledError ∧
  agent_calls (exec (execute_agent_task_async ascii_upper delivered (py "go")) a) =
    [py "go"].
Proof. by vm_compute. Qed.

(** *** C3 *)

(** C3 as stated fails for the rules: a failed write of [rules.json] from the
    settings window puts an error dialog on the screen. *)
Lemma failed_rules_save_shows_dialog :
  faults (read_only settings_open) !! "rules.json" =
    Some (OpenFails (py "Permission denied")) ∧
  dialogs (read_only settings_open) = [] ∧
  dialogs (exec (save_rules_from_settings_ui ascii_upper) (read_only settings_open)) =
    [showerror (py "Error") (py "Failed to save rules: Permission denied")].
Proof. by vm_compute. Qed.

Lemma failed_save_reporting_witness :
  sys_stdout (read_only busy) = None ∧
  save_task_history ascii_upper (read_only busy) =
    (Return tt,
     set_console (py "Error saving task history: Permission denied" ++ [LF])
       (read_only busy)).
Proof.
  split; [reflexivity|].
  pose proof (failed_save_reporting ascii_upper (read_only busy) eq_refl) as (_ & _ & H & _).
  rewrite (H (OpenFails (py "Permission denied")) eq_refl). by vm_compute.
Defined.

(** During an agent call [sys.stdout] is the tee, and the line a failed save
    prints goes to the queue as well. *)
Example failed_save_during_agent_call :
  let a := set_sys_stdout (Some (mkTeeOutput (py "Agent") [])) (read_only busy) in
  message_queue (exec (save_task_history ascii_upper) a) =
    [(py "Agent", [0x274C%N] ++ py " Error saving task history: Permission denied",
      py "agent")].
Proof. by vm_compute. Qed.

(** *** C4 *)



(** *** C5 *)

Lemma rules_prepended_witness :
  let env := printing_agent stdout [] in
  let received :=
    py "IMPORTANT: Follow these rules while completing the task:" ++ [LF] ++
    py "1. A" ++ [LF] ++ py "2. B" ++ [LF] ++ [LF] ++ py "Now complete this task: C" in
  valid_rules (rules (settings with_rules_AB)) ≠ [] ∧
  is_Some (agent with_rules_AB) ∧
  agent_calls (exec (execute_agent_task_async ascii_upper env (py "C")) with_rules_AB) =
    [received] ∧
  contains (py "1. A") received = true ∧
  contains (py "2. B") received = true ∧
  endswith received (py "C") = true.
Proof.
  intros env received.
  assert (valid_rules (rules (settings with_rules_AB)) ≠ []) as Hvalid by (by vm_compute).
  assert (is_Some (agent with_rules_AB)) as Hag by (by eexists).
  split; [exact Hvalid|]. split; [exact Hag|].
  pose proof (rules_prepended ascii_upper env (py "C") with_rules_AB Hvalid Hag)
    as (Hcall & Hend & Hrule).
  split; [rewrite Hcall; by vm_compute|].
  split; [exact (Hrule 0 (py "A") eq_refl)|].
  split; [exact (Hrule 1 (py "B") eq_refl)|].
  exact Hend.
Defined.

(** *** C6, C7 *)

Lemma stop_while_running_witness :
  is_task_running busy = true ∧
  is_task_running (exec (stop_task ascii_upper) busy) = false ∧
  current_task (exec (stop_task ascii_upper) busy) = Some (mkTask true false).
Proof.
  split; [reflexivity|].
  pose proof (stop_while_running ascii_upper busy (mkThread (py "first task") true)
                (mkTask false false) eq_refl eq_refl eq_refl eq_refl) as H.
  cbv zeta in H. split; [exact (proj1 (proj2 (proj2 H)))|exact (proj1 (proj2 H))].
Defined.

Lemma start_rejected_without_launch_witness :
  (truthy (strip (command_entry busy)) = false ∨
   strip (command_entry busy) = placeholder ∨
   is_task_running busy = true ∨
   truthy (current_api_key busy) = false) ∧
  started_threads (exec (send_command ascii_upper true) busy) = started_threads busy.
Proof.
  assert (truthy (strip (command_entry busy)) = false ∨
          strip (command_entry busy) = placeholder ∨
          is_task_running busy = true ∨
          truthy (current_api_key busy) = false) as H.
  { right. right. left. reflexivity. }
  split; [exact H|].
  exact (proj1 (proj1 (proj2 (start_rejected_without_launch ascii_upper true busy H)))).
Defined.

(** *** C8, C9, C10 *)

Lemma history_display_and_persistence_witness :
  let long := py "Go to microsoft word and write a short 20 word summary on agi." in
  let shown := task_history_frame (exec update_task_history_display ten_tasks) in
  faults ten_tasks !! "task_history.json" = None ∧
  length (task_history ten_tasks) = 10 ∧
  bound_task <$> shown =
    [long; py "t9"; py "t8"; py "t7"; py "t6"; py "t5"; py "t4"; py "t3"] ∧
  (∀ label, shown !! 0 = Some label →
     text label = py "Go to microsoft word and write a short 2...") ∧
  (∀ label, shown !! 1 = Some label → text label = py "t9") ∧
  files (exec (save_task_history ascii_upper) ten_tasks) !! "task_history.json" =
    Some (Json (JArr (JStr <$>
      [py "t1"; py "t2"; py "t3"; py "t4"; py "t5"; py "t6"; py "t7"; py "t8"; py "t9";
       long]))).
Proof.
  intros long shown.
  pose proof (history_display_and_persistence ascii_upper ten_tasks eq_refl) as T.
  cbv zeta in T. destruct T as (_ & _ & Hbound & Htext & _ & Hfile & _).
  split; [reflexivity|]. split; [reflexivity|].
  split; [subst shown; rewrite Hbound; by vm_compute|].
  split; [|split].
  - intros label Hl. rewrite (Htext label (list_elem_of_lookup_2 _ _ _ Hl)).
    vm_compute in Hl. injection Hl as <-. by vm_compute.
  - intros label Hl. rewrite (Htext label (list_elem_of_lookup_2 _ _ _ Hl)).
    vm_compute in Hl. injection Hl as <-. by vm_compute.
  - rewrite Hfile. reflexivity.
Defined.

Lemma settings_rules_saved_witness :
  settings_window settings_open =
    Some (mkSettingsWindow (py "key")
            [py " Be brief "; []; py "Be brief"; py "Cite sources"; py "  "]) ∧
  faults settings_open !! "rules.json" = None ∧
  rules (settings (exec (save_rules_from_settings_ui ascii_upper) settings_open)) =
    [py "Be brief"; py "Cite sources"].
Proof.
  split; [reflexivity|]. split; [reflexivity|].
  pose proof (settings_rules_saved ascii_upper settings_open _ eq_refl eq_refl)
    as (_ & _ & H & _).
  rewrite H. by vm_compute.
Defined.

Lemma load_rules_total_witness :
  ∃ loaded, eval (load_rules ascii_upper) rules_on_disk = Return loaded ∧
            loaded = [py "a"; py "b"].
Proof.
  destruct (load_rules_total ascii_upper rules_on_disk)
    as (loaded & Heval & _ & _ & _ & _ & _ & _ & Hok).
  exists loaded. split; [exact Heval|].
  rewrite (Hok [JStr (py " a "); JStr []; JStr (py "b")] [py " a "; []; py "b"]
             eq_refl eq_refl); [by vm_compute|].
  intros msg. by vm_compute.
Defined.

(** ** Instances of the further properties *)

Lemma accepted_command_starts_worker_witness :
  launches true typed = true ∧
  started_threads (exec (send_command ascii_upper true) typed) =
    [mkThread (py "open notepad") true] ∧
  task_history (exec (send_command ascii_upper true) typed) = [py "open notepad"].
Proof.
  assert (launches true typed = true) as H by reflexivity.
  split; [exact H|].
  pose proof (accepted_command_starts_worker ascii_upper true typed H) as T.
  cbv zeta in T. destruct T as (_ & Hth & _ & Hh & _).
  rewrite Hth, Hh. by vm_compute.
Defined.

Lemma start_task_launches_witness :
  launches true typed_no_agent = true ∧
  agent typed_no_agent = None ∧
  agent_ctor typed_no_agent = None ∧
  is_Some (agent (exec (start_task ascii_upper true) typed_no_agent)) ∧
  started_threads (exec (start_task ascii_upper true) typed_no_agent) =
    [mkThread (py "open notepad") true].
Proof.
  assert (launches true typed_no_agent = true) as H by reflexivity.
  split; [exact H|]. split; [reflexivity|]. split; [reflexivity|].
  pose proof (start_task_launches ascii_upper true typed_no_agent H (or_intror eq_refl)) as T.
  cbv zeta in T. destruct T as (_ & Hag & Hth & _).
  split; [exact Hag|]. rewrite Hth. by vm_compute.
Defined.

Lemma start_task_without_agent_witness :
  agent typed_bad_agent = None ∧
  agent_ctor typed_bad_agent = Some (py "invalid API key") ∧
  started_threads (exec (start_task ascii_upper true) typed_bad_agent) = [] ∧
  task_history (exec (start_task ascii_upper true) typed_bad_agent) = [].
Proof.
  split; [reflexivity|]. split; [reflexivity|].
  assert (command_entry typed_bad_agent ≠ placeholder) as Hph by (by vm_compute).
  pose proof (start_task_without_agent ascii_upper true typed_bad_agent
                eq_refl Hph eq_refl eq_refl (or_intror (ex_intro _ _ eq_refl))) as T.
  cbv zeta in T. destruct T as (_ & _ & Hth & _ & Hh & _).
  rewrite Hth, Hh. by vm_compute.
Defined.

Lemma agent_exception_reported_witness :
  is_Some (agent ready) ∧
  (invoke failing_agent (enhanced_query (rules (settings ready)) (py "go"))).2 =
    Raise (Exception (py "boom")) ∧
  eval (execute_agent_task_async ascii_upper failing_agent (py "go")) ready = Return tt ∧
  is_task_running (exec (execute_agent_task_async ascii_upper failing_agent (py "go")) ready) =
    false.
Proof.
  assert (is_Some (agent ready)) as Hag by (by eexists).
  split; [exact Hag|]. split; [reflexivity|].
  pose proof (agent_exception_reported ascii_upper failing_agent (py "go") (py "boom") ready
                eq_refl Hag eq_refl) as T.
  cbv zeta in T. destruct T as (Hret & _ & Hrun & _). by split.
Defined.

Lemma return_key_skips_agent_setup_witness :
  launches true typed_no_agent = true ∧
  agent (exec (send_command ascii_upper true) typed_no_agent) = None ∧
  agent_calls
    (exec (run_agent_task_async ascii_upper failing_agent (py "open notepad"))
       (exec (send_command ascii_upper true) typed_no_agent)) = [].
Proof.
  assert (launches true typed_no_agent = true) as H by reflexivity.
  split; [exact H|].
  pose proof (return_key_skips_agent_setup ascii_upper true failing_agent typed_no_agent
                H eq_refl eq_refl) as T.
  cbv zeta in T. destruct T as (Hag & _ & Hcalls & _).
  split; [exact Hag|]. exact Hcalls.
Defined.

Lemma successful_run_transcript_witness :
  let env := printing_agent stdout [py "Thought: a"; py "b" ++ [LF]] in
  is_Some (agent ready) ∧
  console (exec (run_agent_task_async ascii_upper env (py "go")) ready) =
    py "Thought: ab" ++ [LF] ∧
  last (message_queue (exec (run_agent_task_async ascii_upper env (py "go")) ready)) =
    Some stopped_notice.
Proof.
  intros env.
  assert (is_Some (agent ready)) as Hag by (by eexists).
  split; [exact Hag|].
  pose proof (successful_run_transcript ascii_upper env (py "go") stdout
                [py "Thought: a"; py "b" ++ [LF]] (mkAgentResult (Some (py "done"))) ready
                eq_refl Hag eq_refl) as T.
  cbv zeta in T. destruct T as (Hq & Hc & _).
  rewrite Hq, Hc. by vm_compute.
Defined.

Lemma terminal_gets_agent_output_witness :
  let env := printing_agent stderr [py "x"; py "y"] in
  is_Some (agent ready) ∧
  console (exec (capture_agent_output ascii_upper env (py "go")) ready) = py "xy".
Proof.
  intros env.
  assert (is_Some (agent ready)) as Hag by (by eexists).
  split; [exact Hag|].
  pose proof (terminal_gets_agent_output ascii_upper env (py "go") ready Hag) as T.
  cbv zeta in T. destruct T as (Hc & _). rewrite Hc. by vm_compute.
Defined.

Lemma sink_independent_of_chunking_witness :
  let env1 := printing_agent stdout [py "ab"; py "c" ++ [LF]] in
  let env2 := printing_agent stderr [py "a"; py "bc" ++ [LF]] in
  concat [py "ab"; py "c" ++ [LF]] = concat [py "a"; py "bc" ++ [LF]] ∧
  message_queue (exec (capture_agent_output ascii_upper env1 (py "go")) ready) =
    message_queue (exec (capture_agent_output ascii_upper env2 (py "go")) ready) ∧
  message_queue (exec (capture_agent_output ascii_upper env1 (py "go")) ready) =
    [(py "Agent", py "abc", py "agent")].
Proof.
  intros env1 env2.
  assert (concat [py "ab"; py "c" ++ [LF]] = concat [py "a"; py "bc" ++ [LF]]) as Hcat
    by (by vm_compute).
  split; [exact Hcat|].
  pose proof (sink_independent_of_chunking ascii_upper env1 env2 (py "go") stdout stderr
                [py "ab"; py "c" ++ [LF]] [py "a"; py "bc" ++ [LF]]
                (Return (mkAgentResult (Some (py "done")))) ready
                (ex_intro _ tt eq_refl) eq_refl eq_refl Hcat) as (_ & Hq & _).
  split; [exact Hq|]. by vm_compute.
Defined.

Lemma queue_drained_in_order_witness :
  sys_stdout waiting = None ∧
  length (message_queue waiting) < 4 ∧
  message_queue (exec (process_message_queue ascii_upper 4) waiting) = [] ∧
  chat_history (exec (process_message_queue ascii_upper 4) waiting) =
    [mkChatMessage (py "12:00:00") (py "Agent") (py "one") (py "agent");
     mkChatMessage (py "12:00:00") (py "System") (py "two") (py "system")].
Proof.
  assert (length (message_queue waiting) < 4) as Hlen by (simpl; lia).
  split; [reflexivity|]. split; [exact Hlen|].
  pose proof (queue_drained_in_order ascii_upper 4 waiting eq_refl Hlen) as T.
  cbv zeta in T. destruct T as (_ & Hq & Hch & _).
  split; [exact Hq|]. rewrite Hch. by vm_compute.
Defined.

Lemma buttons_after_finished_run_witness :
  let env := printing_agent stdout [] in
  let a1 := exec (run_agent_task_async ascii_upper env (py "go")) ready in
  sys_stdout ready = None ∧
  length (message_queue a1) < 20 ∧
  start_button (exec (process_message_queue ascii_upper 20) a1) = normal ∧
  stop_button (exec (process_message_queue ascii_upper 20) a1) = disabled.
Proof.
  intros env a1.
  assert (length (message_queue a1) < 20) as Hlen by (vm_compute; lia).
  split; [reflexivity|]. split; [exact Hlen|].
  pose proof (buttons_after_finished_run ascii_upper env (py "go") 20 ready eq_refl Hlen) as T.
  cbv zeta in T. destruct T as (_ & _ & Hstart & Hstop & _). by split.
Defined.

Lemma add_message_persists_witness :
  faults ready !! "chat_history.json" = None ∧
  files (exec (add_message ascii_upper (py "User") (py "hi") (py "user")) ready)
    !! "chat_history.json" =
    Some (Json (JArr [JObj [(py "timestamp", JStr (py "12:00:00"));
                            (py "sender", JStr (py "User"));
                            (py "message", JStr (py "hi"));
                            (py "type", JStr (py "user"))]])).
Proof.
  split; [reflexivity|].
  pose proof (add_message_persists ascii_upper (py "User") (py "hi") (py "user") ready
                eq_refl) as T.
  cbv zeta in T. destruct T as (_ & Hch & _ & Hfile & _).
  rewrite Hfile, Hch. by vm_compute.
Defined.

Lemma rules_round_trip_witness :
  faults settings_open !! "rules.json" = None ∧
  eval (load_rules ascii_upper)
    (exec (save_rules_from_settings_ui ascii_upper) settings_open) =
    Return [py "Be brief"; py "Cite sources"].
Proof.
  split; [reflexivity|].
  pose proof (rules_round_trip ascii_upper settings_open _ eq_refl eq_refl) as T.
  cbv zeta in T. destruct T as (Hload & Hrules).
  rewrite Hload, Hrules. by vm_compute.
Defined.

Lemma window_keeps_five_rules_witness :
  settings_window six_rules_on_disk = None ∧
  faults six_rules_on_disk !! "rules.json" = None ∧
  eval (load_rules ascii_upper) six_rules_on_disk =
    Return [py "r1"; py "r2"; py "r3"; py "r4"; py "r5"; py "r6"] ∧
  rules (settings (exec (bind (show_settings ascii_upper)
                           (λ _, save_rules_from_settings_ui ascii_upper))
                     six_rules_on_disk)) =
    [py "r1"; py "r2"; py "r3"; py "r4"; py "r5"].
Proof.
  split; [reflexivity|]. split; [reflexivity|]. split; [by vm_compute|].
  pose proof (window_keeps_five_rules ascii_upper six_rules_on_disk eq_refl eq_refl) as T.
  cbv zeta in T. destruct T as (loaded & Hload & Hrules & _).
  assert (loaded = [py "r1"; py "r2"; py "r3"; py "r4"; py "r5"; py "r6"]) as ->.
  { vm_compute in Hload. injection Hload as <-. by vm_compute. }
  rewrite Hrules. by vm_compute.
Defined.

Lemma reopened_window_shows_saved_rules_witness :
  faults settings_open !! "rules.json" = None ∧
  settings_window
    (exec (bind (save_rules_from_settings_ui ascii_upper)
             (λ _, bind destroy_settings_window (λ _, show_settings ascii_upper)))
       settings_open) =
    Some (mkSettingsWindow (py "key") [py "Be brief"; py "Cite sources"; []; []; []]).
Proof.
  split; [reflexivity|].
  assert (length (rule_entries
                    (mkSettingsWindow (py "key")
                       [py " Be brief "; []; py "Be brief"; py "Cite sources"; py "  "])) ≤ 5)
    as Hlen by (simpl; lia).
  pose proof (reopened_window_shows_saved_rules ascii_upper settings_open _
                eq_refl eq_refl Hlen) as T.
  cbv zeta in T. destruct T as (Hwin & _). rewrite Hwin. by vm_compute.
Defined.

Lemma saved_rules_reach_agent_witness :
  let env := printing_agent stdout [] in
  faults settings_open !! "rules.json" = None ∧
  is_Some (agent settings_open) ∧
  agent_calls
    (exec (bind (save_rules_from_settings_ui ascii_upper)
             (λ _, execute_agent_task_async ascii_upper env (py "C")))
       settings_open) =
    [py "IMPORTANT: Follow these rules while completing the task:" ++ [LF] ++
     py "1. Be brief" ++ [LF] ++ py "2. Cite sources" ++ [LF] ++ [LF] ++
     py "Now complete this task: C"].
Proof.
  intros env.
  assert (is_Some (agent settings_open)) as Hag by (by eexists).
  split; [reflexivity|]. split; [exact Hag|].
  pose proof (saved_rules_reach_agent ascii_upper env (py "C") settings_open _
                eq_refl eq_refl Hag) as T.
  cbv zeta in T. rewrite T. by vm_compute.
Defined.

Lemma history_click_reruns_task_witness :
  reverse (task_history busy) !! 0 = Some (py "first task") ∧
  command_entry busy = py "second task" ∧
  command_entry (exec (bind update_task_history_display (λ _, click_task_label 0)) busy) =
    py "first task".
Proof.
  assert (reverse (task_history busy) !! 0 = Some (py "first task")) as H by reflexivity.
  assert (0 < 8) as H8 by lia.
  split; [exact H|]. split; [reflexivity|].
  pose proof (history_click_reruns_task ascii_upper true busy 0 (py "first task") H H8) as T.
  cbv zeta in T. exact (proj1 T).
Defined.

Lemma api_key_saved_witness :
  faults key_typed !! ".env" = None ∧
  current_api_key key_typed = py "key" ∧
  current_api_key (exec (save_api_key ascii_upper true) key_typed) = py "new-key" ∧
  dialogs (exec (save_api_key ascii_upper true) key_typed) = [].
Proof.
  split; [reflexivity|]. split; [reflexivity|].
  assert (truthy (strip (api_key_entry (mkSettingsWindow (py " new-key ") (replicate 5 []))))
          = true) as Hkey by (by vm_compute).
  pose proof (api_key_saved ascii_upper true key_typed _ eq_refl Hkey eq_refl) as T.
  cbv zeta in T. destruct T as (_ & Hcur & _ & _ & Hd & _).
  rewrite Hcur, Hd. by vm_compute.
Defined.

Lemma api_key_not_saved_witness :
  faults (env_read_only key_typed) !! ".env" = Some (OpenFails (py "Permission denied")) ∧
  current_api_key (exec (save_api_key ascii_upper true) (env_read_only key_typed)) =
    py "key" ∧
  dialogs (exec (save_api_key ascii_upper true) (env_read_only key_typed)) =
    [showerror (py "Error") (py "Failed to save API key: Permission denied")].
Proof.
  split; [reflexivity|].
  assert (truthy (strip (api_key_entry (mkSettingsWindow (py " new-key ") (replicate 5 []))))
          = true) as Hkey by (by vm_compute).
  pose proof (api_key_not_saved ascii_upper true (env_read_only key_typed) _ eq_refl) as T.
  cbv zeta in T. destruct T as (_ & Hfail & _).
  destruct (Hfail (OpenFails (py "Permission denied")) Hkey eq_refl) as (Hcur & _ & _ & Hd).
  rewrite Hcur, Hd. by vm_compute.
Defined.

